(** * WISP chat protocol: a shallow embedding of the codec, the server
    sessions, the session registry and the discovery responder.

    Sources embedded: [wisp_common.py] (module [wcom], the name under which
    the other files import it), [wisp_server.py], [server.py] and the
    receiving side of [wisp_client.py].  Functions keep their Python names.

    Python strings and bytes are lists of integers, [encode] and [decode]
    are UTF-8.  A call runs on an explicit state and ends by returning, by
    raising, or by waiting on a socket.  The server's state is the
    dictionary [DATASTORE], the thread objects by identity, and the
    registry [_sessions], a list of references to them. *)

From Stdlib Require Import ZArith Lia.
From stdpp Require Import base decidable option list strings gmap.

Local Open Scope Z_scope.

(** ** Python values *)

(** A Python [str] is a sequence of Unicode code points, a [bytes] object a
    sequence of octets; both are lists of integers. *)
Definition pystr := list Z.
Definition bytes := list Z.

(** A literal of the source, read as its code points. *)
Definition str (s : string) : pystr :=
  (fun a => Z.of_N (Ascii.N_of_ascii a)) <$> String.list_ascii_of_string s.

Definition is_ascii (s : list Z) : Prop := Forall (fun c => 0 <= c < 128) s.

#[global] Instance is_ascii_dec s : Decision (is_ascii s).
Proof. unfold is_ascii. apply _. Defined.

(** What can end a Python call other than a return.  [SystemExit] is what
    [sys.exit] raises; it is not a subclass of [Exception]. *)
Inductive PyExc :=
| SystemExit (code : Z)
| TypeError
| KeyError
| ValueError
| IndexError
| AttributeError
| UnicodeError
| StructError
| Exception (msg : string)
| OsExit (code : Z).

(** [except Exception] catches everything here but [SystemExit]; [OsExit]
    stands for [os._exit], which ends the process and is caught by
    nothing. *)
Definition is_Exception (e : PyExc) : bool :=
  match e with SystemExit _ | OsExit _ => false | _ => true end.

Inductive result (A : Type) :=
| Ret (a : A)
| Raise (e : PyExc).
Arguments Ret {A} a.
Arguments Raise {A} e.

Definition of_option {A} (e : PyExc) (o : option A) : result A :=
  match o with Some a => Ret a | None => Raise e end.

Definition rbind {A B} (r : result A) (k : A -> result B) : result B :=
  match r with Ret a => k a | Raise e => Raise e end.

(** *** [str.encode()] and [bytes.decode()]: UTF-8, strict *)

Definition utf8_char (c : Z) : option bytes :=
  if bool_decide (c < 0) then None
  else if bool_decide (c < 128) then Some [c]
  else if bool_decide (c < 2048) then Some [192 + c / 64; 128 + c mod 64]
  else if bool_decide (c < 65536) then
    if bool_decide (55296 <= c < 57344) then None
    else Some [224 + c / 4096; 128 + (c / 64) mod 64; 128 + c mod 64]
  else if bool_decide (c < 1114112) then
    Some [240 + c / 262144; 128 + (c / 4096) mod 64;
          128 + (c / 64) mod 64; 128 + c mod 64]
  else None.

Fixpoint encode (s : pystr) : option bytes :=
  match s with
  | [] => Some []
  | c :: s' =>
      match utf8_char c, encode s' with
      | Some b, Some bs => Some (b ++ bs)
      | _, _ => None
      end
  end.

Definition is_cont (b : Z) : bool := bool_decide (128 <= b < 192).

Fixpoint decode (b : bytes) : option pystr :=
  match b with
  | [] => Some []
  | b0 :: r =>
      if bool_decide (0 <= b0 < 128) then cons b0 <$> decode r
      else if bool_decide (194 <= b0 < 224) then
        match r with
        | b1 :: r1 =>
            if is_cont b1
            then cons ((b0 - 192) * 64 + (b1 - 128)) <$> decode r1
            else None
        | _ => None
        end
      else if bool_decide (224 <= b0 < 240) then
        match r with
        | b1 :: b2 :: r2 =>
            let c := (b0 - 224) * 4096 + (b1 - 128) * 64 + (b2 - 128) in
            if is_cont b1 && is_cont b2 && bool_decide (2048 <= c)
               && negb (bool_decide (55296 <= c < 57344))
            then cons c <$> decode r2
            else None
        | _ => None
        end
      else if bool_decide (240 <= b0 < 245) then
        match r with
        | b1 :: b2 :: b3 :: r3 =>
            let c := (b0 - 240) * 262144 + (b1 - 128) * 4096
                     + (b2 - 128) * 64 + (b3 - 128) in
            if is_cont b1 && is_cont b2 && is_cont b3
               && bool_decide (65536 <= c < 1114112)
            then cons c <$> decode r3
            else None
        | _ => None
        end
      else None
  end.

(** [s.ljust(width)]: pad with spaces on the right up to [width]
    characters; a longer string is returned as it is. *)
Definition ljust (width : nat) (s : pystr) : pystr :=
  s ++ replicate (width - length s)%nat 32.

(** [struct.pack('<I', n)] and [struct.unpack('<I', b)[0]]. *)
Definition pack_I (n : Z) : option bytes :=
  if bool_decide (0 <= n < 4294967296)
  then Some [n mod 256; (n / 256) mod 256; (n / 65536) mod 256;
             (n / 16777216) mod 256]
  else None.

Definition unpack_I (b : bytes) : option Z :=
  match b with
  | [b0; b1; b2; b3] => Some (b0 + 256 * b1 + 65536 * b2 + 16777216 * b3)
  | _ => None
  end.

(** [needle in haystack] on two strings: substring test. *)
Fixpoint str_contains (needle haystack : pystr) : bool :=
  bool_decide (take (length needle) haystack = needle)
  || match haystack with
     | [] => false
     | _ :: h' => str_contains needle h'
     end.

(** *** Calls with effects *)

(** A call returns, raises, or waits on a socket that has nothing to read. *)
Inductive outcome (A : Type) :=
| Done (r : result A)
| Blocked.
Arguments Done {A} r.
Arguments Blocked {A}.

(** State passing over a state [S], with the three endings above. *)
Definition ST (S A : Type) : Type := S -> outcome A * S.

#[global] Instance ST_ret {S} : MRet (ST S) := fun A a w => (Done (Ret a), w).
#[global] Instance ST_bind {S} : MBind (ST S) := fun A B k m w =>
  match m w with
  | (Done (Ret a), w') => k a w'
  | (Done (Raise e), w') => (Done (Raise e), w')
  | (Blocked, w') => (Blocked, w')
  end.

Definition raise {S A} (e : PyExc) : ST S A := fun w => (Done (Raise e), w).
Definition block {S A} : ST S A := fun w => (Blocked, w).
Definition lift {S A} (r : result A) : ST S A := fun w => (Done r, w).
Definition get_state {S} : ST S S := fun w => (Done (Ret w), w).
Definition put_state {S} (w : S) : ST S unit := fun _ => (Done (Ret tt), w).

(** [sys.exit(code)] *)
Definition sys_exit {S A} (code : Z) : ST S A := raise (SystemExit code).

(** [try: body except Exception: handler] *)
Definition try_except {S A} (body : ST S A) (handler : PyExc -> ST S A)
  : ST S A :=
  fun w =>
    match body w with
    | (Done (Raise e), w') =>
        if is_Exception e then handler e w' else (Done (Raise e), w')
    | r => r
    end.

(** *** Sockets *)

(** A connected TCP socket as its owner sees it: [rx] holds the segments
    that have arrived and were not read yet, [peer_closed] says that no
    more will come, [tx] is everything sent so far and [closed] records
    [close()]. *)
Record Socket := mkSocket {
  rx : list bytes;
  peer_closed : bool;
  tx : list bytes;
  closed : bool
}.

(** [sock.recv(size)] on a stream socket: at most [size] bytes of the
    first pending segment; the empty bytes object once the peer has
    closed; otherwise the call waits. *)
Definition sock_recv (size : nat) (s : Socket) : option (bytes * Socket) :=
  match rx s with
  | seg :: rest =>
      let rest' := match drop size seg with
                   | [] => rest
                   | more => more :: rest
                   end in
      Some (take size seg, mkSocket rest' (peer_closed s) (tx s) (closed s))
  | [] => if peer_closed s then Some ([], s) else None
  end.

Definition sock_send (b : bytes) (s : Socket) : Socket :=
  mkSocket (rx s) (peer_closed s) (tx s ++ [b]) (closed s).

Definition sock_close (s : Socket) : Socket :=
  mkSocket (rx s) (peer_closed s) (tx s) true.

(** [select.select([sock], [], [], 0)]: readable when data or the end of
    the stream is there. *)
Definition sock_readable (s : Socket) : bool :=
  match rx s with
  | _ :: _ => true
  | [] => peer_closed s
  end.

(** The same calls as state-passing computations on the socket. *)
Definition recv (size : nat) : ST Socket bytes := fun s =>
  match sock_recv size s with
  | Some (b, s') => (Done (Ret b), s')
  | None => (Blocked, s)
  end.

Definition send (b : bytes) : ST Socket unit := fun s =>
  (Done (Ret tt), sock_send b s).

(** ** wisp_common.py *)
Module wcom.

Definition WISP_DEFAULT_PORT : Z := 32500.
Definition WISP_ARP_REQ : bytes := str "Is anyone there?".
Definition WISP_ARP_RES : bytes := str "WISPRES:".

Inductive State := Listening | Authentication | Command | Conversation.

#[global] Instance State_eq_dec : EqDecision State.
Proof. solve_decision. Defined.

(** Request command codes (class attributes of [WispRequest]). *)
Definition VERSION := str "VERS".
Definition AUTH := str "USPS".
Definition ADD := str "ADDU".
Definition DEL := str "DELU".
Definition LIST := str "LIST".
Definition SEARCH := str "SRCH".
Definition CONV := str "CONV".
Definition QUIT := str "QUIT".

Record WispRequest := mkRequest {
  cmd : pystr;
  arg1 : pystr;
  arg2 : pystr
}.

(** [WispRequest.valid] *)
Definition valid (value : pystr) : bool :=
  bool_decide (value ∈ [VERSION; AUTH; ADD; DEL; LIST; SEARCH; CONV; QUIT]).

(** Response codes (class attributes of [WispResponse]). *)
Definition OK := str "OK".
Definition ERROR := str "ER".

Record WispResponse := mkResponse {
  code : pystr;
  count : Z;
  data : list pystr
}.

(** [WispResponse.__init__]: the count is the length of the data. *)
Definition new_WispResponse (code : pystr) (data : list pystr) :=
  mkResponse code (Z.of_nat (length data)) data.

Record WispMessage := mkMessage {
  time : Z;
  text : pystr
}.

(** [WispMessage.__init__]: [timestamp or int(time.time())]; a timestamp
    of [None] or [0] is falsy and replaced by the clock's value. *)
Definition new_WispMessage (now : Z) (text : pystr) (timestamp : option Z) :=
  mkMessage (match timestamp with
             | Some t => if bool_decide (t = 0) then now else t
             | None => now
             end) text.

(** [STATE_MAP]; the dictionary has no key [State.Conversation]. *)
Definition STATE_MAP (s : State) : option (list pystr) :=
  match s with
  | Listening => Some [VERSION]
  | Authentication => Some [AUTH]
  | Command => Some [ADD; DEL; LIST; SEARCH; CONV; QUIT]
  | Conversation => None
  end.

Definition build_req (cmd arg1 arg2 : pystr) : option bytes :=
  let one := ljust 16 (arg1 ++ [0]) in
  let two := ljust 16 (arg2 ++ [0]) in
  encode (cmd ++ one ++ two).

Fixpoint build_res_fields (args : list pystr) : option bytes :=
  match args with
  | [] => Some []
  | arg :: rest =>
      f ← encode (ljust 16 (arg ++ [0]));
      fs ← build_res_fields rest;
      Some (f ++ fs)
  end.

Definition build_res (code : pystr) (count : Z) (args : list pystr)
  : option bytes :=
  c ← encode code;
  n ← pack_I count;
  fs ← build_res_fields args;
  Some (c ++ n ++ fs).

Definition build_msg (timestamp : Z) (buf : pystr) : option bytes :=
  t ← pack_I timestamp;
  b ← encode (ljust 128 (buf ++ [0]));
  Some (t ++ b).

Fixpoint parse_pkt_field (field : pystr) : pystr :=
  match field with
  | [] => []
  | char :: rest =>
      if bool_decide (char = 0) then [] else char :: parse_pkt_field rest
  end.

(** [parse_message(socket, logger)]: [None] for a short or undecodable
    frame.  [now] is the clock read by [WispMessage.__init__]. *)
Definition parse_message (now : Z) : ST Socket (option WispMessage) :=
  try_except
    (msg ← recv 132;
     if bool_decide (length msg < 132)%nat
     then raise (Exception "Message too short")
     else
       timestamp ← lift (of_option StructError (unpack_I (take 4 msg)));
       field ← lift (of_option UnicodeError (decode (drop 4 msg)));
       mret (Some (new_WispMessage now (parse_pkt_field field)
                                   (Some timestamp))))
    (fun err => mret None).

End wcom.

(** ** Program state *)

(** The state of one [WispServer] thread object.  [alive] is what
    [Thread.is_alive()] answers. *)
Record WispServer := mkWispServer {
  user : option pystr;
  target : option pystr;
  msgq : list wcom.WispMessage;
  _conn : Socket;
  _auth_counter : Z;
  _working : bool;
  _state : wcom.State;
  alive : bool
}.

(** One entry of [DATASTORE]. *)
Record Account := mkAccount {
  password : pystr;
  friends : list pystr
}.

(** The server process: the module-level dictionary [DATASTORE] (in
    insertion order), the thread objects by identity, and [Server._sessions],
    a list of references to them. *)
Record World := mkWorld {
  DATASTORE : list (pystr * Account);
  objects : gmap nat WispServer;
  _sessions : list nat;
  clock : Z
}.

(** Calls on the server process. *)
Abbreviation M := (ST World).
Definition get_world : M World := get_state.
Definition put_world (w : World) : M unit := put_state w.

(** Attribute access on the thread object [self]. *)
Definition getattr {A} (self : nat) (f : WispServer -> A) : M A :=
  w ← get_world;
  match objects w !! self with
  | Some o => mret (f o)
  | None => raise AttributeError
  end.

Definition setattr (self : nat) (f : WispServer -> WispServer) : M unit :=
  w ← get_world;
  match objects w !! self with
  | Some o =>
      put_world (mkWorld (DATASTORE w) (<[self := f o]> (objects w))
                         (_sessions w) (clock w))
  | None => raise AttributeError
  end.

Definition set_user v o :=
  mkWispServer v (target o) (msgq o) (_conn o) (_auth_counter o)
               (_working o) (_state o) (alive o).
Definition set_target v o :=
  mkWispServer (user o) v (msgq o) (_conn o) (_auth_counter o)
               (_working o) (_state o) (alive o).
Definition set_msgq v o :=
  mkWispServer (user o) (target o) v (_conn o) (_auth_counter o)
               (_working o) (_state o) (alive o).
Definition set_conn v o :=
  mkWispServer (user o) (target o) (msgq o) v (_auth_counter o)
               (_working o) (_state o) (alive o).
Definition set_auth_counter v o :=
  mkWispServer (user o) (target o) (msgq o) (_conn o) v
               (_working o) (_state o) (alive o).
Definition set_state v o :=
  mkWispServer (user o) (target o) (msgq o) (_conn o) (_auth_counter o)
               (_working o) v (alive o).
Definition set_alive v o :=
  mkWispServer (user o) (target o) (msgq o) (_conn o) (_auth_counter o)
               (_working o) (_state o) v.

(** *** Socket calls of a session *)

(** A socket call made on [self._conn]. *)
Definition on_conn {A} (self : nat) (call : ST Socket A) : M A :=
  c ← getattr self _conn;
  match call c with
  | (Done r, c') => _ ← setattr self (set_conn c'); lift r
  | (Blocked, _) => block
  end.

(** [self._conn.send(payload)]; building the payload may have failed. *)
Definition conn_send (self : nat) (payload : option bytes) : M unit :=
  b ← lift (of_option UnicodeError payload);
  on_conn self (send b).

Definition conn_close (self : nat) : M unit :=
  c ← getattr self _conn;
  setattr self (set_conn (sock_close c)).

(** ** wisp_server.py *)
Module wisp_server.

(** What a handler returns: [(outcome, data)]. *)
Definition reply : Type := bool * list pystr.

(** The dictionary [req_callbacks] passed to [WispServer.__init__], one
    field per key the class looks up. *)
Record ReqCallbacks := mkReqCallbacks {
  cb_AUTH : pystr -> pystr -> M reply;
  cb_LIST : option pystr -> M reply;
  cb_SEARCH : option pystr -> pystr -> M reply;
  cb_ADD : option pystr -> pystr -> M reply;
  cb_DEL : option pystr -> pystr -> M reply;
  cb_CONV : option pystr -> pystr -> M reply
}.

Section WispServer.
Variable _req_callbacks : ReqCallbacks.
Variable _msg_callback : option pystr -> wcom.WispMessage -> M unit.

Definition check_msg_state (o : WispServer) : bool :=
  if decide (_state o = wcom.Conversation) then true else false.

Definition _handle_quit {A} (self : nat) : M A := sys_exit 0.

(** [_recv]: on a short read the log line evaluates [len(size)] on an
    integer, which raises [TypeError] before [_handle_quit] is reached. *)
Definition _recv (self : nat) (size : nat) : M bytes :=
  msg ← on_conn self (recv size);
  if bool_decide (length msg ≠ size) then raise TypeError
  else mret msg.

Definition _parse_request (self : nat) : M wcom.WispRequest :=
  packet ← _recv self 36;
  cmd ← lift (of_option UnicodeError (decode (take 4 packet)));
  if wcom.valid cmd then
    one ← lift (of_option UnicodeError (decode (take 16 (drop 4 packet))));
    two ← lift (of_option UnicodeError (decode (drop 20 packet)));
    mret (wcom.mkRequest cmd (wcom.parse_pkt_field one)
                         (wcom.parse_pkt_field two))
  else _handle_quit self.

Definition _send_res (self : nat) (status : pystr) (data : list pystr)
  : M unit :=
  conn_send self (wcom.build_res status (Z.of_nat (length data)) data).

Definition _version_handshake (self : nat) : M unit :=
  let versions := [str "1.1"] in
  _ ← _send_res self wcom.OK versions;
  req ← _parse_request self;
  if bool_decide (wcom.cmd req ≠ wcom.VERSION) then
    _ ← _send_res self wcom.ERROR [str "Invalid version response"];
    sys_exit 1
  else if bool_decide (wcom.arg1 req ∉ versions) then
    _ ← _send_res self wcom.ERROR [str "Unsupported version"];
    sys_exit 1
  else
    _ ← _send_res self wcom.OK [];
    setattr self (set_state wcom.Authentication).

Definition _handle_auth (self : nat) (username password : pystr)
  : M reply :=
  '(outcome, data) ← cb_AUTH _req_callbacks username password;
  _ ← (if outcome : bool then
         _ ← setattr self (set_state wcom.Command);
         setattr self (set_user (Some username))
       else
         n ← getattr self _auth_counter;
         _ ← setattr self (set_auth_counter (n + 1));
         n' ← getattr self _auth_counter;
         if bool_decide (n' > 5) then sys_exit 1 else mret tt);
  mret (outcome, data).

Definition _handle_conv (self : nat) (target : pystr) (_ : pystr)
  : M reply :=
  u ← getattr self user;
  '(outcome, data) ← cb_CONV _req_callbacks u target;
  _ ← (if outcome : bool then
         _ ← setattr self (set_state wcom.Conversation);
         setattr self (set_target (Some target))
       else mret tt);
  mret (outcome, data).

(** The dictionary [self._handlers]; it has no key [VERSION]. *)
Definition _handlers (self : nat) (cmd : pystr)
  : option (pystr -> pystr -> M reply) :=
  if decide (cmd = wcom.AUTH) then Some (_handle_auth self)
  else if decide (cmd = wcom.LIST) then
    Some (fun _ _ => u ← getattr self user; cb_LIST _req_callbacks u)
  else if decide (cmd = wcom.SEARCH) then
    Some (fun term _ =>
            u ← getattr self user; cb_SEARCH _req_callbacks u term)
  else if decide (cmd = wcom.ADD) then
    Some (fun target _ =>
            u ← getattr self user; cb_ADD _req_callbacks u target)
  else if decide (cmd = wcom.DEL) then
    Some (fun target _ =>
            u ← getattr self user; cb_DEL _req_callbacks u target)
  else if decide (cmd = wcom.QUIT) then Some (fun _ _ => _handle_quit self)
  else if decide (cmd = wcom.CONV) then Some (_handle_conv self)
  else None.

(** The [Conversation] branch of the loop body. *)
Definition run_conversation (self : nat) : M unit :=
  c ← getattr self _conn;
  _ ← (if sock_readable c then
         w ← get_world;
         parsed ← on_conn self (wcom.parse_message (clock w));
         match parsed with
         | None => sys_exit 1
         | Some msg =>
             if bool_decide (wcom.text msg = []) then
               setattr self (set_state wcom.Command)
             else
               t ← getattr self target;
               _msg_callback t msg
         end
       else mret tt);
  q ← getattr self msgq;
  match q with
  | msg :: q' =>
      _ ← setattr self (set_msgq q');
      conn_send self (wcom.build_msg (wcom.time msg) (wcom.text msg))
  | [] => mret tt
  end.

(** The branch for every other state: one request PDU. *)
Definition run_request (self : nat) (st : wcom.State) : M unit :=
  req ← _parse_request self;
  legal ← lift (of_option KeyError (wcom.STATE_MAP st));
  if bool_decide (wcom.cmd req ∈ legal) then
    handler ← lift (of_option KeyError (_handlers self (wcom.cmd req)));
    '(outcome, data) ← handler (wcom.arg1 req) (wcom.arg2 req);
    if outcome : bool then _send_res self wcom.OK data
    else _send_res self wcom.ERROR data
  else mret tt.

(** One turn of the [while] loop of [run], with its [try]/[except]. *)
Definition run_iteration (self : nat) : M unit :=
  try_except
    (st ← getattr self _state;
     if decide (st = wcom.Conversation) then run_conversation self
     else run_request self st)
    (fun err => _ ← conn_close self; sys_exit 1).

(** The thread for one turn: an exception that leaves [run], or a
    cleared [_working] flag, ends the thread; a turn that waits for
    input changes nothing. *)
Definition thread_step (self : nat) (w : World) : World :=
  match objects w !! self with
  | Some o =>
      if negb (alive o) then w
      else if _working o then
        match run_iteration self w with
        | (Done (Ret _), w') => w'
        | (Done (Raise _), w') => (setattr self (set_alive false) w').2
        | (Blocked, _) => w
        end
      else (setattr self (set_alive false) w).2
  | None => w
  end.

End WispServer.
End wisp_server.

(** ** server.py *)
Module server.

(** *** The dictionary [DATASTORE] *)

(** [DATASTORE[key]]; a key that is [None] is never present. *)
Fixpoint ds_get (ds : list (pystr * Account)) (key : option pystr)
  : option Account :=
  match ds with
  | [] => None
  | (k, a) :: rest =>
      if decide (Some k = key) then Some a else ds_get rest key
  end.

(** [key in DATASTORE] *)
Definition ds_mem (ds : list (pystr * Account)) (key : option pystr) : bool :=
  match ds_get ds key with Some _ => true | None => false end.

(** In-place change of the list [DATASTORE[key]['friends']]. *)
Fixpoint ds_set_friends (ds : list (pystr * Account)) (key : pystr)
    (f : list pystr -> list pystr) : list (pystr * Account) :=
  match ds with
  | [] => []
  | (k, a) :: rest =>
      if decide (k = key)
      then (k, mkAccount (password a) (f (friends a))) :: rest
      else (k, a) :: ds_set_friends rest key f
  end.

(** [lst.remove(x)]: drop the first occurrence; [None] stands for the
    [ValueError] raised when there is none. *)
Fixpoint list_remove (x : pystr) (lst : list pystr) : option (list pystr) :=
  match lst with
  | [] => None
  | y :: rest =>
      if decide (y = x) then Some rest else cons y <$> list_remove x rest
  end.

Definition initial_DATASTORE : list (pystr * Account) :=
  [ (str "andrei", mkAccount (str "dorin")
       [str "safa"; str "cameron"; str "kenny"; str "colbert"]);
    (str "cameron", mkAccount (str "graybill") [str "andrei"]);
    (str "safa", mkAccount (str "aman") [str "andrei"]);
    (str "michael", mkAccount (str "kain") []);
    (str "kenny", mkAccount (str "li") [str "andrei"]);
    (str "colbert", mkAccount (str "zhu") [str "andrei"]) ].

Definition get_DATASTORE : M (list (pystr * Account)) :=
  w ← get_world; mret (DATASTORE w).

Definition put_DATASTORE (ds : list (pystr * Account)) : M unit :=
  w ← get_world;
  put_world (mkWorld ds (objects w) (_sessions w) (clock w)).

Definition put_sessions (l : list nat) : M unit :=
  w ← get_world;
  put_world (mkWorld (DATASTORE w) (objects w) l (clock w)).

(** [DATASTORE[key]['friends']], [KeyError] when the key is missing. *)
Definition friends_of (key : option pystr) : M (list pystr) :=
  ds ← get_DATASTORE;
  a ← lift (of_option KeyError (ds_get ds key));
  mret (friends a).

(** *** Service discovery *)

(** [udp.recv(bufsize)] on a datagram socket hands over one datagram, cut
    to [bufsize] bytes. *)
Definition udp_recv (bufsize : nat) (datagram : bytes) : bytes :=
  take bufsize datagram.

(** One turn of the loop of [service_descovery] for one arriving
    datagram: the payload broadcast in answer, if any.  [addr] is the
    local address found before the loop. *)
Definition service_descovery (addr : pystr) (datagram : bytes)
  : result (option bytes) :=
  let data := udp_recv (length wcom.WISP_ARP_REQ) datagram in
  if decide (data = wcom.WISP_ARP_REQ) then
    rbind (of_option UnicodeError (encode addr))
          (fun a => Ret (Some (wcom.WISP_ARP_RES ++ a)))
  else Ret None.

(** *** Handlers for all commands *)

Definition _handle_auth (username password : pystr)
  : M wisp_server.reply :=
  ds ← get_DATASTORE;
  match ds_get ds (Some username) with
  | Some (mkAccount stored _) =>
      if decide (stored = password) then mret (true, [])
      else mret (false, [str "Invalid Cred"])
  | None => mret (false, [str "Invalid Cred"])
  end.

Definition _handle_list (username : option pystr) : M wisp_server.reply :=
  ds ← get_DATASTORE;
  match ds_get ds username with
  | None => mret (false, [str "Invalid user"])
  | Some a => mret (true, friends a)
  end.

Fixpoint _handle_search_loop (keys : list pystr) (owner : option pystr)
    (lookup : pystr) (user_list : list pystr) : M (list pystr) :=
  match keys with
  | [] => mret user_list
  | user :: rest =>
      if bool_decide (Some user ≠ owner) && str_contains lookup user then
        fr ← friends_of owner;
        if bool_decide (user ∉ fr)
        then _handle_search_loop rest owner lookup (user_list ++ [user])
        else _handle_search_loop rest owner lookup user_list
      else _handle_search_loop rest owner lookup user_list
  end.

Definition _handle_search (owner : option pystr) (lookup : pystr)
  : M wisp_server.reply :=
  ds ← get_DATASTORE;
  user_list ← _handle_search_loop (fst <$> ds) owner lookup [];
  mret (true, user_list).

Definition _handle_add (owner : option pystr) (user : pystr)
  : M wisp_server.reply :=
  ds ← get_DATASTORE;
  match owner with
  | Some o =>
      if negb (ds_mem ds owner) || negb (ds_mem ds (Some user)) then
        mret (false, [str "Invalid User"])
      else
        _ ← put_DATASTORE (ds_set_friends ds o (fun l => l ++ [user]));
        ds' ← get_DATASTORE;
        _ ← put_DATASTORE (ds_set_friends ds' user (fun l => l ++ [o]));
        mret (true, [])
  | None => mret (false, [str "Invalid User"])
  end.

Definition _handle_del (owner : option pystr) (user : pystr)
  : M wisp_server.reply :=
  ds ← get_DATASTORE;
  match owner, ds_get ds owner with
  | Some o, Some a =>
      if bool_decide (user ∉ friends a) then
        mret (false, [str "Invalid Users"])
      else
        l ← lift (of_option ValueError (list_remove user (friends a)));
        _ ← put_DATASTORE (ds_set_friends ds o (fun _ => l));
        fr ← friends_of (Some user);
        l' ← lift (of_option ValueError (list_remove o fr));
        ds' ← get_DATASTORE;
        _ ← put_DATASTORE (ds_set_friends ds' user (fun _ => l'));
        mret (true, [])
  | _, _ => mret (false, [str "Invalid Users"])
  end.

Fixpoint _handle_conv_loop (conns : list nat) (target : pystr) : M bool :=
  match conns with
  | [] => mret false
  | conn :: rest =>
      u ← getattr conn user;
      if decide (u = Some target) then mret true
      else _handle_conv_loop rest target
  end.

Definition _handle_conv (owner : option pystr) (target : pystr)
  : M wisp_server.reply :=
  fr ← friends_of owner;
  if bool_decide (target ∉ fr) then mret (false, [str "Friend Unknown"])
  else
    w ← get_world;
    online ← _handle_conv_loop (_sessions w) target;
    if online : bool then mret (true, [])
    else mret (false, [str "User offline"]).

(** The loop of [_handle_message]; [n] is one more than the index [i],
    which runs from [len(self._sessions) - 1] down to [0]. *)
Fixpoint _handle_message_loop (n : nat) (receiver : option pystr)
    (msg : wcom.WispMessage) : M unit :=
  match n with
  | O => mret tt
  | S i =>
      w ← get_world;
      ref ← lift (of_option IndexError (_sessions w !! i));
      connection ← getattr ref id;
      if negb (alive connection) then
        _ ← put_sessions (delete i (_sessions w));
        _handle_message_loop i receiver msg
      else if bool_decide (user connection = receiver)
              && wisp_server.check_msg_state connection then
        _ ← setattr ref (fun o => set_msgq (msgq o ++ [msg]) o);
        _handle_message_loop i receiver msg
      else _handle_message_loop i receiver msg
  end.

Definition _handle_message (receiver : option pystr)
    (msg : wcom.WispMessage) : M unit :=
  w ← get_world;
  _handle_message_loop (length (_sessions w)) receiver msg.

(** [Server._handlers], the callbacks given to every session. *)
Definition _handlers : wisp_server.ReqCallbacks :=
  wisp_server.mkReqCallbacks
    _handle_auth _handle_list _handle_search _handle_add _handle_del
    _handle_conv.

(** One turn of the accept loop of [start] for a new connection: the
    [WispServer] constructor (which runs the version handshake), then
    [server.start()] and the registration in [self._sessions].  An
    exception of the handshake leaves the constructor and the loop. *)
Definition accept (conn : Socket) : M nat :=
  w ← get_world;
  let ref := fresh (dom (objects w)) in
  let server :=
    mkWispServer None None [] conn 0 true wcom.Listening false in
  _ ← put_world (mkWorld (DATASTORE w) (<[ref := server]> (objects w))
                         (_sessions w) (clock w));
  _ ← wisp_server._version_handshake ref;
  _ ← setattr ref (set_alive true);
  w' ← get_world;
  _ ← put_sessions (_sessions w' ++ [ref]);
  mret ref.

(** A session of this server. *)
Definition session_step : nat -> World -> World :=
  wisp_server.thread_step _handlers _handle_message.

(** The server process: running in some state, or ended with an exit
    status. *)
Inductive Process :=
| Running (w : World)
| Exited (status : Z).

(** One turn of the [while True] loop of [start] as the process sees it.
    The loop runs on the main thread, and neither [start] nor [main]
    catches anything: an exception that leaves [accept] ends the
    interpreter, with the code of [sys.exit] or with status 1 after the
    traceback of any other exception, and the session threads, all
    daemons, end with it.  A turn that waits for the client changes
    nothing. *)
Definition start_turn (conn : Socket) (w : World) : Process :=
  match accept conn w with
  | (Done (Ret _), w') => Running w'
  | (Done (Raise (SystemExit status)), _) => Exited status
  | (Done (Raise (OsExit status)), _) => Exited status
  | (Done (Raise _), _) => Exited 1
  | (Blocked, _) => Running w
  end.

End server.

(** ** wisp_client.py: the receiving side *)
Module wisp_client.

(** [os._exit(code)] *)
Definition os_exit {S A} (code : Z) : ST S A := raise (OsExit code).

(** The [for] loop of [_parse_response]: [n] more fields to read. *)
Fixpoint _parse_response_loop (n : nat) (data : list pystr)
  : ST Socket (list pystr) :=
  match n with
  | O => mret data
  | S n' =>
      raw ← recv 16;
      field ← lift (of_option UnicodeError (decode raw));
      _parse_response_loop n' (data ++ [wcom.parse_pkt_field field])
  end.

Definition _parse_response : ST Socket wcom.WispResponse :=
  try_except
    (header ← recv 6;
     if bool_decide (length header < 6)%nat
     then raise (Exception "Header too short")
     else
       c ← lift (of_option UnicodeError (decode (take 2 header)));
       let code := if decide (c = wcom.OK) then wcom.OK else wcom.ERROR in
       length ← lift (of_option StructError
                        (unpack_I (take 4 (drop 2 header))));
       data ← _parse_response_loop (Z.to_nat length) [];
       mret (wcom.new_WispResponse code data))
    (fun err => os_exit 1).

(** What [resq] holds. *)
Inductive Incoming :=
| Response (r : wcom.WispResponse)
| Message (m : wcom.WispMessage).

Record WispClient := mkWispClient {
  state : wcom.State;
  resq : list Incoming;
  conn : Socket
}.

(** The "parse incoming" half of one turn of [WispClient.run]. *)
Definition run_incoming (now : Z) (self : WispClient)
  : outcome unit * WispClient :=
  if sock_readable (conn self) then
    if bool_decide (state self ∈ [wcom.Authentication; wcom.Command]) then
      match _parse_response (conn self) with
      | (Done (Ret r), c) =>
          (Done (Ret tt),
           mkWispClient (state self) (resq self ++ [Response r]) c)
      | (Done (Raise e), c) =>
          (Done (Raise e), mkWispClient (state self) (resq self) c)
      | (Blocked, _) => (Blocked, self)
      end
    else
      match wcom.parse_message now (conn self) with
      | (Done (Ret None), c) =>
          (Done (Raise (OsExit 1)), mkWispClient (state self) (resq self) c)
      | (Done (Ret (Some m)), c) =>
          (Done (Ret tt),
           mkWispClient (state self) (resq self ++ [Message m]) c)
      | (Done (Raise e), c) =>
          (Done (Raise e), mkWispClient (state self) (resq self) c)
      | (Blocked, _) => (Blocked, self)
      end
  else (Done (Ret tt), self).

(** *** The sending side, the handshake and discovery *)

(** What [reqq] holds: a [WispRequest], whose arguments may have been left
    at their default [None], or a [WispMessage]. *)
Inductive Outgoing :=
| Request (cmd : pystr) (arg1 arg2 : option pystr)
| Outgoing_Message (m : wcom.WispMessage).

(** [f'{arg}'] as [build_req] formats an argument: [None] prints as the
    text [None]. *)
Definition format_arg (arg : option pystr) : pystr :=
  match arg with
  | Some s => s
  | None => str "None"
  end.

(** [sock.send(payload)] when building the payload may have failed. *)
Definition send_built (payload : option bytes) : ST Socket unit :=
  b ← lift (of_option UnicodeError payload);
  send b.

(** [self._handlers[type(req).__name__](req)] *)
Definition _handlers (req : Outgoing) : ST Socket unit :=
  match req with
  | Request cmd arg1 arg2 =>
      send_built (wcom.build_req cmd (format_arg arg1) (format_arg arg2))
  | Outgoing_Message msg =>
      send_built (wcom.build_msg (wcom.time msg) (wcom.text msg))
  end.

(** The "parse outgoing" half of one turn of [WispClient.run]: the first
    queued item, if there is one, is taken and sent. *)
Definition run_outgoing (reqq : list Outgoing)
  : ST Socket (list Outgoing) :=
  match reqq with
  | req :: rest => _ ← _handlers req; mret rest
  | [] => mret []
  end.

(** A socket call made on [self._conn]. *)
Definition on_socket {A} (call : ST Socket A) : ST WispClient A := fun self =>
  match call (conn self) with
  | (r, c) => (r, mkWispClient (state self) (resq self) c)
  end.

Definition set_state (st : wcom.State) : ST WispClient unit := fun self =>
  (Done (Ret tt), mkWispClient st (resq self) (conn self)).

(** [WispClient._version_handshake] *)
Definition _version_handshake : ST WispClient bool :=
  versions ← on_socket _parse_response;
  if bool_decide (wcom.count versions = 0) then mret false
  else
    first ← lift (of_option IndexError (wcom.data versions !! 0%nat));
    _ ← on_socket (send_built (wcom.build_req wcom.VERSION first []));
    ack ← on_socket _parse_response;
    if bool_decide (wcom.code ack ≠ wcom.OK) then mret false
    else
      _ ← set_state wcom.Authentication;
      mret true.

(** [WispClient.connect], once the TCP connection stands: the handshake,
    with every [Exception] turned into [False]. *)
Definition connect : ST WispClient bool :=
  try_except _version_handshake (fun err => mret false).

(** One turn of the loop of [discover] for one arriving datagram: the
    address to connect to, or [None] to keep listening. *)
Definition discover (datagram : bytes) : result (option pystr) :=
  let boardcast :=
    server.udp_recv (length wcom.WISP_ARP_RES + 15) datagram in
  if str_contains wcom.WISP_ARP_RES boardcast then
    rbind (of_option UnicodeError
             (decode (drop (length wcom.WISP_ARP_RES) boardcast)))
          (fun addr => Ret (Some addr))
  else Ret None.

End wisp_client.

(** ** client.py *)
Module client.



(** [_get_user_input(lower, upper)].  [inputs] are the outcomes of the
    calls [int(input('Choose Number: '))] still to come: a number, or
    [None] when the call raises [ValueError] or [EOFError].  The result is
    the number chosen and the outcomes not used; there is none when the
    loop is still asking after the last outcome. *)
Fixpoint _get_user_input_loop (lower upper user_cmd : Z)
    (inputs : list (option Z)) : option (Z * list (option Z)) :=
  if bool_decide (lower <= user_cmd <= upper) then Some (user_cmd, inputs)
  else
    match inputs with
    | [] => None
    | Some n :: rest => _get_user_input_loop lower upper n rest
    | None :: rest => _get_user_input_loop lower upper user_cmd rest
    end.

Definition _get_user_input (lower upper : Z) (inputs : list (option Z))
  : option (Z * list (option Z)) :=
  _get_user_input_loop lower upper (-1) inputs.

(** [_draw_menu(header, options)]: the index chosen, or [-1] for "go
    back". *)
Definition _draw_menu (options : list pystr) (inputs : list (option Z))
  : option (Z * list (option Z)) :=
  let upper := Z.of_nat (length options) + 1 in
  '(index, rest) ← _get_user_input 1 upper inputs;
  Some (if bool_decide (index = upper) then -1 else index - 1, rest).

End client.


(** * Properties *)

(** ** Notions used in the statements *)

(** *** The store *)

(** [DATASTORE[u]['friends']], empty for a name that is not a user. *)
Definition friend_list (ds : list (pystr * Account)) (u : pystr) : list pystr :=
  match server.ds_get ds (Some u) with
  | Some a => friends a
  | None => []
  end.

(** [l.count(x)] *)
Definition occurrences (x : pystr) (l : list pystr) : nat :=
  length (filter (eq x) l).

(** Friendship is symmetric, counting duplicates: for every pair of users,
    each occurs in the other's list the same number of times. *)
Definition symmetric (ds : list (pystr * Account)) : Prop :=
  forall u v,
    server.ds_mem ds (Some u) = true -> server.ds_mem ds (Some v) = true ->
    occurrences u (friend_list ds v) = occurrences v (friend_list ds u).

(** The same, checked on the keys of the dictionary. *)
Definition symmetric_on_keys (ds : list (pystr * Account)) : Prop :=
  Forall (fun u =>
            Forall (fun v => occurrences u (friend_list ds v)
                             = occurrences v (friend_list ds u)) (ds.*1))
         (ds.*1).

#[global] Instance symmetric_on_keys_dec ds : Decision (symmetric_on_keys ds).
Proof. unfold symmetric_on_keys. apply _. Defined.

(** [username in DATASTORE and DATASTORE[username]['password'] == password] *)
Definition valid_credentials (ds : list (pystr * Account))
    (username password : pystr) : bool :=
  match server.ds_get ds (Some username) with
  | Some (mkAccount stored _) => bool_decide (stored = password)
  | None => false
  end.

(** The world with [DATASTORE] replaced. *)
Definition with_DATASTORE (ds : list (pystr * Account)) (w : World) : World :=
  mkWorld ds (objects w) (_sessions w) (clock w).

(** *** Thread objects and the registry *)

(** The world with the thread object [self] replaced. *)
Definition with_object (self : nat) (o : WispServer) (w : World) : World :=
  mkWorld (DATASTORE w) (<[self := o]> (objects w)) (_sessions w) (clock w).

(** [ref.is_alive()], false for a reference to nothing. *)
Definition alive_in (objs : gmap nat WispServer) (ref : nat) : bool :=
  match objs !! ref with
  | Some o => alive o
  | None => false
  end.

(** Every entry of the registry is a thread object. *)
Definition no_dangling (w : World) : Prop :=
  Forall (fun ref => is_Some (objects w !! ref)) (_sessions w).

#[global] Instance no_dangling_dec w : Decision (no_dangling w).
Proof. unfold no_dangling. apply _. Defined.

(** A session of [target] is in the registry. *)
Definition registered (w : World) (target : pystr) : Prop :=
  exists ref o, ref ∈ _sessions w /\ objects w !! ref = Some o /\
                user o = Some target.

(** A live session of [target] exists: it is in the registry and its
    thread has not ended. *)
Definition online (w : World) (target : pystr) : Prop :=
  exists ref o, ref ∈ _sessions w /\ objects w !! ref = Some o /\
                user o = Some target /\ alive o = true.

(** What routing does to one session: the message is put on the queue of
    a live session of the receiver that is in [Conversation]. *)
Definition deliver (receiver : option pystr) (msg : wcom.WispMessage)
    (o : WispServer) : WispServer :=
  if alive o && bool_decide (user o = receiver)
     && bool_decide (_state o = wcom.Conversation)
  then set_msgq (msgq o ++ [msg]) o
  else o.

(** *** Requests *)

(** The request a 36-byte packet carries, as [_parse_request] reads it. *)
Definition packet_request (packet : bytes) : option wcom.WispRequest :=
  cmd ← decode (take 4 packet);
  one ← decode (take 16 (drop 4 packet));
  two ← decode (drop 20 packet);
  Some (wcom.mkRequest cmd (wcom.parse_pkt_field one)
                       (wcom.parse_pkt_field two)).

(** The message a 132-byte packet carries, as [parse_message] reads it
    when the clock shows [now]. *)
Definition packet_message (now : Z) (packet : bytes)
  : option wcom.WispMessage :=
  timestamp ← unpack_I (take 4 packet);
  field ← decode (drop 4 packet);
  Some (wcom.new_WispMessage now (wcom.parse_pkt_field field)
                             (Some timestamp)).

(** The legal command set of each phase, as the specification lists it. *)
Definition legal_set (p : wcom.State) : list pystr :=
  match p with
  | wcom.Listening => [wcom.VERSION]
  | wcom.Authentication => [wcom.AUTH]
  | wcom.Command =>
      [wcom.ADD; wcom.DEL; wcom.LIST; wcom.SEARCH; wcom.CONV; wcom.QUIT]
  | wcom.Conversation => []
  end.

(** What the loop does with a request it lets through: the handler, then
    the response built from its result. *)
Definition dispatch (handler : pystr -> pystr -> M wisp_server.reply)
    (self : nat) (req : wcom.WispRequest) : M unit :=
  '(outcome, data) ← handler (wcom.arg1 req) (wcom.arg2 req);
  if outcome : bool then wisp_server._send_res self wcom.OK data
  else wisp_server._send_res self wcom.ERROR data.

(** A full request packet that asks for authentication with credentials
    the store rejects. *)
Definition failed_auth_packet (ds : list (pystr * Account)) (packet : bytes)
  : Prop :=
  length packet = 36%nat /\
  match packet_request packet with
  | Some req =>
      wcom.cmd req = wcom.AUTH /\
      valid_credentials ds (wcom.arg1 req) (wcom.arg2 req) = false
  | None => False
  end.

(** [n] turns of the thread [self]. *)
Fixpoint session_steps (n : nat) (self : nat) (w : World) : World :=
  match n with
  | O => w
  | S n' => session_steps n' self (server.session_step self w)
  end.

(** What a socket holds of one segment that was read in part. *)
Definition pending (buf : bytes) : list bytes :=
  match buf with
  | [] => []
  | _ => [buf]
  end.

(** *** Frames the server sends *)

Definition ok_response : bytes :=
  Eval vm_compute in default [] (wcom.build_res wcom.OK 0 []).

Definition version_list_response : bytes :=
  Eval vm_compute in default [] (wcom.build_res wcom.OK 1 [str "1.1"]).

Definition invalid_version_response : bytes :=
  Eval vm_compute in
    default [] (wcom.build_res wcom.ERROR 1 [str "Invalid version response"]).

Definition invalid_cred_response : bytes :=
  Eval vm_compute in
    default [] (wcom.build_res wcom.ERROR 1 [str "Invalid Cred"]).

Definition unsupported_version_response : bytes :=
  Eval vm_compute in
    default [] (wcom.build_res wcom.ERROR 1 [str "Unsupported version"]).

Definition friend_unknown_response : bytes :=
  Eval vm_compute in
    default [] (wcom.build_res wcom.ERROR 1 [str "Friend Unknown"]).

Definition user_offline_response : bytes :=
  Eval vm_compute in
    default [] (wcom.build_res wcom.ERROR 1 [str "User offline"]).

(** *** Frames the client sends *)

(** The request the client's handshake sends for the version [1.1]. *)
Definition version_request : bytes :=
  Eval vm_compute in
    default [] (wcom.build_req wcom.VERSION (str "1.1") []).

(** *** More on the account store *)

(** What [SEARCH] looks for: another user whose name contains the phrase
    and who is not a friend of the owner yet. *)
Definition search_match (ds : list (pystr * Account)) (owner lookup : pystr)
    (user : pystr) : Prop :=
  user ≠ owner /\ str_contains lookup user = true /\
  user ∉ friend_list ds owner.

#[global] Instance search_match_dec ds owner lookup user :
  Decision (search_match ds owner lookup user).
Proof. unfold search_match. apply _. Defined.

(** Every name in a friends list is a user. *)
Definition friends_are_users (ds : list (pystr * Account)) : Prop :=
  forall u v, v ∈ friend_list ds u -> server.ds_mem ds (Some v) = true.

(** The same users with the same passwords, in the same order. *)
Definition same_accounts (ds ds' : list (pystr * Account)) : Prop :=
  ds'.*1 = ds.*1 /\
  forall key, password <$> server.ds_get ds' key
              = password <$> server.ds_get ds key.

(** *** The server as a whole *)

(** What holds of the server between turns: the registry lists thread
    objects that exist, each once, friendship is symmetric and every
    friend is a user. *)
Definition well_formed (w : World) : Prop :=
  no_dangling w /\ NoDup (_sessions w) /\
  symmetric (DATASTORE w) /\ friends_are_users (DATASTORE w).

(** What later states keep of an earlier state [w0]: the users and their
    passwords, the thread objects, and of the registry no entry that was
    not there, in the same order. *)
Definition steady (w0 w : World) : Prop :=
  same_accounts (DATASTORE w0) (DATASTORE w) /\
  sublist (_sessions w) (_sessions w0) /\
  forall ref, is_Some (objects w0 !! ref) -> is_Some (objects w !! ref).

(** Turns of sessions, one after another in the order [schedule] names
    them. *)
Definition turns (schedule : list nat) (w : World) : World :=
  foldl (fun w self => server.session_step self w) w schedule.

(** A call that keeps all this, however it ends. *)
Definition keeps {A} (m : M A) : Prop :=
  forall w0 w, well_formed w -> steady w0 w ->
               well_formed (m w).2 /\ steady w0 (m w).2.

(** ** Concrete inputs *)

Module example.

(** A request frame as the client builds it. *)
Definition request (cmd arg1 arg2 : pystr) : bytes :=
  default [] (wcom.build_req cmd arg1 arg2).

Definition socket (segments : list bytes) : Socket :=
  mkSocket segments false [] false.

(** A running session with nothing queued and no failed attempt. *)
Definition session (u : option pystr) (st : wcom.State)
    (segments : list bytes) : WispServer :=
  mkWispServer u None [] (socket segments) 0 true st true.

(** A session whose thread has ended and that nobody has reaped. *)
Definition ended (u : option pystr) (st : wcom.State) : WispServer :=
  mkWispServer u None [] (socket []) 0 true st false.

(** The session of [u], talking to [t]; its thread is alive or not. *)
Definition talking (u t : pystr) (is_alive : bool) : WispServer :=
  mkWispServer (Some u) (Some t) [] (socket []) 0 true wcom.Conversation
               is_alive.

(** A server with the sessions [0], [1], ... in its registry. *)
Definition world (l : list WispServer) : World :=
  mkWorld server.initial_DATASTORE
          (list_to_map (zip (seq 0 (length l)) l))
          (seq 0 (length l)) 1528000000.

Definition andrei := str "andrei".
Definition safa := str "safa".
Definition michael := str "michael".

(** A [LIST] request reaches a session that has not authenticated. *)
Definition list_before_auth : World :=
  world [session None wcom.Authentication
           [request wcom.LIST (str "None") (str "None")]].

(** Six [AUTH] requests with a wrong password. *)
Definition wrong_password : bytes :=
  request wcom.AUTH andrei (str "guess").

Definition six_wrong_passwords : World :=
  world [session None wcom.Authentication (replicate 6 wrong_password)].

Definition three_wrong_passwords : World :=
  world [session None wcom.Authentication (replicate 3 wrong_password)].

(** andrei asks for a conversation with safa, whose session has ended
    but is still in the registry. *)
Definition conv_with_ended_peer : World :=
  world [session (Some andrei) wcom.Command
           [request wcom.CONV safa (str "None")];
         ended (Some safa) wcom.Command].

(** safa is connected twice in [Conversation], michael is in [Command],
    and one more session of safa has ended. *)
Definition three_peers : World :=
  world [talking safa andrei true;
         session (Some michael) wcom.Command [];
         talking safa andrei true;
         talking safa andrei false].

Definition hello : wcom.WispMessage := wcom.mkMessage 1528000000 (str "hello").

(** A sixteen-character user name. *)
Definition sixteen : pystr := str "aaaaaaaaaaaaaaaa".

(** A response header announcing two fields, then a three-byte field
    and the end of the stream. *)
Definition short_response : Socket :=
  mkSocket [str "OK" ++ [2; 0; 0; 0]; str "hi" ++ [0]] true [] false.

End example.

(** ** Tactics *)

Ltac run_st :=
  unfold mbind, mret, ST_bind, ST_ret, get_world, put_world, get_state,
    put_state, lift, raise, sys_exit, of_option in *; simpl in *.

(** Settle a decidable statement about concrete data by evaluation. *)
Ltac by_evaluation := refine (bool_decide_unpack _ _); vm_compute; exact I.

(** * Proofs *)

(** ** Running calls *)

Section Calls.
Context {S A B C : Type}.
Implicit Types (st : S) (e : PyExc).

Lemma bind_Ret (m : ST S A) (k : A -> ST S B) st a st' :
  m st = (Done (Ret a), st') -> (m ≫= k) st = k a st'.
Proof. unfold mbind, ST_bind. by intros ->. Qed.

Lemma bind_Raise (m : ST S A) (k : A -> ST S B) st e st' :
  m st = (Done (Raise e), st') -> (m ≫= k) st = (Done (Raise e), st').
Proof. unfold mbind, ST_bind. by intros ->. Qed.

Lemma bind_assoc (m : ST S A) (k1 : A -> ST S B) (k2 : B -> ST S C) st :
  ((m ≫= k1) ≫= k2) st = (m ≫= fun a => k1 a ≫= k2) st.
Proof. unfold mbind, ST_bind. by destruct (m st) as [[[?|?]|] ?]. Qed.

Lemma bind_mret (a : A) (k : A -> ST S B) st : (mret a ≫= k) st = k a st.
Proof. reflexivity. Qed.

Lemma bind_lift_Ret (a : A) (k : A -> ST S B) st :
  (lift (Ret a) ≫= k) st = k a st.
Proof. reflexivity. Qed.

Lemma bind_raise e (k : A -> ST S B) st :
  (raise e ≫= k) st = (Done (Raise e), st).
Proof. reflexivity. Qed.
End Calls.

Section Sockets.
Implicit Types (c : Socket) (b : bytes).

Lemma recv_Some size c packet c' :
  sock_recv size c = Some (packet, c') ->
  recv size c = (Done (Ret packet), c').
Proof. unfold recv. by intros ->. Qed.

(** A segment no longer than the request is handed over whole. *)
Lemma sock_recv_whole n seg rest pc t cl :
  (length seg <= n)%nat ->
  sock_recv n (mkSocket (seg :: rest) pc t cl) =
  Some (seg, mkSocket rest pc t cl).
Proof.
  intros Hlen. unfold sock_recv. simpl.
  by rewrite take_ge, drop_ge by lia.
Qed.

Lemma sock_recv_readable size c r :
  sock_recv size c = Some r -> sock_readable c = true.
Proof.
  unfold sock_recv, sock_readable.
  destruct (rx c); [|done]. by destruct (peer_closed c).
Qed.

(** Reading the front of a segment leaves its rest pending. *)
Lemma recv_pending n x y pc t cl :
  length x = n -> (0 < n)%nat ->
  recv n (mkSocket (pending (x ++ y)) pc t cl) =
  (Done (Ret x), mkSocket (pending y) pc t cl).
Proof.
  intros Hn Hpos. unfold recv, sock_recv.
  destruct x as [|c x]; [simpl in Hn; lia|].
  simpl rx. cbn [pending app].
  change (c :: x ++ y) with ((c :: x) ++ y).
  rewrite (take_app_length' (c :: x) y n), (drop_app_length' (c :: x) y n)
    by done.
  by destruct y.
Qed.
End Sockets.

Section Objects.
Implicit Types (w : World) (o : WispServer) (self : nat).

Lemma getattr_Some {A} self (f : WispServer -> A) w o :
  objects w !! self = Some o ->
  getattr self f w = (Done (Ret (f o)), w).
Proof. intros H. unfold getattr. run_st. by rewrite H. Qed.

Lemma setattr_Some self f w o :
  objects w !! self = Some o ->
  setattr self f w = (Done (Ret tt), with_object self (f o) w).
Proof. intros H. unfold setattr. run_st. by rewrite H. Qed.

Lemma lookup_with_object self o w :
  objects (with_object self o w) !! self = Some o.
Proof. apply lookup_insert_eq. Qed.

Lemma with_object_twice self o1 o2 w :
  with_object self o2 (with_object self o1 w) = with_object self o2 w.
Proof. unfold with_object. simpl. by rewrite insert_insert_eq. Qed.

Lemma on_conn_Some {A} self (call : ST Socket A) w o r c' :
  objects w !! self = Some o ->
  call (_conn o) = (Done r, c') ->
  on_conn self call w = (Done r, with_object self (set_conn c' o) w).
Proof.
  intros H Hc. unfold on_conn.
  rewrite (bind_Ret _ _ _ _ _ (getattr_Some _ _ _ _ H)), Hc.
  rewrite (bind_Ret _ _ _ _ _ (setattr_Some _ _ _ _ H)).
  reflexivity.
Qed.

Lemma conn_send_Some self b w o :
  objects w !! self = Some o ->
  conn_send self (Some b) w =
  (Done (Ret tt), with_object self (set_conn (sock_send b (_conn o)) o) w).
Proof.
  intros H. unfold conn_send. cbn [of_option].
  rewrite bind_lift_Ret. by apply on_conn_Some.
Qed.

Lemma _send_res_Some self status data b w o :
  objects w !! self = Some o ->
  wcom.build_res status (Z.of_nat (length data)) data = Some b ->
  wisp_server._send_res self status data w =
  (Done (Ret tt), with_object self (set_conn (sock_send b (_conn o)) o) w).
Proof.
  intros H Hb. unfold wisp_server._send_res. rewrite Hb.
  by apply conn_send_Some.
Qed.

Lemma no_dangling_elem_of w ref :
  no_dangling w -> ref ∈ _sessions w -> is_Some (objects w !! ref).
Proof.
  unfold no_dangling. rewrite Forall_forall. intros H Hin. by apply H.
Qed.

Lemma no_dangling_with_object w self o' :
  no_dangling w -> no_dangling (with_object self o' w).
Proof.
  unfold no_dangling. simpl. intros H. eapply Forall_impl; [exact H|].
  simpl. intros ref Href.
  destruct (decide (self = ref)) as [->|Hne].
  - rewrite lookup_insert_eq. by eexists.
  - by rewrite lookup_insert_ne.
Qed.
End Objects.

Ltac obj_lookup := first [eassumption | apply lookup_with_object].

(** One step of symbolic execution of a call on a known thread object. *)
Ltac st_step :=
  first
    [ rewrite bind_assoc
    | rewrite bind_mret
    | rewrite bind_raise
    | erewrite (bind_Ret (getattr _ _)) by (apply getattr_Some; obj_lookup)
    | erewrite (bind_Ret (setattr _ _)) by (apply setattr_Some; obj_lookup)
    | erewrite getattr_Some by obj_lookup
    | erewrite setattr_Some by obj_lookup
    | rewrite with_object_twice ].

(** Finish a turn that ends by sending a fixed response. *)
Ltac send_response :=
  repeat st_step;
  erewrite _send_res_Some by (first [obj_lookup | reflexivity]);
  by rewrite with_object_twice.

(** ** The codec *)

Section Codec.
Implicit Types (s a : pystr) (b : bytes).

Lemma encode_ascii s : is_ascii s -> encode s = Some s.
Proof.
  induction 1 as [|c s Hc Hs IH]; simpl; [done|].
  rewrite IH. unfold utf8_char.
  rewrite bool_decide_false, bool_decide_true by lia. done.
Qed.

Lemma decode_ascii b : is_ascii b -> decode b = Some b.
Proof.
  induction 1 as [|c s Hc Hs IH]; simpl; [done|].
  rewrite bool_decide_true by lia. by rewrite IH.
Qed.

Lemma is_ascii_app s1 s2 : is_ascii s1 -> is_ascii s2 -> is_ascii (s1 ++ s2).
Proof. apply Forall_app_2. Qed.

Lemma is_ascii_ljust n s : is_ascii s -> is_ascii (ljust n s).
Proof.
  intros H. apply is_ascii_app; [done|].
  apply Forall_replicate. lia.
Qed.

Lemma is_ascii_field n a : is_ascii a -> is_ascii (ljust n (a ++ [0])).
Proof.
  intros H. apply is_ascii_ljust, is_ascii_app; [done|].
  apply Forall_singleton. lia.
Qed.

Lemma length_ljust n s : (length s <= n)%nat -> length (ljust n s) = n.
Proof. intros H. unfold ljust. rewrite length_app, length_replicate. lia. Qed.

Lemma length_field n a :
  (length a < n)%nat -> length (ljust n (a ++ [0])) = n.
Proof. intros H. apply length_ljust. rewrite length_app. simpl. lia. Qed.

Lemma parse_pkt_field_null a t :
  wcom.parse_pkt_field (a ++ 0 :: t) = wcom.parse_pkt_field a.
Proof.
  induction a as [|c a IH]; simpl; [done|].
  case_bool_decide; [done|]. by rewrite IH.
Qed.

Lemma parse_pkt_field_no_null a : 0 ∉ a -> wcom.parse_pkt_field a = a.
Proof.
  induction a as [|c a IH]; simpl; [done|]. intros Hnot.
  apply not_elem_of_cons in Hnot as [Hc Ha].
  rewrite bool_decide_false by done. by rewrite IH.
Qed.

Lemma parse_pkt_field_ljust n a :
  wcom.parse_pkt_field (ljust n (a ++ [0])) = wcom.parse_pkt_field a.
Proof. unfold ljust. rewrite <- app_assoc. apply parse_pkt_field_null. Qed.

Lemma unpack_pack n :
  0 <= n < 4294967296 -> pack_I n ≫= unpack_I = Some n.
Proof.
  intros H. unfold pack_I. rewrite bool_decide_true by done. simpl.
  f_equal. Z.to_euclidean_division_equations. lia.
Qed.

(** A request with arguments of at most 15 ASCII characters fills
    exactly 36 bytes and is read back up to the first null of each
    argument. *)
Lemma request_roundtrip cmd a1 a2 :
  is_ascii cmd -> length cmd = 4%nat ->
  is_ascii a1 -> (length a1 <= 15)%nat ->
  is_ascii a2 -> (length a2 <= 15)%nat ->
  exists packet,
    wcom.build_req cmd a1 a2 = Some packet /\
    length packet = 36%nat /\
    packet_request packet =
    Some (wcom.mkRequest cmd (wcom.parse_pkt_field a1)
                         (wcom.parse_pkt_field a2)).
Proof.
  intros Hc Hlc H1 Hl1 H2 Hl2. eexists. split.
  - unfold wcom.build_req. apply encode_ascii.
    apply is_ascii_app; [done|].
    apply is_ascii_app; by apply is_ascii_field.
  - split.
    + rewrite !length_app, !length_field by lia. lia.
    + unfold packet_request.
      pose proof (length_field 16 a1 ltac:(lia)) as Hf1.
      rewrite (take_app_length' cmd _ 4) by done.
      rewrite (drop_app_add' cmd _ 4 16) by done.
      rewrite (drop_app_length' cmd _ 4) by done.
      rewrite take_app_length', drop_app_length' by done.
      rewrite !decode_ascii by (try apply is_ascii_field; done).
      simpl. by rewrite !parse_pkt_field_ljust.
Qed.
End Codec.

Section Frames.
Implicit Types (s a : pystr) (b : bytes).

Lemma pack_I_length n p : pack_I n = Some p -> length p = 4%nat.
Proof. unfold pack_I. case_bool_decide; [|done]. by intros [= <-]. Qed.

Lemma pack_I_in_range n : 0 <= n < 4294967296 -> is_Some (pack_I n).
Proof. intros H. unfold pack_I. rewrite bool_decide_true by done. eauto. Qed.

Lemma message_roundtrip now ts text rest pc t cl :
  0 <= ts < 4294967296 ->
  is_ascii text -> (length text <= 127)%nat ->
  exists frame,
    wcom.build_msg ts text = Some frame /\
    length frame = 132%nat /\
    wcom.parse_message now (mkSocket (frame :: rest) pc t cl) =
    (Done (Ret (Some (wcom.new_WispMessage now (wcom.parse_pkt_field text)
                                           (Some ts)))),
     mkSocket rest pc t cl).
Proof.
  intros Hts Ha Hlen.
  destruct (pack_I_in_range ts Hts) as [p Hp].
  pose proof (pack_I_length _ _ Hp) as Hlp.
  pose proof (unpack_pack ts Hts) as Hup. rewrite Hp in Hup. simpl in Hup.
  pose proof (length_field 128 text ltac:(lia)) as Hlf.
  exists (p ++ ljust 128 (text ++ [0])). split; [|split].
  - unfold wcom.build_msg. rewrite Hp. simpl.
    by rewrite encode_ascii by (by apply is_ascii_field).
  - rewrite length_app. lia.
  - unfold wcom.parse_message, try_except, recv.
    unfold mbind, ST_bind.
    rewrite sock_recv_whole by (rewrite length_app; lia).
    rewrite bool_decide_false by (rewrite length_app; lia).
    rewrite (take_app_length' p _ 4), (drop_app_length' p _ 4) by done.
    rewrite Hup, decode_ascii by (by apply is_ascii_field).
    simpl. by rewrite parse_pkt_field_ljust.
Qed.

Lemma build_res_fields_ascii data :
  Forall (fun a => is_ascii a /\ (length a <= 15)%nat) data ->
  exists fields,
    wcom.build_res_fields data = Some fields /\
    length fields = (16 * length data)%nat /\
    forall acc pc t cl,
      wisp_client._parse_response_loop (length data) acc
        (mkSocket (pending fields) pc t cl) =
      (Done (Ret (acc ++ (wcom.parse_pkt_field <$> data))),
       mkSocket [] pc t cl).
Proof.
  induction 1 as [|a data [Ha Hl] Hall (fields & Hf & Hlen & Hloop)].
  - exists []. repeat split. intros. simpl. by rewrite app_nil_r.
  - pose proof (length_field 16 a ltac:(lia)) as Hlf.
    exists (ljust 16 (a ++ [0]) ++ fields). split; [|split].
    + simpl. rewrite encode_ascii by (by apply is_ascii_field).
      simpl. by rewrite Hf.
    + rewrite length_app. simpl. lia.
    + intros acc pc t cl. simpl.
      rewrite (bind_Ret _ _ _ _ _ (recv_pending 16 _ _ pc t cl Hlf ltac:(lia))).
      rewrite decode_ascii by (by apply is_ascii_field).
      simpl. rewrite bind_lift_Ret, Hloop, parse_pkt_field_ljust.
      by rewrite <- app_assoc.
Qed.

Lemma response_roundtrip code data pc t cl :
  code ∈ [wcom.OK; wcom.ERROR] ->
  Forall (fun a => is_ascii a /\ (length a <= 15)%nat) data ->
  Z.of_nat (length data) < 4294967296 ->
  exists frame,
    wcom.build_res code (Z.of_nat (length data)) data = Some frame /\
    length frame = (6 + 16 * length data)%nat /\
    wisp_client._parse_response (mkSocket [frame] pc t cl) =
    (Done (Ret (wcom.new_WispResponse code (wcom.parse_pkt_field <$> data))),
     mkSocket [] pc t cl).
Proof.
  intros Hcode Hdata Hcount.
  destruct (build_res_fields_ascii data Hdata) as (fields & Hf & Hlen & Hloop).
  assert (0 <= Z.of_nat (length data) < 4294967296) as Hrange by lia.
  destruct (pack_I_in_range _ Hrange) as [p Hp].
  pose proof (pack_I_length _ _ Hp) as Hlp.
  pose proof (unpack_pack _ Hrange) as Hup. rewrite Hp in Hup. simpl in Hup.
  assert (is_ascii code /\ length code = 2%nat /\
          (if decide (code = wcom.OK) then wcom.OK else wcom.ERROR) = code)
    as (Hac & Hlc & Hdec).
  { apply elem_of_cons in Hcode as [->|Hcode];
      [|apply elem_of_cons in Hcode as [->|Hcode]];
      [| |by apply elem_of_nil in Hcode].
    - repeat split. repeat constructor; lia.
    - repeat split. repeat constructor; lia. }
  exists (code ++ p ++ fields). split; [|split].
  - unfold wcom.build_res. rewrite encode_ascii by done. simpl.
    rewrite Hp. simpl. by rewrite Hf.
  - rewrite !length_app. lia.
  - assert ((@cons bytes (code ++ p ++ fields) []) =
            pending ((code ++ p) ++ fields)) as ->.
    { rewrite <- app_assoc. destruct code; [simpl in Hlc; lia | done]. }
    assert (length (code ++ p) = 6%nat) as Hlh
      by (rewrite length_app; lia).
    unfold wisp_client._parse_response, try_except.
    rewrite (bind_Ret _ _ _ _ _
               (recv_pending 6 _ _ pc t cl Hlh ltac:(lia))).
    rewrite bool_decide_false by lia.
    rewrite (take_app_length' code p 2), (drop_app_length' code p 2)
      by done.
    rewrite (take_ge p) by lia.
    rewrite decode_ascii, Hup by done. simpl.
    rewrite !bind_lift_Ret, Hdec, Nat2Z.id.
    rewrite (bind_Ret _ _ _ _ _ (Hloop [] pc t cl)).
    reflexivity.
Qed.
End Frames.

(** [C2] (the code departs from the claim).  A request argument of
    sixteen characters, which the data model and the client's own length
    check allow, does not fit the field: [ljust] pads but never cuts, the
    frame is 37 bytes long instead of 36, and the 36 bytes the server
    reads carry an empty second argument. *)
Theorem sixteen_character_argument :
  exists frame,
    wcom.build_req wcom.AUTH example.sixteen (str "dorin") = Some frame /\
    length frame = 37%nat /\
    packet_request (take 36 frame) =
    Some (wcom.mkRequest wcom.AUTH example.sixteen []).
Proof. eexists. split; [reflexivity|]. split; reflexivity. Qed.

(** The same frame on a session: the request is taken with its second
    argument lost and one byte stays behind in the stream. *)
Example sixteen_character_argument_on_the_wire :
  let s := example.session None wcom.Authentication
             [example.request wcom.AUTH example.sixteen (str "dorin")] in
  wisp_server._parse_request 0 (example.world [s]) =
  (Done (Ret (wcom.mkRequest wcom.AUTH example.sixteen [])),
   with_object 0 (set_conn (example.socket [[32]]) s) (example.world [s])).
Proof. vm_compute. reflexivity. Qed.

(** A message with timestamp [0] does not come back either: the
    constructor takes the zero for a missing timestamp and reads the
    clock. *)
Example zero_timestamp_is_replaced :
  exists frame,
    wcom.build_msg 0 (str "hi") = Some frame /\
    wcom.parse_message 1528000000 (example.socket [frame]) =
    (Done (Ret (Some (wcom.mkMessage 1528000000 (str "hi")))),
     example.socket []).
Proof. eexists. split; [reflexivity|]. vm_compute. reflexivity. Qed.

(** ** The discovery responder *)

(** [C6] (amended).  The responder reads at most sixteen bytes of a
    datagram, the length of the probe, and compares those: a reply is
    broadcast if and only if the first sixteen bytes of the payload are
    the probe ['Is anyone there?'], so the probe itself is answered and
    so is every longer payload that starts with it; any other payload
    gets no reply.  The reply is ['WISPRES:'] followed by the responder's
    address. *)
Theorem discovery_answers_probe_prefix (addr : pystr) (datagram : bytes) :
  is_ascii addr ->
  (take 16 datagram = wcom.WISP_ARP_REQ ->
   server.service_descovery addr datagram =
   Ret (Some (str "WISPRES:" ++ addr)))
  /\ (take 16 datagram ≠ wcom.WISP_ARP_REQ ->
      server.service_descovery addr datagram = Ret None).
Proof.
  intros Ha. unfold server.service_descovery, server.udp_recv. cbv zeta.
  change (length wcom.WISP_ARP_REQ) with 16%nat.
  rewrite (encode_ascii _ Ha). simpl rbind.
  split; intros H; by case_decide.
Qed.

Lemma discovery_answers_probe_prefix_witness :
  is_ascii (str "192.168.0.7") /\
  take 16 (str "Is anyone there?") = wcom.WISP_ARP_REQ /\
  server.service_descovery (str "192.168.0.7") (str "Is anyone there?") =
  Ret (Some (str "WISPRES:" ++ str "192.168.0.7")) /\
  take 16 (str "Who is there?") ≠ wcom.WISP_ARP_REQ /\
  server.service_descovery (str "192.168.0.7") (str "Who is there?")
  = Ret None.
Proof.
  assert (is_ascii (str "192.168.0.7")) as Ha by by_evaluation.
  assert (take 16 (str "Who is there?") ≠ wcom.WISP_ARP_REQ) as Hne
    by discriminate.
  split; [exact Ha|]. split; [reflexivity|]. split.
  - exact (proj1 (discovery_answers_probe_prefix (str "192.168.0.7")
                    (str "Is anyone there?") Ha) eq_refl).
  - split; [exact Hne|].
    exact (proj2 (discovery_answers_probe_prefix (str "192.168.0.7")
                    (str "Who is there?") Ha) Hne).
Defined.

(** A datagram that is not the probe, only begins with it, is answered. *)
Lemma discovery_answers_longer_datagram :
  str "Is anyone there? Hello!" ≠ wcom.WISP_ARP_REQ /\
  server.service_descovery (str "192.168.0.7") (str "Is anyone there? Hello!")
  = Ret (Some (str "WISPRES:192.168.0.7")).
Proof. split; [discriminate | reflexivity]. Qed.

(** ** The store: friends lists *)

Section Store.
Implicit Types (ds : list (pystr * Account)) (l : list pystr).

Lemma ds_get_set_friends ds k f key :
  server.ds_get (server.ds_set_friends ds k f) key =
  if decide (Some k = key)
  then (fun a => mkAccount (password a) (f (friends a))) <$> server.ds_get ds key
  else server.ds_get ds key.
Proof.
  induction ds as [|[k0 a] rest IH]; simpl.
  - by case_decide.
  - destruct (decide (k0 = k)) as [->|Hk]; simpl.
    + destruct (decide (Some k = key)); done.
    + destruct (decide (Some k0 = key)) as [<-|Hk0].
      * rewrite decide_False; [done | congruence].
      * apply IH.
Qed.

Lemma friend_list_set_friends ds k f v :
  server.ds_mem ds (Some k) = true ->
  friend_list (server.ds_set_friends ds k f) v =
  if decide (k = v) then f (friend_list ds v) else friend_list ds v.
Proof.
  unfold friend_list, server.ds_mem. intros Hm.
  rewrite ds_get_set_friends.
  destruct (decide (k = v)) as [->|Hne].
  - rewrite decide_True by done.
    destruct (server.ds_get ds (Some v)); [done | discriminate].
  - rewrite decide_False by congruence. done.
Qed.

Lemma ds_mem_set_friends ds k f key :
  server.ds_mem (server.ds_set_friends ds k f) key = server.ds_mem ds key.
Proof.
  unfold server.ds_mem. rewrite ds_get_set_friends.
  case_decide; [|done]. by destruct (server.ds_get ds key).
Qed.

Lemma occurrences_app x l y :
  occurrences x (l ++ [y]) =
  (occurrences x l + if decide (x = y) then 1 else 0)%nat.
Proof.
  unfold occurrences. rewrite filter_app, length_app.
  f_equal. rewrite filter_cons, filter_nil. by case_decide.
Qed.

Lemma occurrences_remove x y l l' :
  server.list_remove y l = Some l' ->
  occurrences x l =
  (occurrences x l' + if decide (x = y) then 1 else 0)%nat.
Proof.
  unfold occurrences. revert l'.
  induction l as [|z l IH]; simpl; intros l' H; [discriminate|].
  destruct (decide (z = y)) as [->|Hz].
  - injection H as <-. rewrite filter_cons.
    destruct (decide (x = y)); simpl; lia.
  - destruct (server.list_remove y l) as [r|] eqn:E; [|discriminate].
    injection H as <-. rewrite !filter_cons.
    specialize (IH r eq_refl).
    destruct (decide (x = z)) as [->|]; simpl; [|done].
    rewrite decide_False in * by done. lia.
Qed.

Lemma list_remove_None x l :
  server.list_remove x l = None -> occurrences x l = 0%nat.
Proof.
  unfold occurrences.
  induction l as [|z l IH]; simpl; [done|].
  destruct (decide (z = x)) as [->|Hz]; [discriminate|].
  destruct (server.list_remove x l); [discriminate|]. intros _.
  rewrite filter_cons, decide_False by done. by apply IH.
Qed.

Lemma occurrences_elem_of x l : x ∈ l -> (0 < occurrences x l)%nat.
Proof.
  unfold occurrences. intros H.
  assert (x ∈ filter (eq x) l) as Hin by (by apply list_elem_of_filter).
  destruct (filter (eq x) l); [by apply elem_of_nil in Hin | simpl; lia].
Qed.

Lemma friend_list_None ds u :
  server.ds_mem ds (Some u) = false -> friend_list ds u = [].
Proof.
  unfold server.ds_mem, friend_list.
  by destruct (server.ds_get ds (Some u)).
Qed.
End Store.

Section StoreOps.
Implicit Types (ds : list (pystr * Account)) (w : World).

Lemma ds_mem_None ds : server.ds_mem ds None = false.
Proof.
  unfold server.ds_mem.
  induction ds as [|[k a] rest IH]; simpl; [done|].
  by destruct (decide (Some k = None)).
Qed.

Lemma _handle_add_known w o user :
  server.ds_mem (DATASTORE w) (Some o) = true ->
  server.ds_mem (DATASTORE w) (Some user) = true ->
  server._handle_add (Some o) user w =
  (Done (Ret (true, [])),
   with_DATASTORE
     (server.ds_set_friends
        (server.ds_set_friends (DATASTORE w) o (fun l => l ++ [user]))
        user (fun l => l ++ [o])) w).
Proof.
  intros Ho Hu. unfold server._handle_add, server.get_DATASTORE,
    server.put_DATASTORE. run_st. rewrite Ho, Hu. reflexivity.
Qed.

Lemma _handle_add_unknown w owner user :
  server.ds_mem (DATASTORE w) owner = false
  \/ server.ds_mem (DATASTORE w) (Some user) = false ->
  server._handle_add owner user w =
  (Done (Ret (false, [str "Invalid User"])), w).
Proof.
  intros H. unfold server._handle_add, server.get_DATASTORE. run_st.
  destruct owner as [o|]; [|done].
  destruct H as [-> | ->]; [done|].
  by destruct (server.ds_mem (DATASTORE w) (Some o)).
Qed.

Lemma friend_list_add w o user v :
  server.ds_mem (DATASTORE w) (Some o) = true ->
  server.ds_mem (DATASTORE w) (Some user) = true ->
  friend_list (DATASTORE (server._handle_add (Some o) user w).2) v =
  (friend_list (DATASTORE w) v
     ++ (if decide (o = v) then [user] else []))
    ++ (if decide (user = v) then [o] else []).
Proof.
  intros Ho Hu. rewrite _handle_add_known by done. simpl.
  rewrite !friend_list_set_friends
    by (rewrite ?ds_mem_set_friends; done).
  repeat case_decide; simpl; rewrite ?app_nil_r; done.
Qed.

Lemma symmetric_add w owner user :
  symmetric (DATASTORE w) ->
  symmetric (DATASTORE (server._handle_add owner user w).2).
Proof.
  intros Hsym.
  destruct (server.ds_mem (DATASTORE w) owner) eqn:Ho;
    [|by rewrite _handle_add_unknown by auto].
  destruct (server.ds_mem (DATASTORE w) (Some user)) eqn:Hu;
    [|by rewrite _handle_add_unknown by auto].
  destruct owner as [o|]; [|by rewrite ds_mem_None in Ho].
  intros u v. rewrite _handle_add_known by done. simpl.
  rewrite !ds_mem_set_friends. intros Hmu Hmv.
  pose proof (friend_list_add w o user) as Hfl.
  rewrite _handle_add_known in Hfl by done. simpl in Hfl.
  rewrite !Hfl by done.
  specialize (Hsym u v Hmu Hmv).
  repeat case_decide; subst; simpl;
    rewrite ?app_nil_r, ?occurrences_app; repeat case_decide;
    try congruence; lia.
Qed.
End StoreOps.

Section Del.
Implicit Types (ds : list (pystr * Account)) (w : World).

Lemma symmetric_del w owner user :
  symmetric (DATASTORE w) ->
  symmetric (DATASTORE (server._handle_del owner user w).2).
Proof.
  intros Hsym.
  unfold server._handle_del, server.friends_of, server.get_DATASTORE,
    server.put_DATASTORE. run_st.
  destruct owner as [o|]; [|done].
  destruct (server.ds_get (DATASTORE w) (Some o)) as [a|] eqn:Ha; [|done].
  case_bool_decide as Hin; [done|].
  assert (friend_list (DATASTORE w) o = friends a) as Hfo
    by (unfold friend_list; by rewrite Ha).
  assert (server.ds_mem (DATASTORE w) (Some o) = true) as Hmo
    by (unfold server.ds_mem; by rewrite Ha).
  apply occurrences_elem_of in Hin. rewrite <- Hfo in Hin.
  destruct (server.list_remove user (friends a)) as [l|] eqn:Hl;
    simpl; [|done].
  rewrite <- Hfo in Hl.
  pose proof (fun x => occurrences_remove x _ _ _ Hl) as E1.
  set (ds1 := server.ds_set_friends (DATASTORE w) o (fun _ => l)).
  assert (forall v, friend_list ds1 v =
                    if decide (o = v) then l else friend_list (DATASTORE w) v)
    as Hds1 by (intros v; unfold ds1; by rewrite friend_list_set_friends).
  assert (forall k, server.ds_mem ds1 k = server.ds_mem (DATASTORE w) k)
    as Hmem1 by (intros k; apply ds_mem_set_friends).
  assert (symmetric ds1 \/
          (o <> user /\ server.ds_mem (DATASTORE w) (Some user) = true))
    as Hcut.
  { destruct (server.ds_mem (DATASTORE w) (Some user)) eqn:Hmu;
      [destruct (decide (o = user)) as [->|]; [left | by right] | left];
      intros u v; rewrite !Hmem1, !Hds1; intros Hu Hv;
      pose proof (E1 u); pose proof (E1 v);
      specialize (Hsym u v Hu Hv);
      repeat case_decide; subst; try congruence; lia. }
  destruct (server.ds_get ds1 (Some user)) as [b|] eqn:Hb; simpl.
  - assert (friend_list ds1 user = friends b) as Hfu
      by (unfold friend_list; by rewrite Hb).
    assert (server.ds_mem (DATASTORE w) (Some user) = true) as Hmu
      by (rewrite <- Hmem1; unfold server.ds_mem; by rewrite Hb).
    destruct (server.list_remove o (friends b)) as [l'|] eqn:Hl'; simpl.
    + rewrite <- Hfu in Hl'.
      pose proof (fun x => occurrences_remove x _ _ _ Hl') as E2.
      intros u v. rewrite !ds_mem_set_friends, !Hmem1. intros Hu Hv.
      rewrite !friend_list_set_friends by (by rewrite Hmem1).
      rewrite !Hds1. rewrite Hds1 in E2.
      pose proof (E1 u). pose proof (E1 v).
      pose proof (E2 u). pose proof (E2 v).
      pose proof (Hsym u v Hu Hv).
      repeat case_decide; subst; try congruence; lia.
    + destruct Hcut as [|[Hne _]]; [done|].
      rewrite <- Hfu, Hds1, decide_False in Hl' by done.
      apply list_remove_None in Hl'.
      specialize (Hsym user o Hmu Hmo). lia.
  - destruct Hcut as [|[_ Hmu]]; [done|].
    rewrite <- Hmem1 in Hmu. unfold server.ds_mem in Hmu.
    by rewrite Hb in Hmu.
Qed.
End Del.

Section SymmetryCheck.
Implicit Types (ds : list (pystr * Account)).

Lemma ds_mem_keys ds u : server.ds_mem ds (Some u) = true -> u ∈ ds.*1.
Proof.
  unfold server.ds_mem.
  induction ds as [|[k a] rest IH]; simpl; [done|].
  destruct (decide (Some k = Some u)) as [[= ->]|Hne]; intros H.
  - apply list_elem_of_here.
  - apply list_elem_of_further. by apply IH.
Qed.

Lemma symmetric_on_keys_symmetric ds : symmetric_on_keys ds -> symmetric ds.
Proof.
  unfold symmetric_on_keys. rewrite Forall_forall.
  intros H u v Hu Hv.
  specialize (H u (ds_mem_keys _ _ Hu)). rewrite Forall_forall in H.
  by apply H, ds_mem_keys.
Qed.
End SymmetryCheck.

(** [C8].  Friendship symmetry is an invariant of the store: if every
    pair of users occurs equally often in each other's friends list, the
    same holds after [ADD] and after [DEL], whether the operation
    succeeds, fails, or stops on an exception half way. *)
Theorem friendship_symmetry_preserved (w : World) (owner : option pystr)
    (user : pystr) :
  symmetric (DATASTORE w) ->
  symmetric (DATASTORE (server._handle_add owner user w).2) /\
  symmetric (DATASTORE (server._handle_del owner user w).2).
Proof.
  intros H. split; [by apply symmetric_add | by apply symmetric_del].
Qed.

Lemma friendship_symmetry_preserved_witness :
  symmetric (DATASTORE (example.world [])) /\
  symmetric (DATASTORE (server._handle_add (Some example.michael)
                          example.safa (example.world [])).2) /\
  symmetric (DATASTORE (server._handle_del (Some example.michael)
                          example.safa (example.world [])).2).
Proof.
  assert (symmetric (DATASTORE (example.world []))) as H
    by (apply symmetric_on_keys_symmetric; by_evaluation).
  split; [exact H|].
  exact (friendship_symmetry_preserved (example.world [])
           (Some example.michael) example.safa H).
Defined.

(** [C9].  [ADD] succeeds whenever both names are users, whatever the
    friends lists hold already: each call appends the other name to both
    lists, so a repeated [ADD] leaves duplicates, and [ADD] of a user to
    itself appends the name twice to its own list. *)
Theorem add_appends_without_check (w : World) (owner user : pystr) :
  server.ds_mem (DATASTORE w) (Some owner) = true ->
  server.ds_mem (DATASTORE w) (Some user) = true ->
  let once := server._handle_add (Some owner) user w in
  let twice := server._handle_add (Some owner) user once.2 in
  let before := friend_list (DATASTORE w) in
  once.1 = Done (Ret (true, [])) /\
  twice.1 = Done (Ret (true, [])) /\
  (owner ≠ user ->
   friend_list (DATASTORE once.2) owner = before owner ++ [user] /\
   friend_list (DATASTORE once.2) user = before user ++ [owner] /\
   friend_list (DATASTORE twice.2) owner = before owner ++ [user; user] /\
   friend_list (DATASTORE twice.2) user = before user ++ [owner; owner]) /\
  (owner = user ->
   friend_list (DATASTORE once.2) owner = before owner ++ [owner; owner]).
Proof.
  intros Ho Hu once twice before.
  assert (server.ds_mem (DATASTORE once.2) (Some owner) = true /\
          server.ds_mem (DATASTORE once.2) (Some user) = true) as [Ho1 Hu1].
  { unfold once. rewrite _handle_add_known by done. simpl.
    by rewrite !ds_mem_set_friends. }
  pose proof (friend_list_add w owner user) as H1.
  pose proof (friend_list_add once.2 owner user) as H2.
  fold once in H1. fold twice in H2.
  split; [unfold once; by rewrite _handle_add_known|].
  split; [unfold twice; by rewrite _handle_add_known|].
  split.
  - intros Hne. unfold before.
    repeat split; rewrite ?H2, ?H1 by done;
      repeat case_decide; try congruence;
      by rewrite ?app_nil_r, <- ?app_assoc.
  - intros <-. rewrite H1 by done. unfold before.
    rewrite !decide_True by done. by rewrite <- app_assoc.
Qed.

Lemma add_appends_without_check_witness :
  let w := example.world [] in
  let owner := example.andrei in
  let user := example.safa in
  server.ds_mem (DATASTORE w) (Some owner) = true /\
  server.ds_mem (DATASTORE w) (Some user) = true /\
  let once := server._handle_add (Some owner) user w in
  let twice := server._handle_add (Some owner) user once.2 in
  let before := friend_list (DATASTORE w) in
  once.1 = Done (Ret (true, [])) /\
  twice.1 = Done (Ret (true, [])) /\
  (owner ≠ user ->
   friend_list (DATASTORE once.2) owner = before owner ++ [user] /\
   friend_list (DATASTORE once.2) user = before user ++ [owner] /\
   friend_list (DATASTORE twice.2) owner = before owner ++ [user; user] /\
   friend_list (DATASTORE twice.2) user = before user ++ [owner; owner]) /\
  (owner = user ->
   friend_list (DATASTORE once.2) owner = before owner ++ [owner; owner]).
Proof.
  intros w owner user.
  split; [reflexivity|]. split; [reflexivity|].
  exact (add_appends_without_check w owner user eq_refl eq_refl).
Defined.

(** ** The registry: routing and reaping *)

Section Routing.
Implicit Types (w : World) (objs : gmap nat WispServer).
Variable receiver : option pystr.
Variable msg : wcom.WispMessage.

Lemma alter_lookup_Some objs ref o (f : WispServer -> WispServer) :
  objs !! ref = Some o -> <[ref := f o]> objs = alter f ref objs.
Proof.
  intros H. apply map_eq. intros k.
  destruct (decide (ref = k)) as [->|Hne].
  - by rewrite lookup_insert_eq, lookup_alter_eq, H.
  - by rewrite lookup_insert_ne, lookup_alter_ne.
Qed.

Lemma alive_in_alter_deliver objs ref r :
  alive_in (alter (deliver receiver msg) ref objs) r = alive_in objs r.
Proof.
  unfold alive_in. destruct (decide (ref = r)) as [->|Hne].
  - rewrite lookup_alter_eq. destruct (objs !! r) as [o|]; [|done].
    simpl. unfold deliver.
    by destruct (alive o && bool_decide (user o = receiver)
                 && bool_decide (_state o = wcom.Conversation)).
  - by rewrite lookup_alter_ne.
Qed.

Lemma _handle_message_loop_spec n w :
  (n <= length (_sessions w))%nat ->
  (forall ref, ref ∈ take n (_sessions w) -> is_Some (objects w !! ref)) ->
  server._handle_message_loop n receiver msg w =
  (Done (Ret tt),
   mkWorld (DATASTORE w)
           (foldr (alter (deliver receiver msg)) (objects w)
                  (take n (_sessions w)))
           (filter (fun r => alive_in (objects w) r) (take n (_sessions w))
              ++ drop n (_sessions w))
           (clock w)).
Proof.
  revert w. induction n as [|i IH]; intros w Hn Hok.
  - simpl. rewrite ?drop_0. by destruct w.
  - destruct (lookup_lt_is_Some_2 (_sessions w) i) as [ref Href]; [lia|].
    rewrite (take_S_r _ _ _ Href) in *.
    destruct (Hok ref) as [o Ho]; [set_solver|].
    rewrite foldr_app, filter_app. simpl.
    unfold getattr, setattr, server.put_sessions. run_st.
    rewrite Href. simpl. rewrite Ho. simpl.
    assert (alive_in (objects w) ref = alive o) as Hal
      by (unfold alive_in; by rewrite Ho).
    destruct (alive o) eqn:Halive; simpl.
    + unfold wisp_server.check_msg_state.
      assert (forall objs',
        objs' = alter (deliver receiver msg) ref (objects w) ->
        server._handle_message_loop i receiver msg
          (mkWorld (DATASTORE w) objs' (_sessions w) (clock w)) =
        (Done (Ret tt),
         mkWorld (DATASTORE w)
           (foldr (alter (deliver receiver msg)) objs'
                  (take i (_sessions w)))
           (filter (fun r => alive_in (objects w) r)
                   (take i (_sessions w) ++ [ref])
              ++ drop (S i) (_sessions w))
           (clock w))) as Hstep.
      { intros objs' ->. rewrite IH; simpl; [|lia|].
        - f_equal. f_equal.
          rewrite filter_app, filter_cons, filter_nil, Hal.
          rewrite decide_True by done.
          rewrite <- app_assoc. simpl.
          rewrite (drop_S _ _ _ Href). f_equal.
          apply list_filter_iff. intros r.
          by rewrite alive_in_alter_deliver.
        - intros r Hr. apply lookup_alter_is_Some, Hok. set_solver. }
      rewrite filter_app in Hstep.
      destruct (bool_decide (user o = receiver)) eqn:Hu; simpl.
      * destruct (decide (_state o = wcom.Conversation)) as [Hs|Hs]; simpl.
        -- rewrite Ho. simpl.
           assert (alter (deliver receiver msg) ref (objects w) =
                   <[ref := set_msgq (msgq o ++ [msg]) o]> (objects w))
             as Halt.
           { rewrite <- (alter_lookup_Some _ _ o) by done.
             unfold deliver. rewrite Halive, Hu. simpl.
             by rewrite bool_decide_true. }
           rewrite Halt. by apply Hstep.
        -- assert (alter (deliver receiver msg) ref (objects w) = objects w)
             as Halt.
           { rewrite <- (alter_lookup_Some _ _ o) by done.
             unfold deliver. rewrite Halive, Hu. simpl.
             rewrite bool_decide_false by done. by apply insert_id. }
           rewrite Halt.
           replace w with (mkWorld (DATASTORE w) (objects w) (_sessions w)
                                   (clock w)) at 1 by (by destruct w).
           by apply Hstep.
      * assert (alter (deliver receiver msg) ref (objects w) = objects w)
          as Halt.
        { rewrite <- (alter_lookup_Some _ _ o) by done.
          unfold deliver. rewrite Halive, Hu. simpl. by apply insert_id. }
        rewrite Halt.
        replace w with (mkWorld (DATASTORE w) (objects w) (_sessions w)
                                (clock w)) at 1 by (by destruct w).
        by apply Hstep.
    + assert (take i (delete i (_sessions w)) = take i (_sessions w))
        as Htake.
      { rewrite delete_take_drop.
        rewrite take_app_le by (rewrite length_take; lia).
        rewrite take_take. f_equal. lia. }
      rewrite IH; simpl.
      * f_equal. f_equal.
        -- rewrite Htake. f_equal.
           rewrite <- (alter_lookup_Some _ _ o) by done.
           unfold deliver. rewrite Halive. simpl.
           symmetry. apply insert_id. exact Ho.
        -- rewrite Htake, filter_cons, filter_nil, Hal.
           rewrite decide_False by (simpl; intros []). rewrite app_nil_r.
           f_equal. rewrite delete_take_drop.
           rewrite drop_app_length' by (rewrite length_take; lia).
           done.
      * rewrite length_delete by eauto. lia.
      * intros r Hr. apply Hok. rewrite Htake in Hr. set_solver.
Qed.
End Routing.

Section Routed.
Implicit Types (w : World) (objs : gmap nat WispServer).
Variable receiver : option pystr.
Variable msg : wcom.WispMessage.

Lemma _handle_message_spec w :
  no_dangling w ->
  server._handle_message receiver msg w =
  (Done (Ret tt),
   mkWorld (DATASTORE w)
           (foldr (alter (deliver receiver msg)) (objects w) (_sessions w))
           (filter (fun r => alive_in (objects w) r) (_sessions w))
           (clock w)).
Proof.
  intros Hok. unfold server._handle_message. run_st.
  rewrite _handle_message_loop_spec.
  - by rewrite firstn_all, drop_all, app_nil_r.
  - done.
  - intros ref Href. apply no_dangling_elem_of; [done|].
    by rewrite firstn_all in Href.
Qed.

Lemma foldr_alter_lookup (f : WispServer -> WispServer) l objs ref :
  foldr (alter f) objs l !! ref =
  Nat.iter (length (filter (eq ref) l)) f <$> objs !! ref.
Proof.
  induction l as [|x l IH]; simpl.
  - by destruct (objs !! ref).
  - rewrite filter_cons. destruct (decide (ref = x)) as [<-|Hne].
    + rewrite lookup_alter_eq, IH. simpl.
      by destruct (objs !! ref).
    + by rewrite lookup_alter_ne.
Qed.

Lemma deliver_fixed o k :
  deliver receiver msg o = o -> Nat.iter k (deliver receiver msg) o = o.
Proof. intros H. induction k as [|k IH]; simpl; [done|]. by rewrite IH. Qed.

Lemma deliver_conn o k : _conn (Nat.iter k (deliver receiver msg) o) = _conn o.
Proof.
  induction k as [|k IH]; simpl; [done|]. rewrite <- IH.
  unfold deliver. by destruct (_ && _).
Qed.

Lemma deliver_not_conversation o :
  _state o ≠ wcom.Conversation -> deliver receiver msg o = o.
Proof.
  intros H. unfold deliver. rewrite (bool_decide_false _ H).
  by rewrite andb_false_r.
Qed.

Lemma deliver_cases o :
  deliver receiver msg o = o \/
  (alive o = true /\ user o = receiver /\ _state o = wcom.Conversation).
Proof.
  unfold deliver. destruct (alive o); simpl; [|by left].
  case_bool_decide; simpl; [|by left].
  case_bool_decide; simpl; [by right | by left].
Qed.

Lemma count_not_elem_of (l : list nat) ref :
  ref ∉ l -> length (filter (eq ref) l) = 0%nat.
Proof.
  induction l as [|x l IH]; intros Hnot; [done|].
  apply not_elem_of_cons in Hnot as [Hne Hnot].
  rewrite filter_cons, decide_False by done. by apply IH.
Qed.

Lemma count_NoDup (l : list nat) ref :
  NoDup l -> ref ∈ l -> length (filter (eq ref) l) = 1%nat.
Proof.
  induction 1 as [|x l Hx Hnd IH]; intros Hin.
  - by apply elem_of_nil in Hin.
  - rewrite filter_cons. destruct (decide (ref = x)) as [->|Hne].
    + simpl. by rewrite count_not_elem_of.
    + apply IH. by apply elem_of_cons in Hin as [?|?].
Qed.

(** What routing leaves of every thread object. *)
Lemma routed_object w ref o :
  no_dangling w ->
  objects w !! ref = Some o ->
  exists k,
    objects (server._handle_message receiver msg w).2 !! ref =
    Some (Nat.iter k (deliver receiver msg) o) /\
    (NoDup (_sessions w) -> ref ∈ _sessions w -> k = 1%nat).
Proof.
  intros Hok Ho. rewrite _handle_message_spec by done. simpl.
  rewrite foldr_alter_lookup, Ho. simpl. eexists. split; [done|].
  apply count_NoDup.
Qed.
(** Routing keeps the registry a list of distinct references to thread
    objects. *)
Lemma routing_keeps_registry w :
  no_dangling w -> NoDup (_sessions w) ->
  no_dangling (server._handle_message receiver msg w).2 /\
  NoDup (_sessions (server._handle_message receiver msg w).2).
Proof.
  intros Hok Hnd. rewrite _handle_message_spec by done. simpl. split.
  - unfold no_dangling. simpl. apply Forall_forall. intros ref Hin.
    apply list_elem_of_filter in Hin as [_ Hin].
    destruct (no_dangling_elem_of _ _ Hok Hin) as [o Ho].
    rewrite foldr_alter_lookup, Ho. by eexists.
  - by apply NoDup_filter.
Qed.
End Routed.


(** [C5].  Routing puts a message on the outbound queue of a session only
    if that session is in [Conversation]: the call returns normally and
    returns nothing, writes on no socket and leaves the store alone; a
    session in any other phase is left exactly as it was, so a message
    for it is not queued anywhere, and a queue that did change belongs to
    a live session of the receiver in [Conversation]. *)
Theorem routing_requires_conversation (w : World) (receiver : option pystr)
    (msg : wcom.WispMessage) :
  no_dangling w ->
  exists w',
    server._handle_message receiver msg w = (Done (Ret tt), w') /\
    DATASTORE w' = DATASTORE w /\
    forall ref o,
      objects w !! ref = Some o ->
      exists o',
        objects w' !! ref = Some o' /\
        _conn o' = _conn o /\
        (_state o ≠ wcom.Conversation -> o' = o) /\
        (msgq o' ≠ msgq o ->
         _state o = wcom.Conversation /\ user o = receiver /\ alive o = true).
Proof.
  intros Hok. eexists. split; [by apply _handle_message_spec|].
  split; [done|]. intros ref o Ho.
  destruct (routed_object receiver msg w ref o Hok Ho) as (k & Hk & _).
  rewrite _handle_message_spec in Hk by done. simpl in Hk.
  eexists. split; [exact Hk|]. split; [apply deliver_conn|]. split.
  - intros Hst. by apply deliver_fixed, deliver_not_conversation.
  - intros Hq.
    destruct (deliver_cases receiver msg o) as [Hfix|Hch]; [|tauto].
    by rewrite deliver_fixed in Hq.
Qed.

Lemma routing_requires_conversation_witness :
  no_dangling example.three_peers /\
  exists w',
    server._handle_message (Some example.michael) example.hello
      example.three_peers = (Done (Ret tt), w') /\
    DATASTORE w' = DATASTORE example.three_peers /\
    forall ref o,
      objects example.three_peers !! ref = Some o ->
      exists o',
        objects w' !! ref = Some o' /\
        _conn o' = _conn o /\
        (_state o ≠ wcom.Conversation -> o' = o) /\
        (msgq o' ≠ msgq o ->
         _state o = wcom.Conversation /\ user o = Some example.michael /\
         alive o = true).
Proof.
  assert (no_dangling example.three_peers) as H by by_evaluation.
  split; [exact H|].
  exact (routing_requires_conversation example.three_peers
           (Some example.michael) example.hello H).
Defined.

(** The message for michael, who is in [Command], is on no queue. *)
Example message_for_command_phase_is_dropped :
  let w' := (server._handle_message (Some example.michael) example.hello
               example.three_peers).2 in
  (msgq <$> objects w' !! 0%nat) = Some [] /\
  (msgq <$> objects w' !! 1%nat) = Some [] /\
  (msgq <$> objects w' !! 2%nat) = Some [].
Proof. vm_compute. done. Qed.

(** [C10].  Routing reaches every live session of the receiver that is in
    [Conversation], not one of them: each gets its own copy of the message
    at the end of its queue.  In the same pass every entry of the registry
    whose thread has ended is removed, and the live ones stay, in order. *)
Theorem routing_reaches_every_live_conversation (w : World)
    (receiver : option pystr) (msg : wcom.WispMessage) :
  no_dangling w ->
  NoDup (_sessions w) ->
  exists w',
    server._handle_message receiver msg w = (Done (Ret tt), w') /\
    _sessions w' = filter (fun r => alive_in (objects w) r) (_sessions w) /\
    (forall ref, ref ∈ _sessions w' <->
                 ref ∈ _sessions w /\ alive_in (objects w) ref = true) /\
    (forall ref o,
       ref ∈ _sessions w -> objects w !! ref = Some o ->
       alive o = true -> user o = receiver ->
       _state o = wcom.Conversation ->
       objects w' !! ref = Some (set_msgq (msgq o ++ [msg]) o)).
Proof.
  intros Hok Hnd. eexists. split; [by apply _handle_message_spec|].
  simpl. split; [done|]. split.
  - intros ref. rewrite list_elem_of_filter.
    destruct (alive_in (objects w) ref); simpl; split; intros [? ?]; done.
  - intros ref o Hin Ho Ha Hu Hs.
    destruct (routed_object receiver msg w ref o Hok Ho) as (k & Hk & Hone).
    rewrite _handle_message_spec in Hk by done. simpl in Hk.
    rewrite Hk, (Hone Hnd Hin). simpl. unfold deliver.
    rewrite Ha, (bool_decide_true _ Hu), (bool_decide_true _ Hs). done.
Qed.

Lemma routing_reaches_every_live_conversation_witness :
  no_dangling example.three_peers /\
  NoDup (_sessions example.three_peers) /\
  exists w',
    server._handle_message (Some example.safa) example.hello
      example.three_peers = (Done (Ret tt), w') /\
    _sessions w' = filter (fun r => alive_in (objects example.three_peers) r)
                          (_sessions example.three_peers) /\
    (forall ref, ref ∈ _sessions w' <->
                 ref ∈ _sessions example.three_peers /\
                 alive_in (objects example.three_peers) ref = true) /\
    (forall ref o,
       ref ∈ _sessions example.three_peers ->
       objects example.three_peers !! ref = Some o ->
       alive o = true -> user o = Some example.safa ->
       _state o = wcom.Conversation ->
       objects w' !! ref = Some (set_msgq (msgq o ++ [example.hello]) o)).
Proof.
  assert (no_dangling example.three_peers) as H by by_evaluation.
  assert (NoDup (_sessions example.three_peers)) as Hnd by by_evaluation.
  split; [exact H|]. split; [exact Hnd|].
  exact (routing_reaches_every_live_conversation example.three_peers
           (Some example.safa) example.hello H Hnd).
Defined.

(** Both live sessions of safa get the message; the ended one is reaped. *)
Example both_sessions_of_safa_get_the_message :
  let w' := (server._handle_message (Some example.safa) example.hello
               example.three_peers).2 in
  (msgq <$> objects w' !! 0%nat) = Some [example.hello] /\
  (msgq <$> objects w' !! 2%nat) = Some [example.hello] /\
  (msgq <$> objects w' !! 1%nat) = Some [] /\
  _sessions w' = [0; 1; 2]%nat.
Proof. vm_compute. done. Qed.

(** ** Sessions: one request per turn *)

Section Requests.
Implicit Types (w : World) (o : WispServer) (self : nat).
Variable cbs : wisp_server.ReqCallbacks.
Variable msg_cb : option pystr -> wcom.WispMessage -> M unit.

Lemma _recv_full self w o size packet c' :
  objects w !! self = Some o ->
  sock_recv size (_conn o) = Some (packet, c') ->
  length packet = size ->
  wisp_server._recv self size w =
  (Done (Ret packet), with_object self (set_conn c' o) w).
Proof.
  intros Ho Hr Hlen. unfold wisp_server._recv.
  rewrite (bind_Ret _ _ _ _ _
             (on_conn_Some _ _ _ _ _ _ Ho (recv_Some _ _ _ _ Hr))).
  by rewrite bool_decide_false by (by intros ?).
Qed.

Lemma _recv_short self w o size packet c' :
  objects w !! self = Some o ->
  sock_recv size (_conn o) = Some (packet, c') ->
  length packet ≠ size ->
  wisp_server._recv self size w =
  (Done (Raise TypeError), with_object self (set_conn c' o) w).
Proof.
  intros Ho Hr Hlen. unfold wisp_server._recv.
  rewrite (bind_Ret _ _ _ _ _
             (on_conn_Some _ _ _ _ _ _ Ho (recv_Some _ _ _ _ Hr))).
  by rewrite bool_decide_true.
Qed.

Lemma _parse_request_ok self w o packet c' req :
  objects w !! self = Some o ->
  sock_recv 36 (_conn o) = Some (packet, c') ->
  length packet = 36%nat ->
  packet_request packet = Some req ->
  wcom.valid (wcom.cmd req) = true ->
  wisp_server._parse_request self w =
  (Done (Ret req), with_object self (set_conn c' o) w).
Proof.
  intros Ho Hr Hlen Hreq Hvalid. unfold wisp_server._parse_request.
  rewrite (bind_Ret _ _ _ _ _ (_recv_full _ _ _ _ _ _ Ho Hr Hlen)).
  unfold packet_request in Hreq.
  destruct (decode (take 4 packet)) as [cmd|]; [|done].
  destruct (decode (take 16 (drop 4 packet))) as [one|]; [|done].
  destruct (decode (drop 20 packet)) as [two|]; [|done].
  simpl in Hreq. injection Hreq as <-. simpl in Hvalid.
  run_st. by rewrite Hvalid.
Qed.

Lemma _parse_request_unrecognized self w o packet c' cmd :
  objects w !! self = Some o ->
  sock_recv 36 (_conn o) = Some (packet, c') ->
  length packet = 36%nat ->
  decode (take 4 packet) = Some cmd ->
  wcom.valid cmd = false ->
  wisp_server._parse_request self w =
  (Done (Raise (SystemExit 0)), with_object self (set_conn c' o) w).
Proof.
  intros Ho Hr Hlen Hcmd Hvalid. unfold wisp_server._parse_request.
  rewrite (bind_Ret _ _ _ _ _ (_recv_full _ _ _ _ _ _ Ho Hr Hlen)).
  rewrite Hcmd. run_st. by rewrite Hvalid.
Qed.

Lemma run_iteration_request self w o :
  objects w !! self = Some o ->
  _state o ≠ wcom.Conversation ->
  wisp_server.run_iteration cbs msg_cb self w =
  try_except (wisp_server.run_request cbs self (_state o))
             (fun err => _ ← conn_close self; sys_exit 1) w.
Proof.
  intros Ho Hst. unfold wisp_server.run_iteration, try_except.
  rewrite (bind_Ret _ _ _ _ _ (getattr_Some _ _ _ _ Ho)).
  by rewrite decide_False.
Qed.

Lemma thread_step_running self w o :
  objects w !! self = Some o ->
  alive o = true -> _working o = true ->
  wisp_server.thread_step cbs msg_cb self w =
  match wisp_server.run_iteration cbs msg_cb self w with
  | (Done (Ret _), w') => w'
  | (Done (Raise _), w') => (setattr self (set_alive false) w').2
  | (Blocked, _) => w
  end.
Proof.
  intros Ho Ha Hw. unfold wisp_server.thread_step.
  by rewrite Ho, Ha, Hw.
Qed.

(** A recognized command that the state does not allow is dropped. *)
Lemma run_request_illegal self w o packet c' req legal :
  objects w !! self = Some o ->
  sock_recv 36 (_conn o) = Some (packet, c') ->
  length packet = 36%nat ->
  packet_request packet = Some req ->
  wcom.valid (wcom.cmd req) = true ->
  wcom.STATE_MAP (_state o) = Some legal ->
  wcom.cmd req ∉ legal ->
  wisp_server.run_request cbs self (_state o) w =
  (Done (Ret tt), with_object self (set_conn c' o) w).
Proof.
  intros Ho Hr Hlen Hreq Hvalid Hmap Hnot.
  unfold wisp_server.run_request.
  rewrite (bind_Ret _ _ _ _ _
             (_parse_request_ok _ _ _ _ _ _ Ho Hr Hlen Hreq Hvalid)).
  rewrite Hmap. run_st. by rewrite bool_decide_false.
Qed.

Lemma run_request_legal self w o packet c' req legal handler :
  objects w !! self = Some o ->
  sock_recv 36 (_conn o) = Some (packet, c') ->
  length packet = 36%nat ->
  packet_request packet = Some req ->
  wcom.valid (wcom.cmd req) = true ->
  wcom.STATE_MAP (_state o) = Some legal ->
  wcom.cmd req ∈ legal ->
  wisp_server._handlers cbs self (wcom.cmd req) = Some handler ->
  wisp_server.run_request cbs self (_state o) w =
  ('(outcome, data) ← handler (wcom.arg1 req) (wcom.arg2 req);
   if outcome : bool then wisp_server._send_res self wcom.OK data
   else wisp_server._send_res self wcom.ERROR data)
    (with_object self (set_conn c' o) w).
Proof.
  intros Ho Hr Hlen Hreq Hvalid Hmap Hin Hh.
  unfold wisp_server.run_request.
  rewrite (bind_Ret _ _ _ _ _
             (_parse_request_ok _ _ _ _ _ _ Ho Hr Hlen Hreq Hvalid)).
  rewrite Hmap. run_st. rewrite bool_decide_true by done. by rewrite Hh.
Qed.
End Requests.

Section Gating.
Implicit Types (w : World) (o : WispServer) (self : nat).
Variable cbs : wisp_server.ReqCallbacks.
Variable msg_cb : option pystr -> wcom.WispMessage -> M unit.

Lemma STATE_MAP_legal_set p :
  p ≠ wcom.Conversation -> wcom.STATE_MAP p = Some (legal_set p).
Proof. by destruct p. Qed.

Lemma _handlers_legal self p cmd :
  p = wcom.Authentication \/ p = wcom.Command ->
  cmd ∈ legal_set p ->
  is_Some (wisp_server._handlers cbs self cmd).
Proof.
  intros [-> | ->] Hin; simpl in Hin;
    repeat (apply elem_of_cons in Hin as [-> | Hin]); try by eexists.
  all: by apply elem_of_nil in Hin.
Qed.

Lemma packet_request_cmd packet req :
  packet_request packet = Some req ->
  decode (take 4 packet) = Some (wcom.cmd req).
Proof.
  unfold packet_request.
  destruct (decode (take 4 packet)) as [cmd|]; [|done].
  destruct (decode (take 16 (drop 4 packet))) as [one|]; [|done].
  destruct (decode (drop 20 packet)) as [two|]; [|done].
  simpl. by intros [= <-].
Qed.

End Gating.

Section Handshake.
Implicit Types (w : World) (o : WispServer) (self : nat).

Lemma sock_recv_send size b c packet c' :
  sock_recv size c = Some (packet, c') ->
  sock_recv size (sock_send b c) = Some (packet, sock_send b c').
Proof.
  destruct c as [[|seg rest] pc t cl]; unfold sock_recv, sock_send; simpl.
  - destruct pc; [|done]. by intros [= <- <-].
  - by intros [= <- <-].
Qed.

(** The handshake turns away every recognized command but [VERSION]. *)
Lemma handshake_rejects self w o packet c' req :
  objects w !! self = Some o ->
  sock_recv 36 (_conn o) = Some (packet, c') ->
  length packet = 36%nat ->
  packet_request packet = Some req ->
  wcom.valid (wcom.cmd req) = true ->
  wcom.cmd req ≠ wcom.VERSION ->
  wisp_server._version_handshake self w =
  (Done (Raise (SystemExit 1)),
   with_object self
     (set_conn (sock_send invalid_version_response
                  (sock_send version_list_response c')) o) w).
Proof.
  intros Ho Hr Hlen Hreq Hv Hne. unfold wisp_server._version_handshake.
  erewrite (bind_Ret (wisp_server._send_res _ _ _))
    by (eapply _send_res_Some; [obj_lookup | reflexivity]).
  erewrite (bind_Ret (wisp_server._parse_request _)).
  2:{ eapply _parse_request_ok; [obj_lookup | | done..].
      simpl. by apply sock_recv_send. }
  rewrite with_object_twice.
  rewrite bool_decide_true by done.
  erewrite (bind_Ret (wisp_server._send_res _ _ _))
    by (eapply _send_res_Some; [obj_lookup | reflexivity]).
  by rewrite with_object_twice.
Qed.

(** It accepts [VERSION] with the supported version. *)
Lemma handshake_accepts self w o packet c' req :
  objects w !! self = Some o ->
  sock_recv 36 (_conn o) = Some (packet, c') ->
  length packet = 36%nat ->
  packet_request packet = Some req ->
  wcom.cmd req = wcom.VERSION ->
  wcom.arg1 req = str "1.1" ->
  wisp_server._version_handshake self w =
  (Done (Ret tt),
   with_object self
     (set_state wcom.Authentication
        (set_conn (sock_send ok_response
                     (sock_send version_list_response c')) o)) w).
Proof.
  intros Ho Hr Hlen Hreq Hcmd Harg. unfold wisp_server._version_handshake.
  erewrite (bind_Ret (wisp_server._send_res _ _ _))
    by (eapply _send_res_Some; [obj_lookup | reflexivity]).
  erewrite (bind_Ret (wisp_server._parse_request _)).
  2:{ eapply _parse_request_ok; [obj_lookup | | try done..].
      - simpl. by apply sock_recv_send.
      - by rewrite Hcmd. }
  rewrite with_object_twice.
  rewrite bool_decide_false by (by intros ?).
  rewrite bool_decide_false by (rewrite Harg; intros H; apply H; left).
  erewrite (bind_Ret (wisp_server._send_res _ _ _))
    by (eapply _send_res_Some; [obj_lookup | reflexivity]).
  repeat st_step. reflexivity.
Qed.
End Handshake.

(** [C1] (amended).  In the loop of a session, which reads requests in
    [Authentication] and [Command], a request is handed to its handler if
    and only if its command is in the legal set of the phase.  A full
    request whose command is recognized but outside the legal set is
    dropped: the packet is consumed and nothing else changes, no handler
    runs, nothing is sent, and the session stays open in the same phase.
    A request with an unrecognized command code ends the session's
    thread, again with no other effect. *)
Theorem request_gating (cbs : wisp_server.ReqCallbacks)
    (msg_cb : option pystr -> wcom.WispMessage -> M unit)
    (self : nat) (w : World) (o : WispServer) (packet : bytes)
    (c' : Socket) (cmd : pystr) :
  objects w !! self = Some o ->
  sock_recv 36 (_conn o) = Some (packet, c') ->
  length packet = 36%nat ->
  decode (take 4 packet) = Some cmd ->
  alive o = true -> _working o = true ->
  _state o = wcom.Authentication \/ _state o = wcom.Command ->
  (wcom.valid cmd = false ->
   wisp_server.thread_step cbs msg_cb self w =
   with_object self (set_alive false (set_conn c' o)) w)
  /\ (forall req,
        packet_request packet = Some req ->
        wcom.valid cmd = true -> cmd ∉ legal_set (_state o) ->
        wisp_server.thread_step cbs msg_cb self w =
        with_object self (set_conn c' o) w)
  /\ (forall req,
        packet_request packet = Some req ->
        wcom.valid cmd = true -> cmd ∈ legal_set (_state o) ->
        exists handler,
          wisp_server._handlers cbs self cmd = Some handler /\
          wisp_server.run_request cbs self (_state o) w =
          dispatch handler self req (with_object self (set_conn c' o) w)).
Proof.
  intros Ho Hr Hlen Hcmd Ha Hw Hst.
  assert (_state o ≠ wcom.Conversation) as Hnc
    by (destruct Hst as [-> | ->]; done).
  pose proof (STATE_MAP_legal_set _ Hnc) as Hmap.
  rewrite (thread_step_running _ _ _ _ _ Ho Ha Hw).
  rewrite (run_iteration_request _ _ _ _ _ Ho Hnc).
  unfold try_except. split; [|split].
  - intros Hv. unfold wisp_server.run_request.
    rewrite (bind_Raise _ _ _ _ _
               (_parse_request_unrecognized _ _ _ _ _ _ Ho Hr Hlen Hcmd Hv)).
    simpl.
    rewrite (setattr_Some _ _ _ _ (lookup_with_object _ _ _)).
    simpl. by rewrite with_object_twice.
  - intros req Hreq Hv Hnot.
    pose proof (packet_request_cmd _ _ Hreq) as Hc.
    rewrite Hcmd in Hc. injection Hc as ->.
    by rewrite (run_request_illegal _ _ _ _ _ _ _ _
                  Ho Hr Hlen Hreq Hv Hmap Hnot).
  - intros req Hreq Hv Hin.
    pose proof (packet_request_cmd _ _ Hreq) as Hc.
    rewrite Hcmd in Hc. injection Hc as ->.
    destruct (_handlers_legal cbs self _ _ Hst Hin) as [handler Hh].
    exists handler. split; [done|].
    by rewrite (run_request_legal _ _ _ _ _ _ _ _ _
                  Ho Hr Hlen Hreq Hv Hmap Hin Hh).
Qed.

Lemma request_gating_witness :
  let w := example.list_before_auth in
  let packet := example.request wcom.LIST (str "None") (str "None") in
  let o := example.session None wcom.Authentication [packet] in
  let c' := example.socket [] in
  let req := wcom.mkRequest wcom.LIST (str "None") (str "None") in
  objects w !! 0%nat = Some o /\
  sock_recv 36 (_conn o) = Some (packet, c') /\
  length packet = 36%nat /\
  decode (take 4 packet) = Some wcom.LIST /\
  alive o = true /\ _working o = true /\
  _state o = wcom.Authentication /\
  packet_request packet = Some req /\
  wcom.valid wcom.LIST = true /\
  (wcom.LIST ∉ legal_set (_state o)) /\
  server.session_step 0 w = with_object 0 (set_conn c' o) w.
Proof.
  intros w packet o c' req.
  assert (wcom.LIST ∉ legal_set (_state o)) as Hnot by by_evaluation.
  repeat (split; [first [reflexivity | exact Hnot]|]).
  destruct (request_gating server._handlers server._handle_message 0 w o
              packet c' wcom.LIST eq_refl eq_refl eq_refl eq_refl
              eq_refl eq_refl (or_introl eq_refl))
    as (_ & Hdrop & _).
  exact (Hdrop req eq_refl eq_refl Hnot).
Defined.

(** A session that has not authenticated gets [LIST], which its phase
    does not allow: its thread is alive afterwards, still in
    [Authentication], and has answered nothing. *)
Lemma illegal_command_keeps_session_open :
  wcom.valid wcom.LIST = true /\
  (wcom.LIST ∉ legal_set wcom.Authentication) /\
  let w' := server.session_step 0 example.list_before_auth in
  (alive <$> objects w' !! 0%nat) = Some true /\
  (_state <$> objects w' !! 0%nat) = Some wcom.Authentication /\
  ((tx ∘ _conn) <$> objects w' !! 0%nat) = Some [] /\
  ((rx ∘ _conn) <$> objects w' !! 0%nat) = Some [].
Proof.
  split; [reflexivity|]. split; [by_evaluation|]. vm_compute. done.
Qed.

(** The same request as the first packet of a connection, where the
    handshake expects [VERSION], is outside this loop: the handshake runs
    in the constructor on the accepting thread, and its [sys.exit(1)]
    ends the server. *)
Example handshake_turns_LIST_away :
  server.start_turn
    (example.socket [example.request wcom.LIST (str "None") (str "None")])
    (example.world [])
  = server.Exited 1.
Proof. vm_compute. reflexivity. Qed.

(** *** Short reads *)

Section ShortReads.
Implicit Types (w : World) (o : WispServer) (self : nat).
Variable cbs : wisp_server.ReqCallbacks.
Variable msg_cb : option pystr -> wcom.WispMessage -> M unit.

(** Server, request: a short read ends the thread and closes the
    connection. *)
Lemma short_request_read self w o packet c' :
  objects w !! self = Some o ->
  alive o = true -> _working o = true ->
  _state o ≠ wcom.Conversation ->
  sock_recv 36 (_conn o) = Some (packet, c') ->
  length packet ≠ 36%nat ->
  wisp_server.thread_step cbs msg_cb self w =
  with_object self (set_alive false (set_conn (sock_close c') o)) w.
Proof.
  intros Ho Ha Hw Hst Hr Hlen.
  rewrite (thread_step_running _ _ _ _ _ Ho Ha Hw).
  rewrite (run_iteration_request _ _ _ _ _ Ho Hst).
  unfold try_except, wisp_server.run_request, wisp_server._parse_request.
  rewrite !bind_assoc.
  rewrite (bind_Raise _ _ _ _ _ (_recv_short _ _ _ _ _ _ Ho Hr Hlen)).
  cbn [is_Exception]. unfold conn_close.
  repeat st_step. unfold sys_exit, raise.
  erewrite setattr_Some by obj_lookup.
  cbn [snd]. by rewrite with_object_twice.
Qed.

Lemma parse_message_short now c msg c' :
  sock_recv 132 c = Some (msg, c') ->
  (length msg < 132)%nat ->
  wcom.parse_message now c = (Done (Ret None), c').
Proof.
  intros Hr Hlen. unfold wcom.parse_message, try_except.
  rewrite (bind_Ret _ _ _ _ _ (recv_Some _ _ _ _ Hr)).
  by rewrite bool_decide_true.
Qed.

(** Server, message: a short read ends the thread. *)
Lemma short_message_read self w o msg c' :
  objects w !! self = Some o ->
  alive o = true -> _working o = true ->
  _state o = wcom.Conversation ->
  sock_recv 132 (_conn o) = Some (msg, c') ->
  (length msg < 132)%nat ->
  wisp_server.thread_step cbs msg_cb self w =
  with_object self (set_alive false (set_conn c' o)) w.
Proof.
  intros Ho Ha Hw Hst Hr Hlen.
  rewrite (thread_step_running _ _ _ _ _ Ho Ha Hw).
  unfold wisp_server.run_iteration, try_except.
  rewrite (bind_Ret _ _ _ _ _ (getattr_Some _ _ _ _ Ho)).
  rewrite decide_True by done.
  unfold wisp_server.run_conversation.
  rewrite (bind_Ret _ _ _ _ _ (getattr_Some _ _ _ _ Ho)).
  rewrite (sock_recv_readable _ _ _ Hr). cbv iota.
  rewrite !bind_assoc. unfold get_world.
  change ((get_state ≫= ?k) w) with (k w w). cbv beta.
  rewrite !bind_assoc.
  rewrite (bind_Ret _ _ _ _ _
             (on_conn_Some _ _ _ _ _ _ Ho
                (parse_message_short (clock w) _ _ _ Hr Hlen))).
  unfold sys_exit. rewrite !bind_raise. cbn [is_Exception].
  erewrite setattr_Some by obj_lookup.
  cbn [snd]. by rewrite with_object_twice.
Qed.

(** Client: a short header, or a short message, ends the process. *)
Lemma short_header_read c header c' :
  sock_recv 6 c = Some (header, c') ->
  (length header < 6)%nat ->
  wisp_client._parse_response c = (Done (Raise (OsExit 1)), c').
Proof.
  intros Hr Hlen. unfold wisp_client._parse_response, try_except.
  rewrite (bind_Ret _ _ _ _ _ (recv_Some _ _ _ _ Hr)).
  by rewrite bool_decide_true.
Qed.

Lemma client_short_message now st q c msg c' :
  st ∉ [wcom.Authentication; wcom.Command] ->
  sock_recv 132 c = Some (msg, c') ->
  (length msg < 132)%nat ->
  wisp_client.run_incoming now (wisp_client.mkWispClient st q c) =
  (Done (Raise (OsExit 1)), wisp_client.mkWispClient st q c').
Proof.
  intros Hst Hr Hlen. unfold wisp_client.run_incoming. simpl.
  rewrite (sock_recv_readable _ _ _ Hr).
  rewrite bool_decide_false by done.
  by rewrite (parse_message_short now _ _ _ Hr Hlen).
Qed.
End ShortReads.

(** ** Registration *)

Section Accept.
Implicit Types (w : World) (o : WispServer).

(** [X22].  A connection whose first packet is [VERSION 1.1] is
    registered: a new thread object, alive and in [Authentication], is
    appended to the registry, which keeps holding distinct references to
    thread objects. *)
Lemma accept_registers w conn packet c' req :
  sock_recv 36 conn = Some (packet, c') ->
  length packet = 36%nat ->
  packet_request packet = Some req ->
  wcom.cmd req = wcom.VERSION ->
  wcom.arg1 req = str "1.1" ->
  no_dangling w -> NoDup (_sessions w) ->
  exists ref w',
    server.accept conn w = (Done (Ret ref), w') /\
    objects w !! ref = None /\
    objects w' !! ref =
    Some (mkWispServer None None []
            (sock_send ok_response (sock_send version_list_response c'))
            0 true wcom.Authentication true) /\
    _sessions w' = _sessions w ++ [ref] /\
    no_dangling w' /\ NoDup (_sessions w').
Proof.
  intros Hr Hlen Hreq Hcmd Harg Hok Hnd.
  set (ref := fresh (dom (objects w))).
  assert (objects w !! ref = None) as Hfresh
    by (apply not_elem_of_dom, is_fresh).
  assert (ref ∉ _sessions w) as Hnew.
  { intros Hin. destruct (no_dangling_elem_of _ _ Hok Hin) as [o Ho].
    congruence. }
  set (o0 := mkWispServer None None [] conn 0 true wcom.Listening false).
  set (w0 := mkWorld (DATASTORE w) (<[ref := o0]> (objects w))
                     (_sessions w) (clock w)).
  assert (objects w0 !! ref = Some o0) as Ho0 by apply lookup_insert_eq.
  eexists ref, _. split.
  - unfold server.accept, get_world.
    change ((get_state ≫= ?k) w) with (k w w). cbv beta zeta.
    fold ref o0. unfold put_world.
    change ((put_state ?x ≫= ?k) w) with (k tt x). cbv beta. fold w0.
    rewrite (bind_Ret _ _ _ _ _
               (handshake_accepts ref w0 o0 packet c' req Ho0 Hr Hlen Hreq
                  Hcmd Harg)).
    repeat st_step. unfold get_world.
    match goal with
    | |- (get_state ≫= ?k) ?x = _ => change ((get_state ≫= k) x) with (k x x)
    end.
    cbv beta. unfold server.put_sessions, get_world.
    match goal with
    | |- ((get_state ≫= ?k1) ≫= ?k2) ?x = _ =>
        change (((get_state ≫= k1) ≫= k2) x) with ((k1 x ≫= k2) x)
    end.
    reflexivity.
  - simpl. split; [done|]. split.
    + rewrite lookup_insert_eq. reflexivity.
    + split; [done|]. split.
      * unfold no_dangling. simpl. apply Forall_app. split.
        -- eapply Forall_impl; [exact Hok|]. simpl. intros r Hr'.
           destruct (decide (ref = r)) as [->|Hne].
           ++ rewrite lookup_insert_eq. by eexists.
           ++ rewrite lookup_insert_ne by done.
              by rewrite lookup_insert_ne.
        -- apply Forall_singleton. rewrite lookup_insert_eq. by eexists.
      * apply NoDup_app. split; [done|]. split.
        -- intros r Hin Hr'. apply list_elem_of_singleton in Hr' as ->. done.
        -- apply NoDup_singleton.
Qed.
End Accept.

Lemma accept_registers_witness :
  let w := example.world [] in
  let conn := example.socket [version_request] in
  no_dangling w /\ NoDup (_sessions w) /\
  exists ref w',
    server.accept conn w = (Done (Ret ref), w') /\
    _sessions w' = [ref] /\ no_dangling w' /\ NoDup (_sessions w').
Proof.
  intros w conn.
  set (req := wcom.mkRequest wcom.VERSION (str "1.1") []).
  assert (no_dangling w) as Hok by by_evaluation.
  assert (NoDup (_sessions w)) as Hnd by by_evaluation.
  assert (sock_recv 36 conn = Some (version_request, example.socket []))
    as Hr by (vm_compute; reflexivity).
  assert (length version_request = 36%nat) as Hlen
    by (vm_compute; reflexivity).
  assert (packet_request version_request = Some req) as Hreq
    by (vm_compute; reflexivity).
  split; [exact Hok|]. split; [exact Hnd|].
  destruct (accept_registers w conn version_request (example.socket []) req
              Hr Hlen Hreq eq_refl eq_refl Hok Hnd)
    as (ref & w' & Hacc & _ & _ & Hs & Hok' & Hnd').
  exists ref, w'. split; [exact Hacc|]. split; [exact Hs|].
  split; [exact Hok' | exact Hnd'].
Defined.

(** ** Sessions: authentication *)

Section Auth.
Implicit Types (w : World) (o : WispServer) (self : nat).

Lemma server_handle_auth w username password :
  server._handle_auth username password w =
  (Done (Ret (if valid_credentials (DATASTORE w) username password
              then (true, []) else (false, [str "Invalid Cred"]))), w).
Proof.
  unfold server._handle_auth, valid_credentials, server.get_DATASTORE.
  run_st.
  destruct (server.ds_get (DATASTORE w) (Some username)) as [[pw fr]|];
    [|done].
  simpl. destruct (decide (pw = password)).
  - by rewrite bool_decide_true.
  - by rewrite bool_decide_false.
Qed.

Lemma auth_failure_step self w o packet c' :
  objects w !! self = Some o ->
  alive o = true -> _working o = true ->
  _state o = wcom.Authentication ->
  sock_recv 36 (_conn o) = Some (packet, c') ->
  failed_auth_packet (DATASTORE w) packet ->
  server.session_step self w =
  if bool_decide (_auth_counter o + 1 > 5) then
    with_object self
      (set_alive false
         (set_auth_counter (_auth_counter o + 1) (set_conn c' o))) w
  else
    with_object self
      (set_conn (sock_send invalid_cred_response c')
         (set_auth_counter (_auth_counter o + 1) (set_conn c' o))) w.
Proof.
  intros Ho Ha Hw Hst Hr [Hlen Hp].
  destruct (packet_request packet) as [req|] eqn:Hreq; [|done].
  destruct Hp as [Hcmd Hbad].
  unfold server.session_step.
  rewrite (thread_step_running _ _ _ _ _ Ho Ha Hw).
  assert (_state o ≠ wcom.Conversation) as Hnc by (by rewrite Hst).
  rewrite (run_iteration_request _ _ _ _ _ Ho Hnc).
  assert (wcom.valid (wcom.cmd req) = true) as Hv by (by rewrite Hcmd).
  assert (wcom.cmd req ∈ legal_set (_state o)) as Hin
    by (rewrite Hst, Hcmd; set_solver).
  rewrite Hst in *. unfold try_except.
  rewrite <- Hst at 1.
  erewrite run_request_legal; eauto;
    [| by rewrite Hst | by rewrite Hcmd].
  unfold dispatch, wisp_server._handle_auth. simpl.
  set (w1 := with_object self (set_conn c' o) w).
  rewrite !bind_assoc.
  rewrite (bind_Ret _ _ _ _ _ (server_handle_auth w1 _ _)).
  replace (DATASTORE w1) with (DATASTORE w) by done.
  rewrite Hbad. unfold w1. repeat st_step.
  change (_auth_counter (set_auth_counter (_auth_counter (set_conn c' o) + 1)
                           (set_conn c' o)))
    with (_auth_counter o + 1).
  change (_auth_counter (set_conn c' o)) with (_auth_counter o).
  case_bool_decide as Hc.
  - unfold sys_exit. rewrite bind_raise. cbn [is_Exception].
    erewrite setattr_Some by obj_lookup.
    cbn [snd]. by rewrite with_object_twice.
  - repeat st_step.
    erewrite _send_res_Some by (first [obj_lookup | reflexivity]).
    by rewrite with_object_twice.
Qed.
End Auth.

Section AuthAttempts.
Implicit Types (w : World) (o : WispServer) (self : nat).

Lemma auth_success_step self w o packet c' req :
  objects w !! self = Some o ->
  alive o = true -> _working o = true ->
  _state o = wcom.Authentication ->
  sock_recv 36 (_conn o) = Some (packet, c') ->
  length packet = 36%nat ->
  packet_request packet = Some req ->
  wcom.cmd req = wcom.AUTH ->
  valid_credentials (DATASTORE w) (wcom.arg1 req) (wcom.arg2 req) = true ->
  server.session_step self w =
  with_object self
    (set_conn (sock_send ok_response c')
       (set_user (Some (wcom.arg1 req))
          (set_state wcom.Command (set_conn c' o)))) w.
Proof.
  intros Ho Ha Hw Hst Hr Hlen Hreq Hcmd Hgood.
  unfold server.session_step.
  rewrite (thread_step_running _ _ _ _ _ Ho Ha Hw).
  assert (_state o ≠ wcom.Conversation) as Hnc by (by rewrite Hst).
  rewrite (run_iteration_request _ _ _ _ _ Ho Hnc).
  assert (wcom.valid (wcom.cmd req) = true) as Hv by (by rewrite Hcmd).
  assert (wcom.cmd req ∈ legal_set (_state o)) as Hin
    by (rewrite Hst, Hcmd; set_solver).
  rewrite Hst in *. unfold try_except.
  rewrite <- Hst at 1.
  erewrite run_request_legal; eauto;
    [| by rewrite Hst | by rewrite Hcmd].
  unfold dispatch, wisp_server._handle_auth. simpl.
  set (w1 := with_object self (set_conn c' o) w).
  rewrite !bind_assoc.
  rewrite (bind_Ret _ _ _ _ _ (server_handle_auth w1 _ _)).
  replace (DATASTORE w1) with (DATASTORE w) by done.
  rewrite Hgood. unfold w1. repeat st_step.
  erewrite _send_res_Some by (first [obj_lookup | reflexivity]).
  by rewrite with_object_twice.
Qed.

(** After [k] rejected attempts the counter has advanced by [k]; the
    session is alive as long as the counter has not passed 5. *)
Lemma failed_auths self packets : forall w o rest,
  objects w !! self = Some o ->
  alive o = true -> _working o = true ->
  _state o = wcom.Authentication ->
  rx (_conn o) = packets ++ rest ->
  Forall (failed_auth_packet (DATASTORE w)) packets ->
  0 <= _auth_counter o <= 5 ->
  _auth_counter o + Z.of_nat (length packets) <= 6 ->
  exists o',
    objects (session_steps (length packets) self w) !! self = Some o' /\
    DATASTORE (session_steps (length packets) self w) = DATASTORE w /\
    _auth_counter o' = _auth_counter o + Z.of_nat (length packets) /\
    (_auth_counter o' <= 5 ->
     alive o' = true /\ _working o' = true /\
     _state o' = wcom.Authentication /\ user o' = user o /\
     rx (_conn o') = rest) /\
    (_auth_counter o' = 6 -> alive o' = false).
Proof.
  induction packets as [|packet packets IH];
    intros w o rest Ho Ha Hw Hst Hrx Hall Hc Hmax.
  - simpl. exists o. repeat split; try done; lia.
  - apply Forall_cons in Hall as [Hp Hall].
    pose proof Hp as [Hlen _].
    assert (sock_recv 36 (_conn o) =
            Some (packet, mkSocket (packets ++ rest) (peer_closed (_conn o))
                                   (tx (_conn o)) (closed (_conn o))))
      as Hr.
    { destruct (_conn o) as [r pc t cl]. simpl in *. subst r.
      by apply sock_recv_whole; lia. }
    simpl session_steps.
    rewrite (auth_failure_step _ _ _ _ _ Ho Ha Hw Hst Hr Hp).
    simpl length in *.
    case_bool_decide as Hover.
    + (* the sixth failure: no packet is left and the thread has ended *)
      destruct packets as [|? ?]; [|simpl in Hmax; lia].
      cbn [session_steps length]. eexists.
      split; [apply lookup_with_object|].
      simpl. repeat split; try done; lia.
    + set (o1 := set_conn _ _).
      destruct (IH (with_object self o1 w) o1 rest) as (o' & H1 & H2 & H3 & H4);
        try done; try apply lookup_with_object; simpl; try lia.
      exists o'. split; [done|]. split; [done|].
      simpl in H3. split; [lia|]. done.
Qed.
End AuthAttempts.

(** [C4].  In [Authentication] every rejected [AUTH] adds one to the
    session's counter, and the session ends as soon as the counter passes
    5: after five or fewer failed attempts the session is alive, still in
    [Authentication], has counted them, and a following [AUTH] with good
    credentials is accepted; the sixth failed attempt ends it. *)
Theorem auth_cutoff (self : nat) (w : World) (o : WispServer)
    (packets : list bytes) (rest : list bytes) :
  objects w !! self = Some o ->
  alive o = true -> _working o = true ->
  _state o = wcom.Authentication ->
  _auth_counter o = 0 ->
  rx (_conn o) = packets ++ rest ->
  Forall (failed_auth_packet (DATASTORE w)) packets ->
  (length packets <= 6)%nat ->
  let w' := session_steps (length packets) self w in
  exists o',
    objects w' !! self = Some o' /\
    _auth_counter o' = Z.of_nat (length packets) /\
    ((length packets <= 5)%nat ->
     alive o' = true /\ _state o' = wcom.Authentication /\
     forall packet req rest',
       rest = packet :: rest' ->
       length packet = 36%nat ->
       packet_request packet = Some req ->
       wcom.cmd req = wcom.AUTH ->
       valid_credentials (DATASTORE w) (wcom.arg1 req) (wcom.arg2 req) = true ->
       exists o'',
         objects (server.session_step self w') !! self = Some o'' /\
         alive o'' = true /\ _state o'' = wcom.Command /\
         user o'' = Some (wcom.arg1 req)) /\
    (length packets = 6%nat -> alive o' = false).
Proof.
  intros Ho Ha Hw Hst Hc Hrx Hall Hmax w'.
  destruct (failed_auths self packets w o rest Ho Ha Hw Hst Hrx Hall)
    as (o' & Ho' & Hds & Hcount & Hopen & Hshut); [lia..|].
  fold w' in Ho', Hds. exists o'. split; [done|]. split; [lia|]. split.
  - intros Hfew. destruct Hopen as (Ha' & Hw' & Hst' & _ & Hrx'); [lia|].
    split; [done|]. split; [done|].
    intros packet req rest' -> Hlen Hreq Hcmd Hgood.
    assert (sock_recv 36 (_conn o') =
            Some (packet, mkSocket rest' (peer_closed (_conn o'))
                                   (tx (_conn o')) (closed (_conn o'))))
      as Hr.
    { destruct (_conn o') as [r pc t cl]. simpl in *. subst r.
      by apply sock_recv_whole; lia. }
    rewrite <- Hds in Hgood.
    rewrite (auth_success_step _ _ _ _ _ _ Ho' Ha' Hw' Hst' Hr Hlen Hreq
               Hcmd Hgood).
    eexists. split; [apply lookup_with_object|]. done.
  - intros Hsix. apply Hshut. lia.
Qed.

Lemma auth_cutoff_witness :
  let w := example.six_wrong_passwords in
  let packets := replicate 6 example.wrong_password in
  let o := example.session None wcom.Authentication packets in
  objects w !! 0%nat = Some o /\
  alive o = true /\ _working o = true /\
  _state o = wcom.Authentication /\
  _auth_counter o = 0 /\
  rx (_conn o) = packets ++ [] /\
  Forall (failed_auth_packet (DATASTORE w)) packets /\
  (length packets <= 6)%nat /\
  exists o',
    objects (session_steps 6 0 w) !! 0%nat = Some o' /\
    _auth_counter o' = 6 /\ alive o' = false.
Proof.
  intros w packets o.
  assert (Forall (failed_auth_packet (DATASTORE w)) packets) as Hall.
  { repeat constructor; vm_compute; done. }
  assert (length packets <= 6)%nat as Hmax by (vm_compute; lia).
  repeat (split; [first [reflexivity | exact Hall | exact Hmax]|]).
  destruct (auth_cutoff 0 w o packets [] eq_refl eq_refl eq_refl eq_refl
              eq_refl eq_refl Hall Hmax) as (o' & Ho' & Hcount & _ & Hshut).
  exists o'. split; [exact Ho'|]. split; [exact Hcount|].
  exact (Hshut eq_refl).
Defined.

(** The sixth wrong password ends the thread; after three the session is
    open and has counted them. *)
Example six_wrong_passwords_end_the_session :
  (alive <$> objects (session_steps 6 0 example.six_wrong_passwords) !! 0%nat)
  = Some false /\
  (alive <$> objects (session_steps 5 0 example.six_wrong_passwords) !! 0%nat)
  = Some true /\
  (_auth_counter <$>
     objects (session_steps 3 0 example.three_wrong_passwords) !! 0%nat)
  = Some 3.
Proof. vm_compute. done. Qed.

(** ** Sessions: starting a conversation *)

Section Conv.
Implicit Types (w : World) (o : WispServer) (self : nat).

Lemma _handle_conv_loop_spec conns target w :
  Forall (fun ref => is_Some (objects w !! ref)) conns ->
  exists b,
    server._handle_conv_loop conns target w = (Done (Ret b), w) /\
    (b = true <->
     exists ref o, ref ∈ conns /\ objects w !! ref = Some o /\
                   user o = Some target).
Proof.
  induction conns as [|conn rest IH]; intros Hok.
  - exists false. split; [done|]. split; [done|].
    intros (ref & o & Hin & _). by apply elem_of_nil in Hin.
  - apply Forall_cons in Hok as [[o Ho] Hok].
    simpl. rewrite (bind_Ret _ _ _ _ _ (getattr_Some _ _ _ _ Ho)).
    destruct (decide (user o = Some target)) as [Hu|Hu].
    + exists true. split; [done|]. split; [|done]. intros _.
      exists conn, o. split; [left|done].
    + destruct (IH Hok) as (b & Hb & Hiff).
      exists b. split; [done|]. etrans; [exact Hiff|]. split.
      * intros (ref & o' & Hin & H1 & H2). exists ref, o'.
        split; [by apply list_elem_of_further | done].
      * intros (ref & o' & Hin & H1 & H2).
        apply elem_of_cons in Hin as [->|Hin].
        -- congruence.
        -- by exists ref, o'.
Qed.

(** [Server._handle_conv]: success is friendship plus a registered
    session, whatever the state of its thread. *)
Lemma server_handle_conv w owner target :
  no_dangling w ->
  server.ds_mem (DATASTORE w) (Some owner) = true ->
  exists r,
    server._handle_conv (Some owner) target w = (Done (Ret r), w) /\
    (target ∉ friend_list (DATASTORE w) owner ->
     r = (false, [str "Friend Unknown"])) /\
    (target ∈ friend_list (DATASTORE w) owner -> registered w target ->
     r = (true, [])) /\
    (target ∈ friend_list (DATASTORE w) owner -> ¬ registered w target ->
     r = (false, [str "User offline"])).
Proof.
  intros Hok Hm. unfold server._handle_conv, server.friends_of,
    server.get_DATASTORE. run_st.
  unfold friend_list. unfold server.ds_mem in Hm.
  destruct (server.ds_get (DATASTORE w) (Some owner)) as [a|]; [|done].
  simpl. case_bool_decide as Hfr; simpl.
  - eexists. split; [done|]. repeat split; done.
  - destruct (_handle_conv_loop_spec (_sessions w) target w Hok)
      as (b & Hb & Hiff).
    rewrite Hb. destruct b; simpl.
    + eexists. split; [done|]. repeat split; try done.
      intros _ Hoff. destruct Hoff. by apply Hiff.
    + eexists. split; [done|]. repeat split; try done.
      intros _ Hreg. by apply Hiff in Hreg.
Qed.
End Conv.

Section ConvStep.
Implicit Types (w : World) (o : WispServer) (self : nat).

Lemma registered_with_object w self o o' target :
  objects w !! self = Some o -> user o' = user o ->
  registered (with_object self o' w) target <-> registered w target.
Proof.
  intros Ho Hu. unfold registered. simpl. split.
  - intros (ref & x & Hin & Hx & Hux).
    destruct (decide (self = ref)) as [->|Hne].
    + rewrite lookup_insert_eq in Hx. injection Hx as <-.
      exists ref, o. by rewrite <- Hu.
    + rewrite lookup_insert_ne in Hx by done. by exists ref, x.
  - intros (ref & x & Hin & Hx & Hux).
    destruct (decide (self = ref)) as [->|Hne].
    + exists ref, o'. rewrite lookup_insert_eq.
      rewrite Ho in Hx. injection Hx as <-. by rewrite Hu.
    + exists ref, x. by rewrite lookup_insert_ne.
Qed.

(** One turn of a session in [Command] that reads a [CONV] request. *)
Lemma conv_step self w o owner packet c' req :
  objects w !! self = Some o ->
  alive o = true -> _working o = true ->
  _state o = wcom.Command ->
  user o = Some owner ->
  server.ds_mem (DATASTORE w) (Some owner) = true ->
  no_dangling w ->
  sock_recv 36 (_conn o) = Some (packet, c') ->
  length packet = 36%nat ->
  packet_request packet = Some req ->
  wcom.cmd req = wcom.CONV ->
  let target := wcom.arg1 req in
  (target ∈ friend_list (DATASTORE w) owner /\ registered w target ->
   server.session_step self w =
   with_object self
     (set_conn (sock_send ok_response c')
        (set_target (Some target)
           (set_state wcom.Conversation (set_conn c' o)))) w)
  /\ (target ∉ friend_list (DATASTORE w) owner ->
      server.session_step self w =
      with_object self
        (set_conn (sock_send friend_unknown_response c') o) w)
  /\ (target ∈ friend_list (DATASTORE w) owner -> ¬ registered w target ->
      server.session_step self w =
      with_object self
        (set_conn (sock_send user_offline_response c') o) w).
Proof.
  intros Ho Ha Hw Hst Hu Hm Hok Hr Hlen Hreq Hcmd target.
  unfold server.session_step.
  rewrite (thread_step_running _ _ _ _ _ Ho Ha Hw).
  assert (_state o ≠ wcom.Conversation) as Hnc by (by rewrite Hst).
  rewrite (run_iteration_request _ _ _ _ _ Ho Hnc).
  assert (wcom.valid (wcom.cmd req) = true) as Hv by (by rewrite Hcmd).
  assert (wcom.cmd req ∈ legal_set (_state o)) as Hin
    by (rewrite Hst, Hcmd; set_solver).
  unfold try_except.
  erewrite run_request_legal; eauto;
    [| by rewrite Hst | by rewrite Hcmd].
  unfold dispatch, wisp_server._handle_conv. simpl.
  set (w1 := with_object self (set_conn c' o) w).
  assert (no_dangling w1) as Hok1 by (by apply no_dangling_with_object).
  assert (server.ds_mem (DATASTORE w1) (Some owner) = true) as Hm1 by done.
  destruct (server_handle_conv w1 owner target Hok1 Hm1)
    as (r & Hconv & Hunknown & Honline & Hoffline).
  replace (DATASTORE w1) with (DATASTORE w) in * by done.
  assert (objects w1 !! self = Some (set_conn c' o)) as Ho1
    by apply lookup_with_object.
  rewrite !bind_assoc.
  rewrite (bind_Ret _ _ _ _ _ (getattr_Some _ _ _ _ Ho1)).
  simpl user. rewrite Hu.
  rewrite !bind_assoc.
  rewrite (bind_Ret _ _ _ _ _ Hconv).
  assert (registered w1 target <-> registered w target) as Hreg
    by (by apply (registered_with_object w self o)).
  split; [|split].
  - intros [Hfr Hon]. rewrite Honline by (by try apply Hreg).
    unfold w1. repeat st_step.
    erewrite _send_res_Some by (first [obj_lookup | reflexivity]).
    by rewrite with_object_twice.
  - intros Hfr. rewrite Hunknown by done.
    unfold w1. repeat st_step.
    erewrite _send_res_Some by (first [obj_lookup | reflexivity]).
    by rewrite with_object_twice.
  - intros Hfr Hoff. rewrite Hoffline by (by try rewrite Hreg).
    unfold w1. repeat st_step.
    erewrite _send_res_Some by (first [obj_lookup | reflexivity]).
    by rewrite with_object_twice.
Qed.
End ConvStep.

(** With every registered thread alive, a registered session is a live
    one: in such a registry [CONV] succeeds exactly as the claim says. *)
Lemma registered_online w target :
  (forall ref o, ref ∈ _sessions w -> objects w !! ref = Some o ->
                 alive o = true) ->
  registered w target <-> online w target.
Proof.
  intros Hall. split.
  - intros (ref & o & Hin & Ho & Hu). exists ref, o. eauto.
  - intros (ref & o & Hin & Ho & Hu & _). by exists ref, o.
Qed.

(** [C3] (the code departs from the claim).  andrei asks for a
    conversation with his friend safa.  The only session of safa in the
    registry has ended and was not reaped yet, so no live session of safa
    exists; [_handle_conv] looks at [user] only, answers OK, and andrei's
    session records the target and moves to [Conversation]. *)
Theorem conv_with_ended_session_succeeds :
  let w := example.conv_with_ended_peer in
  example.safa ∈ friend_list (DATASTORE w) example.andrei /\
  ¬ online w example.safa /\
  let w' := server.session_step 0 w in
  (_state <$> objects w' !! 0%nat) = Some wcom.Conversation /\
  (target <$> objects w' !! 0%nat) = Some (Some example.safa) /\
  ((tx ∘ _conn) <$> objects w' !! 0%nat) = Some [ok_response].
Proof.
  intros w. split; [by_evaluation|]. split.
  - intros (ref & o & Hin & Ho & Hu & Ha).
    apply elem_of_cons in Hin as [->|Hin];
      [|apply elem_of_cons in Hin as [->|Hin]];
      [| |by apply elem_of_nil in Hin];
      vm_compute in Ho; injection Ho as <-; discriminate.
  - vm_compute. done.
Qed.

(** ** The client: reading a response *)

(** [C7] (the code departs from the claim).  The client reads each
    16-byte field of a response with [recv(16)] and never looks at how
    many bytes came.  Here the header announces two fields, three bytes
    of the first arrive and then the peer closes: the parser takes the
    three bytes as the first field and the empty read as the second and
    returns a response, where the header, the message frame and the
    server's request frame all stop on a short read. *)
Theorem short_response_field_is_accepted :
  wisp_client._parse_response example.short_response =
  (Done (Ret (wcom.mkResponse wcom.OK 2 [str "hi"; []])),
   mkSocket [] true [] false).
Proof. vm_compute. reflexivity. Qed.

(** The client's loop queues that response and goes on. *)
Example short_response_is_queued :
  wisp_client.run_incoming 1528000000
    (wisp_client.mkWispClient wcom.Command [] example.short_response) =
  (Done (Ret tt),
   wisp_client.mkWispClient wcom.Command
     [wisp_client.Response (wcom.mkResponse wcom.OK 2 [str "hi"; []])]
     (mkSocket [] true [] false)).
Proof. vm_compute. reflexivity. Qed.

(** * More of the code *)

(** ** Frames on the wire *)

(** [X1].  [parse_pkt_field] returns the text before the first null
    character: the value holds no null, a field without a null comes back
    whole, and what is cut off starts with a null. *)
Theorem parse_pkt_field_is_the_text_before_the_first_null (field : pystr) :
  let value := wcom.parse_pkt_field field in
  (0 ∉ value) /\
  (0 ∉ field -> value = field) /\
  exists rest, field = value ++ rest /\ (rest = [] \/ exists r, rest = 0 :: r).
Proof.
  induction field as [|c field (Hnull & Hwhole & rest & Hsplit & Hrest)]; simpl.
  - split; [apply not_elem_of_nil|]. split; [done|]. exists []. by split; [|left].
  - case_bool_decide as Hc.
    + subst c. split; [apply not_elem_of_nil|]. split.
      * intros Hnot. destruct Hnot. left.
      * exists (0 :: field). split; [done|]. right. by eexists.
    + split; [by apply not_elem_of_cons|]. split.
      * intros Hnot. apply not_elem_of_cons in Hnot as [_ Hnot].
        by rewrite Hwhole.
      * exists rest. split; [|done]. simpl. by rewrite <- Hsplit.
Qed.

Lemma length_ljust_max n s : length (ljust n s) = Nat.max n (length s).
Proof. unfold ljust. rewrite length_app, length_replicate. lia. Qed.

(** [X2].  [build_req] pads each argument and its null to 16 characters
    and never cuts: a request with ASCII arguments is a frame of the
    length of the command plus, for each argument, 16 or the argument's
    length plus one, whichever is larger.  With a four-character command
    the frame has 36 bytes exactly when both arguments have at most 15
    characters. *)
Theorem build_req_frame_length (cmd arg1 arg2 : pystr) :
  is_ascii cmd -> is_ascii arg1 -> is_ascii arg2 ->
  exists frame,
    wcom.build_req cmd arg1 arg2 = Some frame /\
    length frame =
      (length cmd + Nat.max 16 (length arg1 + 1)
       + Nat.max 16 (length arg2 + 1))%nat /\
    (length cmd = 4%nat ->
     length frame = 36%nat <->
     (length arg1 <= 15)%nat /\ (length arg2 <= 15)%nat).
Proof.
  intros Hc H1 H2. eexists. split.
  - unfold wcom.build_req. apply encode_ascii.
    apply is_ascii_app; [done|].
    apply is_ascii_app; by apply is_ascii_field.
  - rewrite !length_app, !length_ljust_max, !length_app. simpl. split; lia.
Qed.

Lemma build_req_frame_length_witness :
  is_ascii wcom.AUTH /\ is_ascii example.andrei /\ is_ascii example.sixteen /\
  exists frame,
    wcom.build_req wcom.AUTH example.andrei example.sixteen = Some frame /\
    length frame = 37%nat.
Proof.
  assert (is_ascii wcom.AUTH) as Hc by by_evaluation.
  assert (is_ascii example.andrei) as H1 by by_evaluation.
  assert (is_ascii example.sixteen) as H2 by by_evaluation.
  repeat (split; [assumption|]).
  destruct (build_req_frame_length wcom.AUTH example.andrei example.sixteen
              Hc H1 H2) as (frame & Hb & Hl & _).
  exists frame. split; [exact Hb|]. exact Hl.
Defined.

Lemma valid_ascii cmd :
  wcom.valid cmd = true -> is_ascii cmd /\ length cmd = 4%nat.
Proof.
  unfold wcom.valid. intros H. apply bool_decide_eq_true in H.
  repeat (apply elem_of_cons in H as [->|H]);
    [by split; [by_evaluation|].. | by apply elem_of_nil in H].
Qed.

(** [X3].  A request that the client's sending handler writes is read by
    the server's [_parse_request] as the same command with the same
    arguments, cut at their first null; a missing argument ([None])
    arrives as the text "None".  For a recognized command and ASCII
    arguments of at most 15 characters. *)
Theorem request_reaches_the_server (self : nat) (w : World) (o : WispServer)
    (cs : Socket) (cmd : pystr) (arg1 arg2 : option pystr)
    (rest : list bytes) :
  wcom.valid cmd = true ->
  is_ascii (wisp_client.format_arg arg1) ->
  (length (wisp_client.format_arg arg1) <= 15)%nat ->
  is_ascii (wisp_client.format_arg arg2) ->
  (length (wisp_client.format_arg arg2) <= 15)%nat ->
  objects w !! self = Some o ->
  exists frame,
    wisp_client._handlers (wisp_client.Request cmd arg1 arg2) cs =
    (Done (Ret tt), sock_send frame cs) /\
    length frame = 36%nat /\
    (rx (_conn o) = frame :: rest ->
     wisp_server._parse_request self w =
     (Done (Ret (wcom.mkRequest cmd
                   (wcom.parse_pkt_field (wisp_client.format_arg arg1))
                   (wcom.parse_pkt_field (wisp_client.format_arg arg2)))),
      with_object self
        (set_conn (mkSocket rest (peer_closed (_conn o)) (tx (_conn o))
                            (closed (_conn o))) o) w)).
Proof.
  intros Hv H1 Hl1 H2 Hl2 Ho.
  destruct (valid_ascii _ Hv) as [Hc Hlc].
  destruct (request_roundtrip cmd _ _ Hc Hlc H1 Hl1 H2 Hl2)
    as (frame & Hbuild & Hlen & Hreq).
  exists frame. split; [|split; [done|]].
  - unfold wisp_client._handlers, wisp_client.send_built. rewrite Hbuild.
    reflexivity.
  - intros Hrx. apply (_parse_request_ok self w o frame); try done.
    destruct (_conn o) as [r pc t cl]. simpl in *. subst r.
    apply sock_recv_whole. lia.
Qed.

Lemma request_reaches_the_server_witness :
  let w := example.list_before_auth in
  let o := example.session None wcom.Authentication
             [example.request wcom.LIST (str "None") (str "None")] in
  wcom.valid wcom.LIST = true /\
  is_ascii (wisp_client.format_arg None) /\
  (length (wisp_client.format_arg None) <= 15)%nat /\
  objects w !! 0%nat = Some o /\
  exists frame,
    wisp_client._handlers (wisp_client.Request wcom.LIST None None)
      (example.socket []) =
    (Done (Ret tt), sock_send frame (example.socket [])) /\
    length frame = 36%nat.
Proof.
  intros w o.
  assert (is_ascii (wisp_client.format_arg None)) as Ha by by_evaluation.
  assert (length (wisp_client.format_arg None) <= 15)%nat as Hl
    by (vm_compute; lia).
  split; [reflexivity|]. split; [exact Ha|]. split; [exact Hl|].
  split; [reflexivity|].
  destruct (request_reaches_the_server 0 w o (example.socket []) wcom.LIST
              None None [] eq_refl Ha Hl Ha Hl eq_refl)
    as (frame & Hsend & Hlen & _).
  exists frame. split; [exact Hsend | exact Hlen].
Defined.

(** [X4].  A message whose text has at most 127 ASCII characters is a
    frame of 132 bytes, and [parse_message] reads it back from the stream:
    the text cut at its first null, and the timestamp, except that a
    timestamp of zero is replaced by the reader's clock. *)
Theorem message_round_trip (now ts : Z) (text : pystr) (rest : list bytes)
    (pc : bool) (t : list bytes) (cl : bool) :
  0 <= ts < 4294967296 ->
  is_ascii text -> (length text <= 127)%nat ->
  exists frame,
    wcom.build_msg ts text = Some frame /\
    length frame = 132%nat /\
    wcom.parse_message now (mkSocket (frame :: rest) pc t cl) =
    (Done (Ret (Some (wcom.mkMessage (if decide (ts = 0) then now else ts)
                                     (wcom.parse_pkt_field text)))),
     mkSocket rest pc t cl) /\
    (ts ≠ 0 -> 0 ∉ text ->
     wcom.parse_message now (mkSocket (frame :: rest) pc t cl) =
     (Done (Ret (Some (wcom.mkMessage ts text))), mkSocket rest pc t cl)).
Proof.
  intros Hts Ha Hlen.
  destruct (message_roundtrip now ts text rest pc t cl Hts Ha Hlen)
    as (frame & Hb & Hl & Hp).
  exists frame. split; [done|]. split; [done|].
  unfold wcom.new_WispMessage in Hp.
  assert ((if bool_decide (ts = 0) then now else ts) =
          (if decide (ts = 0) then now else ts)) as Heq
    by (case_bool_decide; by case_decide).
  rewrite Heq in Hp. split; [done|].
  intros Hnz Hnull. rewrite Hp, decide_False by done.
  by rewrite parse_pkt_field_no_null.
Qed.

Lemma message_round_trip_witness :
  let ts := wcom.time example.hello in
  let text := wcom.text example.hello in
  0 <= ts < 4294967296 /\ is_ascii text /\ (length text <= 127)%nat /\
  exists frame,
    wcom.build_msg ts text = Some frame /\
    wcom.parse_message 0 (example.socket [frame]) =
    (Done (Ret (Some example.hello)), example.socket []).
Proof.
  intros ts text.
  assert (0 <= ts < 4294967296) as Hts by (vm_compute; split; congruence).
  assert (is_ascii text) as Ha by by_evaluation.
  assert (length text <= 127)%nat as Hl by (vm_compute; lia).
  split; [exact Hts|]. split; [exact Ha|]. split; [exact Hl|].
  destruct (message_round_trip 0 ts text [] false [] false Hts Ha Hl)
    as (frame & Hb & _ & _ & Hclean).
  exists frame. split; [exact Hb|].
  apply Hclean; [vm_compute; congruence | by_evaluation].
Defined.

(** [X5].  A response that the server's [_send_res] writes, with ASCII
    fields of at most 15 characters, is a frame of 6 + 16 * count bytes,
    and the client's [_parse_response] reads it back as the same code,
    count and fields (cut at their first null). *)
Theorem response_reaches_the_client (self : nat) (w : World) (o : WispServer)
    (status : pystr) (data : list pystr) (pc : bool) (t : list bytes)
    (cl : bool) :
  objects w !! self = Some o ->
  status ∈ [wcom.OK; wcom.ERROR] ->
  Forall (fun a => is_ascii a /\ (length a <= 15)%nat) data ->
  Z.of_nat (length data) < 4294967296 ->
  exists frame,
    wisp_server._send_res self status data w =
    (Done (Ret tt),
     with_object self (set_conn (sock_send frame (_conn o)) o) w) /\
    length frame = (6 + 16 * length data)%nat /\
    wisp_client._parse_response (mkSocket [frame] pc t cl) =
    (Done (Ret (wcom.mkResponse status (Z.of_nat (length data))
                                (wcom.parse_pkt_field <$> data))),
     mkSocket [] pc t cl).
Proof.
  intros Ho Hs Hd Hn.
  destruct (response_roundtrip status data pc t cl Hs Hd Hn)
    as (frame & Hb & Hl & Hp).
  exists frame. split; [by apply _send_res_Some|]. split; [done|].
  rewrite Hp. unfold wcom.new_WispResponse. by rewrite length_fmap.
Qed.

Lemma response_reaches_the_client_witness :
  let w := example.list_before_auth in
  let o := example.session None wcom.Authentication
             [example.request wcom.LIST (str "None") (str "None")] in
  let data := [example.safa; example.michael] in
  objects w !! 0%nat = Some o /\
  wcom.OK ∈ [wcom.OK; wcom.ERROR] /\
  Forall (fun a => is_ascii a /\ (length a <= 15)%nat) data /\
  Z.of_nat (length data) < 4294967296 /\
  exists frame,
    length frame = 38%nat /\
    wisp_client._parse_response (example.socket [frame]) =
    (Done (Ret (wcom.mkResponse wcom.OK 2 data)), example.socket []).
Proof.
  intros w o data.
  assert (wcom.OK ∈ [wcom.OK; wcom.ERROR]) as Hs by left.
  assert (Forall (fun a => is_ascii a /\ (length a <= 15)%nat) data) as Hd
    by (repeat constructor; first [by_evaluation | vm_compute; lia]).
  assert (Z.of_nat (length data) < 4294967296) as Hn by (vm_compute; done).
  split; [reflexivity|]. split; [exact Hs|]. split; [exact Hd|].
  split; [exact Hn|].
  destruct (response_reaches_the_client 0 w o wcom.OK data false [] false
              eq_refl Hs Hd Hn) as (frame & _ & Hlen & Hparse).
  exists frame. split; [exact Hlen | exact Hparse].
Defined.

(** ** The account store: search, add and delete *)

Section Search.
Implicit Types (ds : list (pystr * Account)) (w : World).

Lemma _handle_search_loop_spec keys owner lookup : forall acc w,
  server.ds_mem (DATASTORE w) (Some owner) = true ->
  server._handle_search_loop keys (Some owner) lookup acc w =
  (Done (Ret (acc ++ filter (search_match (DATASTORE w) owner lookup) keys)),
   w).
Proof.
  induction keys as [|user keys IH]; intros acc w Hm; simpl.
  - by rewrite app_nil_r.
  - assert (server.friends_of (Some owner) w =
            (Done (Ret (friend_list (DATASTORE w) owner)), w)) as Hfr.
    { unfold server.friends_of, server.get_DATASTORE, friend_list. run_st.
      unfold server.ds_mem in Hm.
      by destruct (server.ds_get (DATASTORE w) (Some owner)). }
    rewrite filter_cons.
    destruct (decide (search_match (DATASTORE w) owner lookup user))
      as [(Hne & Hc & Hnf)|Hno].
    + rewrite bool_decide_true by congruence. rewrite Hc. simpl.
      rewrite (bind_Ret _ _ _ _ _ Hfr).
      rewrite bool_decide_true by done.
      rewrite IH by done. by rewrite <- app_assoc.
    + destruct (decide (user = owner)) as [->|Hne].
      { rewrite bool_decide_false by (by intros H; apply H).
        simpl. by apply IH. }
      rewrite bool_decide_true by congruence. simpl.
      destruct (str_contains lookup user) eqn:Hc; [|by apply IH].
      rewrite (bind_Ret _ _ _ _ _ Hfr).
      case_bool_decide as Hnf; [|by apply IH].
      destruct Hno. by repeat split.
Qed.
End Search.

(** [X6].  [SEARCH] by a known user always succeeds and returns, in the
    order of the store, exactly the users other than the owner whose name
    contains the phrase and who are not in the owner's friends list; the
    store is not changed. *)
Theorem search_returns_the_matching_strangers (w : World)
    (owner lookup : pystr) :
  server.ds_mem (DATASTORE w) (Some owner) = true ->
  server._handle_search (Some owner) lookup w =
  (Done (Ret (true,
              filter (search_match (DATASTORE w) owner lookup)
                     ((DATASTORE w).*1))), w).
Proof.
  intros Hm. unfold server._handle_search, server.get_DATASTORE. run_st.
  by rewrite _handle_search_loop_spec.
Qed.

Lemma search_returns_the_matching_strangers_witness :
  let w := example.world [] in
  server.ds_mem (DATASTORE w) (Some example.safa) = true /\
  server._handle_search (Some example.safa) (str "a") w =
  (Done (Ret (true, [str "cameron"; example.michael])), w).
Proof.
  intros w. split; [reflexivity|].
  exact (search_returns_the_matching_strangers w example.safa (str "a")
           eq_refl).
Defined.

Section StoreMore.
Implicit Types (ds : list (pystr * Account)) (w : World) (l : list pystr).

Lemma ds_set_friends_keys ds k f : (server.ds_set_friends ds k f).*1 = ds.*1.
Proof.
  induction ds as [|[k0 a] rest IH]; simpl; [done|].
  case_decide; rewrite !fmap_cons; simpl; [done|]. by f_equal.
Qed.

Lemma same_accounts_refl ds : same_accounts ds ds.
Proof. by split. Qed.

Lemma same_accounts_set_friends ds ds' k f :
  same_accounts ds ds' -> same_accounts ds (server.ds_set_friends ds' k f).
Proof.
  intros [Hk Hp]. split.
  - rewrite <- Hk. apply ds_set_friends_keys.
  - intros key. rewrite <- Hp, ds_get_set_friends.
    case_decide; [|done]. by destruct (server.ds_get ds' key).
Qed.

Lemma ds_set_friends_id ds k f :
  f (friend_list ds k) = friend_list ds k -> server.ds_set_friends ds k f = ds.
Proof.
  unfold friend_list.
  induction ds as [|[k0 a] rest IH]; simpl; [done|]. intros Hf.
  destruct (decide (k0 = k)) as [->|Hne].
  - rewrite decide_True in Hf by done. rewrite Hf. by destruct a.
  - rewrite decide_False in Hf by congruence. by rewrite IH.
Qed.

Lemma ds_set_friends_twice ds k f g :
  server.ds_set_friends (server.ds_set_friends ds k f) k g =
  server.ds_set_friends ds k (g ∘ f).
Proof.
  induction ds as [|[k0 a] rest IH]; simpl; [done|].
  destruct (decide (k0 = k)) as [->|Hne]; simpl.
  - by rewrite decide_True.
  - rewrite decide_False by done. by rewrite IH.
Qed.

Lemma ds_set_friends_comm ds k1 k2 f g :
  k1 ≠ k2 ->
  server.ds_set_friends (server.ds_set_friends ds k1 f) k2 g =
  server.ds_set_friends (server.ds_set_friends ds k2 g) k1 f.
Proof.
  intros Hne.
  induction ds as [|[k0 a] rest IH]; simpl; [done|].
  destruct (decide (k0 = k1)) as [E1|H1]; destruct (decide (k0 = k2)) as [E2|H2];
    simpl; repeat case_decide; try congruence.
Qed.

Lemma list_remove_app x l l' r :
  x ∉ l -> server.list_remove x l' = Some r ->
  server.list_remove x (l ++ l') = Some (l ++ r).
Proof.
  induction l as [|y l IH]; simpl; intros Hnot Hr; [done|].
  apply not_elem_of_cons in Hnot as [Hne Hnot].
  rewrite decide_False by done. by rewrite IH.
Qed.

Lemma list_remove_app_new x l :
  x ∉ l -> server.list_remove x (l ++ [x]) = Some l.
Proof.
  induction l as [|y l IH]; simpl; intros Hnot.
  - by rewrite decide_True.
  - apply not_elem_of_cons in Hnot as [Hne Hnot].
    rewrite decide_False by done. by rewrite IH.
Qed.

Lemma list_remove_Some_elem_of x l :
  x ∈ l -> is_Some (server.list_remove x l).
Proof.
  induction l as [|y l IH]; intros Hin; [by apply elem_of_nil in Hin|].
  simpl. destruct (decide (y = x)); [by eexists|].
  apply elem_of_cons in Hin as [->|Hin]; [done|].
  destruct (IH Hin) as [r ->]. by eexists.
Qed.

Lemma list_remove_subseteq x l l' :
  server.list_remove x l = Some l' -> forall y, y ∈ l' -> y ∈ l.
Proof.
  revert l'. induction l as [|z l IH]; simpl; intros l' H; [done|].
  destruct (decide (z = x)) as [->|Hne].
  - injection H as <-. intros y Hy. by right.
  - destruct (server.list_remove x l) as [r|]; [|done].
    injection H as <-. intros y Hy.
    apply elem_of_cons in Hy as [->|Hy]; [left | right; by eapply IH].
Qed.

Lemma friends_are_users_checked ds :
  Forall (fun ka : pystr * Account =>
            Forall (fun v => server.ds_mem ds (Some v) = true) (friends ka.2))
         ds ->
  friends_are_users ds.
Proof.
  intros Hall u v Hv. unfold friend_list in Hv.
  assert (forall (store : list (pystr * Account)) a,
            server.ds_get store (Some u) = Some a -> (u, a) ∈ store) as Hget.
  { clear. induction store as [|[k b] rest IH]; simpl; intros a H; [done|].
    case_decide as Hk.
    - injection Hk as ->. injection H as ->. left.
    - right. by apply IH. }
  destruct (server.ds_get ds (Some u)) as [a|] eqn:Ha;
    [|by apply elem_of_nil in Hv].
  apply Hget in Ha. rewrite Forall_forall in Hall.
  specialize (Hall _ Ha). simpl in Hall. rewrite Forall_forall in Hall.
  by apply Hall.
Qed.

Lemma friends_are_users_set_friends ds k f :
  friends_are_users ds ->
  (forall x, x ∈ f (friend_list ds k) -> server.ds_mem ds (Some x) = true) ->
  friends_are_users (server.ds_set_friends ds k f).
Proof.
  intros Hinv Hf u v Hv. rewrite ds_mem_set_friends.
  destruct (server.ds_mem ds (Some k)) eqn:Hk.
  - rewrite friend_list_set_friends in Hv by done.
    case_decide; [subst; by apply Hf | by eapply Hinv].
  - unfold friend_list in Hv. rewrite ds_get_set_friends in Hv.
    unfold server.ds_mem in Hk.
    destruct (decide (Some k = Some u)) as [[= ->]|Hne].
    + destruct (server.ds_get ds (Some u)); [done|].
      by apply elem_of_nil in Hv.
    + apply (Hinv u v). unfold friend_list. done.
Qed.
End StoreMore.

Section StoreExtras.
Implicit Types (ds : list (pystr * Account)) (w : World) (l : list pystr).

Lemma with_DATASTORE_same w : with_DATASTORE (DATASTORE w) w = w.
Proof. by destruct w. Qed.

Lemma _handle_del_unfold w o user a l l' :
  server.ds_get (DATASTORE w) (Some o) = Some a ->
  user ∈ friends a ->
  server.list_remove user (friends a) = Some l ->
  server.list_remove o
    (friend_list (server.ds_set_friends (DATASTORE w) o (fun _ => l)) user)
    = Some l' ->
  server.ds_mem (DATASTORE w) (Some user) = true ->
  server._handle_del (Some o) user w =
  (Done (Ret (true, [])),
   with_DATASTORE
     (server.ds_set_friends
        (server.ds_set_friends (DATASTORE w) o (fun _ => l)) user
        (fun _ => l')) w).
Proof.
  intros Ha Hin Hl Hl' Hmu.
  unfold server._handle_del, server.friends_of, server.get_DATASTORE,
    server.put_DATASTORE. run_st. rewrite Ha.
  rewrite bool_decide_false by (intros Hn; by apply Hn).
  rewrite Hl. simpl.
  unfold friend_list in Hl'.
  rewrite <- (ds_mem_set_friends _ o (fun _ => l)) in Hmu.
  unfold server.ds_mem in Hmu.
  destruct (server.ds_get (server.ds_set_friends (DATASTORE w) o (fun _ => l))
              (Some user)) as [b|]; [|done].
  simpl. rewrite Hl'. reflexivity.
Qed.

(** [X7].  [DEL] undoes [ADD]: when neither user is in the other's
    friends list, adding and then deleting the friend succeeds and leaves
    the server exactly as it was (also when a user befriends itself). *)
Theorem add_then_del_restores_the_store (w : World) (owner user : pystr) :
  server.ds_mem (DATASTORE w) (Some owner) = true ->
  server.ds_mem (DATASTORE w) (Some user) = true ->
  user ∉ friend_list (DATASTORE w) owner ->
  owner ∉ friend_list (DATASTORE w) user ->
  server._handle_del (Some owner) user
    (server._handle_add (Some owner) user w).2
  = (Done (Ret (true, [])), w).
Proof.
  intros Ho Hu Hnu Hno.
  rewrite _handle_add_known by done. cbn [snd].
  set (ds := DATASTORE w) in *.
  set (ds2 := server.ds_set_friends
                (server.ds_set_friends ds owner (fun l => l ++ [user]))
                user (fun l => l ++ [owner])).
  assert (Hm : forall k, server.ds_mem ds2 k = server.ds_mem ds k)
    by (intros k; unfold ds2; by rewrite !ds_mem_set_friends).
  assert (Hfl : forall v, friend_list ds2 v =
            (friend_list ds v ++ (if decide (owner = v) then [user] else []))
            ++ (if decide (user = v) then [owner] else [])).
  { intros v. unfold ds2.
    rewrite !friend_list_set_friends by (rewrite ?ds_mem_set_friends; done).
    repeat case_decide; simpl; rewrite ?app_nil_r; done. }
  destruct (server.ds_get ds2 (Some owner)) as [a|] eqn:Ha;
    [|by rewrite <- Hm in Ho; unfold server.ds_mem in Ho; rewrite Ha in Ho].
  assert (Hfa : friends a = friend_list ds2 owner)
    by (unfold friend_list; by rewrite Ha).
  destruct (decide (owner = user)) as [<-|Hne].
  - (* the user befriends themselves: two entries added, two removed *)
    assert (Hfo : friends a = (friend_list ds owner ++ [owner]) ++ [owner])
      by (rewrite Hfa, Hfl; by rewrite !decide_True).
    erewrite (_handle_del_unfold (with_DATASTORE ds2 w) owner owner a
                (friend_list ds owner ++ [owner]) (friend_list ds owner));
      change (DATASTORE (with_DATASTORE ds2 w)) with ds2; try done.
    + f_equal. transitivity (with_DATASTORE ds w);
        [|apply with_DATASTORE_same].
      unfold with_DATASTORE; simpl; f_equal.
      unfold ds2. rewrite !ds_set_friends_twice.
      by rewrite ds_set_friends_id.
    + rewrite Hfo. set_solver.
    + rewrite Hfo, <- app_assoc. apply list_remove_app; [done|].
      simpl. by rewrite decide_True.
    + rewrite friend_list_set_friends by (by rewrite Hm).
      rewrite decide_True by done. by apply list_remove_app_new.
    + by rewrite Hm.
  - assert (Hfo : friends a = friend_list ds owner ++ [user]).
    { rewrite Hfa, Hfl. rewrite decide_True by done.
      rewrite decide_False by done. by rewrite app_nil_r. }
    erewrite (_handle_del_unfold (with_DATASTORE ds2 w) owner user a
                (friend_list ds owner) (friend_list ds user));
      change (DATASTORE (with_DATASTORE ds2 w)) with ds2; try done.
    + f_equal. transitivity (with_DATASTORE ds w);
        [|apply with_DATASTORE_same].
      unfold with_DATASTORE; simpl; f_equal.
      unfold ds2.
      rewrite (ds_set_friends_comm _ user owner
                 (fun l => l ++ [owner]) (fun _ => friend_list ds owner))
        by done.
      rewrite !ds_set_friends_twice.
      rewrite (ds_set_friends_id ds owner) by done.
      by rewrite ds_set_friends_id.
    + rewrite Hfo. set_solver.
    + rewrite Hfo. by apply list_remove_app_new.
    + rewrite friend_list_set_friends by (by rewrite Hm).
      rewrite decide_False by done. rewrite Hfl.
      rewrite decide_False by done. rewrite decide_True by done.
      rewrite app_nil_r. by apply list_remove_app_new.
    + by rewrite Hm.
Qed.

Lemma add_then_del_restores_the_store_witness :
  let w := example.world [] in
  server.ds_mem (DATASTORE w) (Some example.michael) = true /\
  server.ds_mem (DATASTORE w) (Some example.safa) = true /\
  (example.safa ∉ friend_list (DATASTORE w) example.michael) /\
  (example.michael ∉ friend_list (DATASTORE w) example.safa) /\
  server._handle_del (Some example.michael) example.safa
    (server._handle_add (Some example.michael) example.safa w).2
  = (Done (Ret (true, [])), w).
Proof.
  intros w.
  assert (example.safa ∉ friend_list (DATASTORE w) example.michael) as H1
    by by_evaluation.
  assert (example.michael ∉ friend_list (DATASTORE w) example.safa) as H2
    by by_evaluation.
  split; [reflexivity|]. split; [reflexivity|].
  split; [exact H1|]. split; [exact H2|].
  exact (add_then_del_restores_the_store w example.michael example.safa
           eq_refl eq_refl H1 H2).
Defined.

Lemma add_keeps_accounts ds0 w owner user :
  same_accounts ds0 (DATASTORE w) ->
  let w' := (server._handle_add owner user w).2 in
  same_accounts ds0 (DATASTORE w')
  /\ objects w' = objects w /\ _sessions w' = _sessions w.
Proof.
  intros H0. cbv zeta.
  unfold server._handle_add, server.get_DATASTORE, server.put_DATASTORE.
  run_st. destruct owner as [o|]; [|done].
  destruct (negb _ || negb _); simpl; [done|].
  split; [|done].
  by do 2 apply same_accounts_set_friends.
Qed.

Lemma del_keeps_accounts ds0 w owner user :
  same_accounts ds0 (DATASTORE w) ->
  let w' := (server._handle_del owner user w).2 in
  same_accounts ds0 (DATASTORE w')
  /\ objects w' = objects w /\ _sessions w' = _sessions w.
Proof.
  intros H0. cbv zeta.
  unfold server._handle_del, server.friends_of, server.get_DATASTORE,
    server.put_DATASTORE. run_st.
  destruct owner as [o|]; [|done].
  destruct (server.ds_get (DATASTORE w) (Some o)) as [a|]; [|done].
  case_bool_decide; [done|].
  destruct (server.list_remove user (friends a)) as [l|]; simpl; [|done].
  destruct (server.ds_get _ (Some user)) as [b|]; simpl;
    [|by split; [by apply same_accounts_set_friends|]].
  destruct (server.list_remove o (friends b)) as [l'|]; simpl;
    (split; [|done]); by repeat apply same_accounts_set_friends.
Qed.

(** [X8].  [ADD] and [DEL] change friends lists only: whatever the
    arguments and whether they succeed, fail or raise, the users, their
    order and their passwords stay, and so do the thread objects and the
    registry. *)
Theorem handlers_keep_users_and_passwords (w : World) (owner : option pystr)
    (user : pystr) (w' : World) :
  w' = (server._handle_add owner user w).2
  \/ w' = (server._handle_del owner user w).2 ->
  same_accounts (DATASTORE w) (DATASTORE w')
  /\ objects w' = objects w /\ _sessions w' = _sessions w.
Proof.
  intros [-> | ->].
  - apply add_keeps_accounts, same_accounts_refl.
  - apply del_keeps_accounts, same_accounts_refl.
Qed.

Lemma handlers_keep_users_and_passwords_witness :
  let w := example.world [] in
  let w' := (server._handle_del (Some example.andrei) example.safa w).2 in
  same_accounts (DATASTORE w) (DATASTORE w')
  /\ objects w' = objects w /\ _sessions w' = _sessions w.
Proof.
  intros w w'.
  exact (handlers_keep_users_and_passwords w (Some example.andrei)
           example.safa w' (or_intror eq_refl)).
Defined.

Lemma add_keeps_friends_among_users w owner user :
  friends_are_users (DATASTORE w) ->
  friends_are_users (DATASTORE (server._handle_add owner user w).2).
Proof.
  intros Hinv.
  destruct (server.ds_mem (DATASTORE w) owner) eqn:Ho;
    [|by rewrite _handle_add_unknown by auto].
  destruct (server.ds_mem (DATASTORE w) (Some user)) eqn:Hu;
    [|by rewrite _handle_add_unknown by auto].
  destruct owner as [o|]; [|by rewrite ds_mem_None in Ho].
  rewrite _handle_add_known by done. simpl.
  apply friends_are_users_set_friends;
    [apply friends_are_users_set_friends; [done|]|].
  - intros x Hx. apply elem_of_app in Hx as [Hx|Hx];
      [by eapply Hinv|]. apply list_elem_of_singleton in Hx. by subst.
  - intros x. rewrite ds_mem_set_friends.
    rewrite friend_list_set_friends by done.
    intros Hx. apply elem_of_app in Hx as [Hx|Hx].
    + case_decide; [|by eapply Hinv].
      apply elem_of_app in Hx as [Hx|Hx]; [by eapply Hinv|].
      apply list_elem_of_singleton in Hx. by subst.
    + apply list_elem_of_singleton in Hx. by subst.
Qed.

Lemma del_keeps_friends_among_users w owner user :
  friends_are_users (DATASTORE w) ->
  friends_are_users (DATASTORE (server._handle_del owner user w).2).
Proof.
  intros Hinv.
  unfold server._handle_del, server.friends_of, server.get_DATASTORE,
    server.put_DATASTORE. run_st.
  destruct owner as [o|]; [|done].
  destruct (server.ds_get (DATASTORE w) (Some o)) as [a|] eqn:Ha; [|done].
  case_bool_decide; [done|].
  assert (friend_list (DATASTORE w) o = friends a) as Hfo
    by (unfold friend_list; by rewrite Ha).
  destruct (server.list_remove user (friends a)) as [l|] eqn:Hl; simpl;
    [|done].
  assert (Hinv1 : friends_are_users
                    (server.ds_set_friends (DATASTORE w) o (fun _ => l))).
  { apply friends_are_users_set_friends; [done|].
    intros x Hx. apply (Hinv o). rewrite Hfo.
    by eapply list_remove_subseteq. }
  destruct (server.ds_get _ (Some user)) as [b|] eqn:Hb; simpl; [|done].
  destruct (server.list_remove o (friends b)) as [l'|] eqn:Hl'; simpl;
    [|done].
  apply friends_are_users_set_friends; [done|].
  intros x Hx. apply (Hinv1 user). unfold friend_list. rewrite Hb.
  by eapply list_remove_subseteq.
Qed.

(** [X9].  If every name in a friends list is a user, this is still so
    after [ADD] and after [DEL], whatever their arguments and outcome. *)
Theorem handlers_keep_friends_among_users (w : World) (owner : option pystr)
    (user : pystr) (w' : World) :
  friends_are_users (DATASTORE w) ->
  w' = (server._handle_add owner user w).2
  \/ w' = (server._handle_del owner user w).2 ->
  friends_are_users (DATASTORE w').
Proof.
  intros Hinv [-> | ->].
  - by apply add_keeps_friends_among_users.
  - by apply del_keeps_friends_among_users.
Qed.

Lemma handlers_keep_friends_among_users_witness :
  let w := example.world [] in
  let w' := (server._handle_add (Some example.michael) example.safa w).2 in
  friends_are_users (DATASTORE w) /\ friends_are_users (DATASTORE w').
Proof.
  intros w w'.
  assert (friends_are_users (DATASTORE w)) as H
    by (apply friends_are_users_checked; by_evaluation).
  split; [exact H|].
  exact (handlers_keep_friends_among_users w (Some example.michael)
           example.safa w' H (or_introl eq_refl)).
Defined.

(** [X10].  In a store where friendship is symmetric and every friend is
    a user, [DEL] by a known owner of another user never raises: if the
    user is not in the owner's list it fails with 'Invalid Users' and
    changes nothing; otherwise it succeeds and removes the first
    occurrence of each name from the other's list. *)
Theorem del_outcome (w : World) (owner user : pystr) :
  symmetric (DATASTORE w) ->
  friends_are_users (DATASTORE w) ->
  server.ds_mem (DATASTORE w) (Some owner) = true ->
  owner ≠ user ->
  (user ∉ friend_list (DATASTORE w) owner ->
   server._handle_del (Some owner) user w =
   (Done (Ret (false, [str "Invalid Users"])), w))
  /\
  (user ∈ friend_list (DATASTORE w) owner ->
   exists l l',
     server.list_remove user (friend_list (DATASTORE w) owner) = Some l /\
     server.list_remove owner (friend_list (DATASTORE w) user) = Some l' /\
     server._handle_del (Some owner) user w =
     (Done (Ret (true, [])),
      with_DATASTORE
        (server.ds_set_friends
           (server.ds_set_friends (DATASTORE w) owner (fun _ => l))
           user (fun _ => l')) w)).
Proof.
  intros Hsym Hinv Ho Hne.
  destruct (server.ds_get (DATASTORE w) (Some owner)) as [a|] eqn:Ha;
    [|by unfold server.ds_mem in Ho; rewrite Ha in Ho].
  assert (friend_list (DATASTORE w) owner = friends a) as Hfo
    by (unfold friend_list; by rewrite Ha).
  split; intros Hin.
  - unfold server._handle_del, server.get_DATASTORE. run_st. rewrite Ha.
    rewrite Hfo in Hin. by rewrite bool_decide_true.
  - assert (Hu : server.ds_mem (DATASTORE w) (Some user) = true)
      by (by eapply Hinv).
    destruct (list_remove_Some_elem_of _ _ Hin) as [l Hl].
    assert (Hin' : owner ∈ friend_list (DATASTORE w) user).
    { apply occurrences_elem_of in Hin.
      specialize (Hsym user owner Hu Ho).
      destruct (decide (owner ∈ friend_list (DATASTORE w) user)); [done|].
      assert (occurrences owner (friend_list (DATASTORE w) user) = 0%nat);
        [|lia].
      clear -n. unfold occurrences.
      induction (friend_list (DATASTORE w) user) as [|y r IH];
        [done|]. apply not_elem_of_cons in n as [? ?].
      rewrite filter_cons. rewrite decide_False by done. auto. }
    destruct (list_remove_Some_elem_of _ _ Hin') as [l' Hl'].
    exists l, l'. split; [done|]. split; [done|].
    apply (_handle_del_unfold w owner user a l l'); try done.
    + by rewrite <- Hfo.
    + by rewrite <- Hfo.
    + rewrite friend_list_set_friends by done.
      by rewrite decide_False by done.
Qed.

Lemma del_outcome_witness :
  let w := example.world [] in
  symmetric (DATASTORE w) /\ friends_are_users (DATASTORE w) /\
  server.ds_mem (DATASTORE w) (Some example.andrei) = true /\
  example.andrei ≠ example.michael /\
  server._handle_del (Some example.andrei) example.michael w =
  (Done (Ret (false, [str "Invalid Users"])), w).
Proof.
  intros w.
  assert (symmetric (DATASTORE w)) as Hsym
    by (apply symmetric_on_keys_symmetric; by_evaluation).
  assert (friends_are_users (DATASTORE w)) as Hfr
    by (apply friends_are_users_checked; by_evaluation).
  assert (example.andrei ≠ example.michael) as Hne by by_evaluation.
  split; [exact Hsym|]. split; [exact Hfr|]. split; [reflexivity|].
  split; [exact Hne|].
  apply (del_outcome w example.andrei example.michael Hsym Hfr eq_refl Hne).
  by_evaluation.
Defined.
End StoreExtras.

(** ** Sessions: how a turn ends *)

Lemma sock_recv_keeps size c packet c' :
  sock_recv size c = Some (packet, c') ->
  tx c' = tx c /\ closed c' = closed c /\ peer_closed c' = peer_closed c.
Proof.
  destruct c as [[|seg rest] pc t cl]; unfold sock_recv; simpl.
  - destruct pc; [|done]. by intros [= <- <-].
  - by intros [= <- <-].
Qed.

(** [X11].  [QUIT] in the [Command] phase ends the thread and does nothing
    else: [sys.exit(0)] is not an [Exception], so the loop's handler does
    not run; no response is written, the server does not close the
    socket, and the store and the registry, where the ended session
    stays, are as before. *)
Theorem quit_ends_the_thread (cbs : wisp_server.ReqCallbacks)
    (msg_cb : option pystr -> wcom.WispMessage -> M unit)
    (self : nat) (w : World) (o : WispServer) (packet : bytes)
    (c' : Socket) (req : wcom.WispRequest) :
  objects w !! self = Some o ->
  alive o = true -> _working o = true ->
  _state o = wcom.Command ->
  sock_recv 36 (_conn o) = Some (packet, c') ->
  length packet = 36%nat ->
  packet_request packet = Some req ->
  wcom.cmd req = wcom.QUIT ->
  wisp_server.thread_step cbs msg_cb self w =
  with_object self (set_alive false (set_conn c' o)) w
  /\ tx c' = tx (_conn o) /\ closed c' = closed (_conn o).
Proof.
  intros Ho Ha Hw Hst Hr Hlen Hreq Hcmd.
  split; [|by destruct (sock_recv_keeps _ _ _ _ Hr) as (? & ? & _)].
  assert (_state o ≠ wcom.Conversation) as Hnc by (by rewrite Hst).
  rewrite (thread_step_running _ _ _ _ _ Ho Ha Hw).
  rewrite (run_iteration_request _ _ _ _ _ Ho Hnc).
  assert (wcom.valid (wcom.cmd req) = true) as Hv by (by rewrite Hcmd).
  assert (wcom.cmd req ∈ legal_set (_state o)) as Hin
    by (rewrite Hst, Hcmd; simpl; repeat constructor).
  unfold try_except.
  erewrite run_request_legal; eauto;
    [| by rewrite Hst | by rewrite Hcmd].
  unfold wisp_server._handle_quit, sys_exit. rewrite bind_raise.
  cbn [is_Exception].
  erewrite setattr_Some by obj_lookup.
  cbn [snd]. by rewrite with_object_twice.
Qed.

Lemma quit_ends_the_thread_witness :
  let packet := example.request wcom.QUIT (str "None") (str "None") in
  let o := example.session (Some example.andrei) wcom.Command [packet] in
  let w := example.world [o] in
  objects w !! 0%nat = Some o /\
  wisp_server.thread_step server._handlers server._handle_message 0 w =
  with_object 0 (set_alive false (set_conn (example.socket []) o)) w.
Proof.
  intros packet o w. split; [reflexivity|].
  exact (proj1 (quit_ends_the_thread server._handlers server._handle_message
                  0 w o packet (example.socket [])
                  (wcom.mkRequest wcom.QUIT (str "None") (str "None"))
                  eq_refl eq_refl eq_refl eq_refl eq_refl eq_refl eq_refl
                  eq_refl)).
Defined.

Lemma bind_lift_Raise {S A B} e (k : A -> ST S B) st :
  (lift (Raise e) ≫= k) st = (Done (Raise e), st).
Proof. reflexivity. Qed.

(** [X12].  A request that cannot be read closes the connection and ends
    the thread: a read of fewer than 36 bytes, a command code that is not
    valid UTF-8, or a recognized command with an argument that is not
    valid UTF-8 raises inside the loop, whose handler closes the socket
    and exits.  Nothing is answered and nothing else changes. *)
Theorem malformed_request_closes_the_connection
    (cbs : wisp_server.ReqCallbacks)
    (msg_cb : option pystr -> wcom.WispMessage -> M unit)
    (self : nat) (w : World) (o : WispServer) (packet : bytes)
    (c' : Socket) :
  objects w !! self = Some o ->
  alive o = true -> _working o = true ->
  _state o ≠ wcom.Conversation ->
  sock_recv 36 (_conn o) = Some (packet, c') ->
  length packet ≠ 36%nat
  \/ decode (take 4 packet) = None
  \/ (exists cmd, decode (take 4 packet) = Some cmd /\
                  wcom.valid cmd = true /\ packet_request packet = None) ->
  wisp_server.thread_step cbs msg_cb self w =
  with_object self (set_alive false (set_conn (sock_close c') o)) w.
Proof.
  intros Ho Ha Hw Hst Hr Hbad.
  destruct (decide (length packet = 36%nat)) as [Hlen|Hlen];
    [|exact (short_request_read cbs msg_cb self w o packet c' Ho Ha Hw Hst
              Hr Hlen)].
  rewrite (thread_step_running _ _ _ _ _ Ho Ha Hw).
  rewrite (run_iteration_request _ _ _ _ _ Ho Hst).
  unfold try_except, wisp_server.run_request, wisp_server._parse_request.
  rewrite !bind_assoc.
  rewrite (bind_Ret _ _ _ _ _ (_recv_full _ _ _ _ _ _ Ho Hr Hlen)).
  destruct Hbad as [Hbad | [Hcmd | (cmd & Hcmd & Hv & Hreq)]]; [done| |].
  - rewrite Hcmd. cbn [of_option].
    rewrite !bind_assoc, bind_lift_Raise. cbn [is_Exception]. unfold conn_close.
    repeat st_step. unfold sys_exit, raise.
    erewrite setattr_Some by obj_lookup.
    cbn [snd]. by rewrite with_object_twice.
  - unfold packet_request in Hreq. rewrite Hcmd in Hreq. simpl in Hreq.
    rewrite Hcmd. cbn [of_option]. rewrite !bind_assoc, bind_lift_Ret.
    rewrite Hv.
    destruct (decode (take 16 (drop 4 packet))) as [one|]; simpl in Hreq.
    + destruct (decode (drop 20 packet)) as [two|]; [done|].
      cbn [of_option]. rewrite ?bind_assoc, bind_lift_Ret.
      rewrite ?bind_assoc, bind_lift_Raise. cbn [is_Exception]. unfold conn_close.
      repeat st_step. unfold sys_exit, raise.
      erewrite setattr_Some by obj_lookup.
      cbn [snd]. by rewrite with_object_twice.
    + cbn [of_option]. rewrite ?bind_assoc, bind_lift_Raise. cbn [is_Exception]. unfold conn_close.
      repeat st_step. unfold sys_exit, raise.
      erewrite setattr_Some by obj_lookup.
      cbn [snd]. by rewrite with_object_twice.
Qed.

Lemma malformed_request_closes_the_connection_witness :
  let packet := replicate 4 255 ++ replicate 32 0 in
  let o := example.session (Some example.andrei) wcom.Command [packet] in
  let w := example.world [o] in
  decode (take 4 packet) = None /\
  wisp_server.thread_step server._handlers server._handle_message 0 w =
  with_object 0
    (set_alive false (set_conn (sock_close (example.socket [])) o)) w.
Proof.
  intros packet o w. split; [reflexivity|].
  apply (malformed_request_closes_the_connection server._handlers
           server._handle_message 0 w o packet (example.socket []));
    [reflexivity | reflexivity | reflexivity | discriminate | reflexivity |].
  right. left. reflexivity.
Defined.

(** ** A handshake that fails *)

Lemma handshake_unsupported self w o packet c' req :
  objects w !! self = Some o ->
  sock_recv 36 (_conn o) = Some (packet, c') ->
  length packet = 36%nat ->
  packet_request packet = Some req ->
  wcom.cmd req = wcom.VERSION ->
  wcom.arg1 req ≠ str "1.1" ->
  wisp_server._version_handshake self w =
  (Done (Raise (SystemExit 1)),
   with_object self
     (set_conn (sock_send unsupported_version_response
                  (sock_send version_list_response c')) o) w).
Proof.
  intros Ho Hr Hlen Hreq Hcmd Harg. unfold wisp_server._version_handshake.
  erewrite (bind_Ret (wisp_server._send_res _ _ _))
    by (eapply _send_res_Some; [obj_lookup | reflexivity]).
  erewrite (bind_Ret (wisp_server._parse_request _)).
  2:{ eapply _parse_request_ok; [obj_lookup | | try done..].
      - simpl. by apply sock_recv_send.
      - by rewrite Hcmd. }
  rewrite with_object_twice.
  rewrite bool_decide_false by (by intros ?).
  rewrite bool_decide_true
    by (intros H; by apply list_elem_of_singleton in H).
  erewrite (bind_Ret (wisp_server._send_res _ _ _))
    by (eapply _send_res_Some; [obj_lookup | reflexivity]).
  by rewrite with_object_twice.
Qed.

Lemma _parse_request_raises self w o packet c' :
  objects w !! self = Some o ->
  sock_recv 36 (_conn o) = Some (packet, c') ->
  ¬ (length packet = 36%nat /\
     exists req, packet_request packet = Some req /\
                 wcom.valid (wcom.cmd req) = true) ->
  exists e,
    wisp_server._parse_request self w =
    (Done (Raise e), with_object self (set_conn c' o) w) /\
    (e = TypeError \/ e = UnicodeError \/ e = SystemExit 0).
Proof.
  intros Ho Hr Hbad. unfold wisp_server._parse_request.
  destruct (decide (length packet = 36%nat)) as [Hlen|Hlen].
  2:{ exists TypeError. split; [|by left].
      by rewrite (bind_Raise _ _ _ _ _ (_recv_short _ _ _ _ _ _ Ho Hr Hlen)). }
  rewrite (bind_Ret _ _ _ _ _ (_recv_full _ _ _ _ _ _ Ho Hr Hlen)).
  unfold packet_request in Hbad.
  destruct (decode (take 4 packet)) as [cmd|]; cbn [of_option];
    [|exists UnicodeError; split; [by rewrite bind_lift_Raise | auto]].
  rewrite bind_lift_Ret.
  destruct (wcom.valid cmd) eqn:Hv;
    [|exists (SystemExit 0); split; [done | auto]].
  destruct (decode (take 16 (drop 4 packet))) as [one|]; cbn [of_option];
    [|exists UnicodeError; split; [by rewrite bind_lift_Raise | auto]].
  rewrite bind_lift_Ret.
  destruct (decode (drop 20 packet)) as [two|]; cbn [of_option];
    [|exists UnicodeError; split; [by rewrite bind_lift_Raise | auto]].
  destruct Hbad. split; [done|]. eexists. split; [reflexivity|]. done.
Qed.

Lemma handshake_fails self w o packet c' :
  objects w !! self = Some o ->
  sock_recv 36 (_conn o) = Some (packet, c') ->
  ¬ (length packet = 36%nat /\
     exists req, packet_request packet = Some req /\
                 wcom.cmd req = wcom.VERSION /\
                 wcom.arg1 req = str "1.1") ->
  exists e w',
    wisp_server._version_handshake self w = (Done (Raise e), w') /\
    (e = TypeError \/ e = UnicodeError \/ e = SystemExit 0
     \/ e = SystemExit 1) /\
    (forall req, length packet = 36%nat ->
                 packet_request packet = Some req ->
                 wcom.valid (wcom.cmd req) = true ->
                 e = SystemExit 1 /\
                 w' = with_object self
                        (set_conn
                           (sock_send
                              (if decide (wcom.cmd req = wcom.VERSION)
                               then unsupported_version_response
                               else invalid_version_response)
                              (sock_send version_list_response c')) o) w).
Proof.
  intros Ho Hr Hbad.
  assert ((length packet = 36%nat /\
           exists req, packet_request packet = Some req /\
                       wcom.valid (wcom.cmd req) = true)
          \/ ¬ (length packet = 36%nat /\
                exists req, packet_request packet = Some req /\
                            wcom.valid (wcom.cmd req) = true))
    as [(Hlen & req & Hreq & Hv)|Hno].
  { destruct (decide (length packet = 36%nat)); [|right; tauto].
    destruct (packet_request packet) as [req|] eqn:E;
      [|right; by intros (_ & r & ? & _)].
    destruct (wcom.valid (wcom.cmd req)) eqn:V; [left; eauto|].
    right. intros (_ & r & Hr' & Hv'). injection Hr' as <-. congruence. }
  - destruct (decide (wcom.cmd req = wcom.VERSION)) as [Hcmd|Hcmd].
    + assert (wcom.arg1 req ≠ str "1.1") as Harg
        by (intros Harg; apply Hbad; eauto).
      eexists _, _. split;
        [by apply (handshake_unsupported self w o packet c' req)|].
      split; [auto|]. intros req' _ Hreq' _.
      rewrite Hreq in Hreq'. injection Hreq' as <-.
      by rewrite decide_True.
    + eexists _, _. split;
        [by apply (handshake_rejects self w o packet c' req)|].
      split; [auto|]. intros req' _ Hreq' _.
      rewrite Hreq in Hreq'. injection Hreq' as <-.
      by rewrite decide_False.
  - unfold wisp_server._version_handshake.
    erewrite (bind_Ret (wisp_server._send_res _ _ _))
      by (eapply _send_res_Some; [obj_lookup | reflexivity]).
    destruct (_parse_request_raises self
                (with_object self
                   (set_conn (sock_send version_list_response (_conn o)) o)
                   w)
                (set_conn (sock_send version_list_response (_conn o)) o)
                packet (sock_send version_list_response c'))
      as (e & Hrun & He);
      [apply lookup_with_object | by apply sock_recv_send | done |].
    rewrite (bind_Raise _ _ _ _ _ Hrun).
    eexists _, _. split; [reflexivity|]. split; [tauto|].
    intros req Hlen Hreq Hv. destruct Hno. eauto.
Qed.

(** [X13].  The first packet of a connection is a [VERSION] request for
    the supported version, or the server ends.  The handshake runs in the
    constructor of the session on the accepting thread, and whatever it
    raises leaves [start] and [main], which catch nothing: a short read, a
    field that is not valid UTF-8, an unrecognized code, another command
    or an unsupported version all end the whole server process, with
    status 0 or 1, before the session is started or registered.  After a
    recognized command the status is 1. *)
Theorem failed_handshake_ends_the_server (w : World) (conn : Socket)
    (packet : bytes) (c' : Socket) :
  sock_recv 36 conn = Some (packet, c') ->
  ¬ (length packet = 36%nat /\
     exists req, packet_request packet = Some req /\
                 wcom.cmd req = wcom.VERSION /\
                 wcom.arg1 req = str "1.1") ->
  (exists status,
     server.start_turn conn w = server.Exited status /\
     (status = 0 \/ status = 1))
  /\ (forall req, length packet = 36%nat ->
                  packet_request packet = Some req ->
                  wcom.valid (wcom.cmd req) = true ->
                  server.start_turn conn w = server.Exited 1).
Proof.
  intros Hr Hbad.
  set (ref := fresh (dom (objects w))).
  set (o0 := mkWispServer None None [] conn 0 true wcom.Listening false).
  set (w0 := mkWorld (DATASTORE w) (<[ref := o0]> (objects w))
                     (_sessions w) (clock w)).
  assert (objects w0 !! ref = Some o0) as Ho0 by apply lookup_insert_eq.
  destruct (handshake_fails ref w0 o0 packet c' Ho0 Hr Hbad)
    as (e & w' & Hhs & He & Hone).
  assert (server.accept conn w = (Done (Raise e), w')) as Hacc.
  { unfold server.accept, get_world.
    change ((get_state ≫= ?k) w) with (k w w). cbv beta zeta.
    fold ref o0. unfold put_world.
    change ((put_state ?x ≫= ?k) w) with (k tt x). cbv beta. fold w0.
    by rewrite (bind_Raise _ _ _ _ _ Hhs). }
  unfold server.start_turn. rewrite Hacc. split.
  - destruct He as [-> | [-> | [-> | ->]]]; eauto.
  - intros req Hlen Hreq Hv.
    destruct (Hone req Hlen Hreq Hv) as [-> _]. reflexivity.
Qed.

Lemma failed_handshake_ends_the_server_witness :
  let packet := example.request wcom.VERSION (str "1.0") (str "") in
  let w := example.three_peers in
  server.start_turn (example.socket [packet]) w = server.Exited 1.
Proof.
  intros packet w.
  set (req := wcom.mkRequest wcom.VERSION (str "1.0") (str "")).
  assert (sock_recv 36 (example.socket [packet])
          = Some (packet, example.socket [])) as Hr
    by (vm_compute; reflexivity).
  assert (length packet = 36%nat) as Hlen by (vm_compute; reflexivity).
  assert (packet_request packet = Some req) as Hreq
    by (vm_compute; reflexivity).
  assert (wcom.valid (wcom.cmd req) = true) as Hv
    by (vm_compute; reflexivity).
  assert (¬ (length packet = 36%nat /\
             exists r, packet_request packet = Some r /\
                       wcom.cmd r = wcom.VERSION /\
                       wcom.arg1 r = str "1.1")) as Hbad.
  { intros (_ & r & Hr' & _ & Harg). rewrite Hreq in Hr'.
    injection Hr' as <-. revert Harg. vm_compute. congruence. }
  exact (proj2 (failed_handshake_ends_the_server w (example.socket [packet])
                  packet (example.socket []) Hr Hbad)
           req Hlen Hreq Hv).
Defined.

(** ** Conversations *)

Lemma parse_message_full now c packet c' m :
  sock_recv 132 c = Some (packet, c') ->
  length packet = 132%nat ->
  packet_message now packet = Some m ->
  wcom.parse_message now c = (Done (Ret (Some m)), c').
Proof.
  intros Hr Hlen Hm. unfold wcom.parse_message, try_except.
  rewrite (bind_Ret _ _ _ _ _ (recv_Some _ _ _ _ Hr)).
  rewrite bool_decide_false by lia.
  unfold packet_message in Hm.
  destruct (unpack_I (take 4 packet)) as [ts|]; [|done].
  destruct (decode (drop 4 packet)) as [field|]; [|done].
  simpl in Hm. injection Hm as <-. reflexivity.
Qed.

Lemma run_iteration_conversation cbs msg_cb self w o :
  objects w !! self = Some o ->
  _state o = wcom.Conversation ->
  wisp_server.run_iteration cbs msg_cb self w =
  try_except (wisp_server.run_conversation msg_cb self)
             (fun err => _ ← conn_close self; sys_exit 1) w.
Proof.
  intros Ho Hst. unfold wisp_server.run_iteration, try_except.
  rewrite (bind_Ret _ _ _ _ _ (getattr_Some _ _ _ _ Ho)).
  by rewrite decide_True.
Qed.

(** [X14].  An empty message ends a conversation: a session in
    [Conversation] that reads a full message frame whose text is empty
    goes back to [Command].  The message is handed to nobody, whatever
    the routing callback is, and the recorded target stays. *)
Theorem empty_message_leaves_the_conversation
    (cbs : wisp_server.ReqCallbacks)
    (msg_cb : option pystr -> wcom.WispMessage -> M unit)
    (self : nat) (w : World) (o : WispServer) (packet : bytes)
    (c' : Socket) (m : wcom.WispMessage) :
  objects w !! self = Some o ->
  alive o = true -> _working o = true ->
  _state o = wcom.Conversation ->
  msgq o = [] ->
  sock_recv 132 (_conn o) = Some (packet, c') ->
  length packet = 132%nat ->
  packet_message (clock w) packet = Some m ->
  wcom.text m = [] ->
  wisp_server.thread_step cbs msg_cb self w =
  with_object self (set_state wcom.Command (set_conn c' o)) w.
Proof.
  intros Ho Ha Hw Hst Hq Hr Hlen Hm Htext.
  rewrite (thread_step_running _ _ _ _ _ Ho Ha Hw).
  rewrite (run_iteration_conversation _ _ _ _ _ Ho Hst).
  unfold try_except, wisp_server.run_conversation.
  rewrite (bind_Ret _ _ _ _ _ (getattr_Some _ _ _ _ Ho)).
  rewrite (sock_recv_readable _ _ _ Hr). cbv iota.
  rewrite !bind_assoc. unfold get_world.
  change ((get_state ≫= ?k) w) with (k w w). cbv beta.
  rewrite !bind_assoc.
  rewrite (bind_Ret _ _ _ _ _
             (on_conn_Some _ _ _ _ _ _ Ho
                (parse_message_full (clock w) _ _ _ _ Hr Hlen Hm))).
  rewrite bool_decide_true by done.
  repeat st_step.
  change (msgq (set_state wcom.Command (set_conn c' o))) with (msgq o).
  rewrite Hq. reflexivity.
Qed.

Lemma empty_message_leaves_the_conversation_witness :
  let packet := default [] (wcom.build_msg 1528000000 []) in
  let o := mkWispServer (Some example.andrei) (Some example.safa) []
             (example.socket [packet]) 0 true wcom.Conversation true in
  let w := example.world [o; example.talking example.safa example.andrei true]
  in
  packet_message (clock w) packet = Some (wcom.mkMessage 1528000000 []) /\
  wisp_server.thread_step server._handlers server._handle_message 0 w =
  with_object 0 (set_state wcom.Command (set_conn (example.socket []) o)) w.
Proof.
  intros packet o w. split; [reflexivity|].
  exact (empty_message_leaves_the_conversation server._handlers
           server._handle_message 0 w o packet (example.socket [])
           (wcom.mkMessage 1528000000 [])
           eq_refl eq_refl eq_refl eq_refl eq_refl eq_refl eq_refl eq_refl
           eq_refl).
Defined.

Lemma conversation_idle_turn cbs msg_cb self w o m q b :
  objects w !! self = Some o ->
  alive o = true -> _working o = true ->
  _state o = wcom.Conversation ->
  sock_readable (_conn o) = false ->
  msgq o = m :: q ->
  wcom.build_msg (wcom.time m) (wcom.text m) = Some b ->
  wisp_server.thread_step cbs msg_cb self w =
  with_object self (set_conn (sock_send b (_conn o)) (set_msgq q o)) w.
Proof.
  intros Ho Ha Hw Hst Hidle Hq Hb.
  rewrite (thread_step_running _ _ _ _ _ Ho Ha Hw).
  rewrite (run_iteration_conversation _ _ _ _ _ Ho Hst).
  unfold try_except, wisp_server.run_conversation.
  rewrite (bind_Ret _ _ _ _ _ (getattr_Some _ _ _ _ Ho)).
  rewrite Hidle. cbv iota. repeat st_step. rewrite Hq.
  repeat st_step. rewrite Hb.
  erewrite conn_send_Some by obj_lookup.
  by rewrite with_object_twice.
Qed.

(** [X15].  A session in [Conversation] with nothing to read sends its
    queued messages first in, first out, one frame per turn: after as many
    turns as the first part of the queue has messages, their frames have
    been written to the socket in the order of the queue, the rest of the
    queue is waiting, and nothing else has changed. *)
Theorem queued_messages_leave_in_order (self : nat)
    (sent : list wcom.WispMessage) :
  forall (w : World) (o : WispServer) (rest : list wcom.WispMessage)
         (frames : list bytes),
    objects w !! self = Some o ->
    alive o = true -> _working o = true ->
    _state o = wcom.Conversation ->
    sock_readable (_conn o) = false ->
    msgq o = sent ++ rest ->
    Forall2 (fun m b => wcom.build_msg (wcom.time m) (wcom.text m) = Some b)
            sent frames ->
    session_steps (length sent) self w =
    with_object self
      (set_conn (mkSocket (rx (_conn o)) (peer_closed (_conn o))
                          (tx (_conn o) ++ frames) (closed (_conn o)))
         (set_msgq rest o)) w.
Proof.
  induction sent as [|m sent IH];
    intros w o rest frames Ho Ha Hw Hst Hidle Hq Hall.
  - apply Forall2_nil_inv_l in Hall as ->. simpl in *.
    rewrite app_nil_r. unfold with_object. destruct w as [ds objs ss ck].
    simpl in *. f_equal. rewrite <- Hq.
    destruct o as [? ? ? [? ? ? ?] ? ? ? ?]. simpl.
    by rewrite insert_id.
  - apply Forall2_cons_inv_l in Hall as (b & frames' & Hb & Hall & ->).
    simpl. unfold server.session_step.
    rewrite (conversation_idle_turn _ _ _ _ _ m (sent ++ rest) b
               Ho Ha Hw Hst Hidle Hq Hb).
    erewrite IH; [| apply lookup_with_object | done..].
    rewrite with_object_twice. simpl. unfold set_conn, set_msgq. simpl.
    by rewrite <- app_assoc.
Qed.

Lemma queued_messages_leave_in_order_witness :
  let bye := wcom.mkMessage 1528000001 (str "bye") in
  let o := mkWispServer (Some example.safa) (Some example.andrei)
             [example.hello; bye] (example.socket []) 0 true
             wcom.Conversation true in
  let w := example.world [o] in
  exists f1 f2,
    wcom.build_msg 1528000000 (str "hello") = Some f1 /\
    wcom.build_msg 1528000001 (str "bye") = Some f2 /\
    session_steps 2 0 w =
    with_object 0
      (set_conn (mkSocket [] false [f1; f2] false) (set_msgq [] o)) w.
Proof.
  intros bye o w. eexists _, _.
  split; [reflexivity|]. split; [reflexivity|].
  apply (queued_messages_leave_in_order 0 [example.hello; bye] w o []);
    [reflexivity | reflexivity | reflexivity | reflexivity | reflexivity
    | reflexivity |].
  repeat constructor.
Defined.

(** ** A message on its way from one session to another *)

Section Relay.
Implicit Types (w : World) (o : WispServer).

Lemma lookup_with_object_ne a b o w :
  a ≠ b -> objects (with_object a o w) !! b = objects w !! b.
Proof. intros Hne. unfold with_object. simpl. by rewrite lookup_insert_ne. Qed.

(** What the turn of a session that reads a message with a text leaves of
    another session [b]: what routing made of it. *)
Lemma conversation_turn_routes a b w oa packet ca' m :
  a ≠ b ->
  objects w !! a = Some oa ->
  alive oa = true -> _working oa = true ->
  _state oa = wcom.Conversation ->
  sock_recv 132 (_conn oa) = Some (packet, ca') ->
  length packet = 132%nat ->
  packet_message (clock w) packet = Some m ->
  wcom.text m ≠ [] ->
  no_dangling w ->
  objects (server.session_step a w) !! b =
  objects (server._handle_message (target oa) m
             (with_object a (set_conn ca' oa) w)).2 !! b.
Proof.
  intros Hne Ho Ha Hw Hst Hr Hlen Hm Htext Hok.
  unfold server.session_step.
  rewrite (thread_step_running _ _ _ _ _ Ho Ha Hw).
  rewrite (run_iteration_conversation _ _ _ _ _ Ho Hst).
  unfold try_except, wisp_server.run_conversation.
  rewrite (bind_Ret _ _ _ _ _ (getattr_Some _ _ _ _ Ho)).
  rewrite (sock_recv_readable _ _ _ Hr). cbv iota.
  rewrite !bind_assoc. unfold get_world.
  change ((get_state ≫= ?k) w) with (k w w). cbv beta.
  rewrite !bind_assoc.
  rewrite (bind_Ret _ _ _ _ _
             (on_conn_Some _ _ _ _ _ _ Ho
                (parse_message_full (clock w) _ _ _ _ Hr Hlen Hm))).
  rewrite bool_decide_false by done.
  set (w1 := with_object a (set_conn ca' oa) w).
  assert (objects w1 !! a = Some (set_conn ca' oa)) as Ho1
    by apply lookup_with_object.
  assert (no_dangling w1) as Hok1 by (by apply no_dangling_with_object).
  rewrite !bind_assoc.
  rewrite (bind_Ret _ _ _ _ _ (getattr_Some _ _ _ _ Ho1)).
  change (target (set_conn ca' oa)) with (target oa).
  destruct (routed_object (target oa) m w1 a _ Hok1 Ho1) as (k & Hk & _).
  pose proof (_handle_message_spec (target oa) m w1 Hok1) as Hspec.
  destruct (server._handle_message (target oa) m w1) as [r w2] eqn:Hrun.
  injection Hspec as -> Hw2. simpl in Hk. cbn [snd].
  rewrite (bind_Ret _ _ _ _ _ Hrun).
  rewrite (bind_Ret _ _ _ _ _ (getattr_Some _ _ _ _ Hk)).
  destruct (msgq _) as [|m' q']; [done|].
  rewrite (bind_Ret _ _ _ _ _ (setattr_Some _ _ _ _ Hk)).
  destruct (wcom.build_msg (wcom.time m') (wcom.text m')) as [bb|].
  - erewrite conn_send_Some by apply lookup_with_object.
    rewrite with_object_twice. by rewrite lookup_with_object_ne.
  - unfold conn_send. cbn [of_option]. rewrite bind_lift_Raise.
    cbn [is_Exception]. unfold conn_close.
    repeat st_step. unfold sys_exit, raise.
    erewrite setattr_Some by obj_lookup.
    cbn [snd]. rewrite with_object_twice. by rewrite lookup_with_object_ne.
Qed.
End Relay.

(** [X20].  A message travels from one session to another in two turns.
    When a session in [Conversation] reads a full message frame with a
    text, its turn puts the message on the queue of every live session of
    its target that is in [Conversation], whoever that session is talking
    to; such a session with an empty queue and nothing to read then
    writes the message's frame to its own socket on its next turn, and
    its queue is empty again. *)
Theorem message_is_relayed (a b : nat) (w : World) (oa ob : WispServer)
    (packet : bytes) (ca' : Socket) (m : wcom.WispMessage) (out : bytes) :
  a ≠ b ->
  no_dangling w -> NoDup (_sessions w) -> b ∈ _sessions w ->
  objects w !! a = Some oa ->
  alive oa = true -> _working oa = true ->
  _state oa = wcom.Conversation ->
  sock_recv 132 (_conn oa) = Some (packet, ca') ->
  length packet = 132%nat ->
  packet_message (clock w) packet = Some m ->
  wcom.text m ≠ [] ->
  objects w !! b = Some ob ->
  alive ob = true -> _working ob = true ->
  _state ob = wcom.Conversation ->
  user ob = target oa ->
  msgq ob = [] ->
  sock_readable (_conn ob) = false ->
  wcom.build_msg (wcom.time m) (wcom.text m) = Some out ->
  objects (server.session_step a w) !! b = Some (set_msgq [m] ob)
  /\ objects (server.session_step b (server.session_step a w)) !! b =
     Some (set_conn (sock_send out (_conn ob)) (set_msgq [] ob)).
Proof.
  intros Hne Hok Hnd Hin Hoa Haa Hwa Hsa Hr Hlen Hm Htext
         Hob Hab Hwb Hsb Hub Hqb Hidle Hout.
  assert (objects (server.session_step a w) !! b = Some (set_msgq [m] ob))
    as Hstep1.
  { rewrite (conversation_turn_routes a b w oa packet ca' m) by done.
    set (w1 := with_object a (set_conn ca' oa) w).
    assert (no_dangling w1) as Hok1 by (by apply no_dangling_with_object).
    assert (objects w1 !! b = Some ob) as Hob1
      by (unfold w1; by rewrite lookup_with_object_ne).
    destruct (routed_object (target oa) m w1 b ob Hok1 Hob1)
      as (k & Hk & Hone).
    rewrite Hk, (Hone Hnd Hin). simpl. unfold deliver.
    rewrite Hab, (bool_decide_true _ Hub), (bool_decide_true _ Hsb).
    simpl. by rewrite Hqb. }
  split; [exact Hstep1|].
  unfold server.session_step at 1.
  rewrite (conversation_idle_turn _ _ _ _ _ m [] out Hstep1);
    [| done..].
  by rewrite lookup_with_object.
Qed.

Lemma message_is_relayed_witness :
  let packet := default [] (wcom.build_msg 1528000000 (str "hello")) in
  let oa := mkWispServer (Some example.andrei) (Some example.safa) []
              (example.socket [packet]) 0 true wcom.Conversation true in
  let ob := example.talking example.safa example.michael true in
  let w := example.world [oa; ob] in
  no_dangling w /\ NoDup (_sessions w) /\
  objects w !! 0%nat = Some oa /\ objects w !! 1%nat = Some ob /\
  packet_message (clock w) packet = Some example.hello /\
  objects (server.session_step 1 (server.session_step 0 w)) !! 1%nat =
  Some (set_conn (sock_send packet (_conn ob)) (set_msgq [] ob)).
Proof.
  intros packet oa ob w.
  assert (no_dangling w) as Hok by by_evaluation.
  assert (NoDup (_sessions w)) as Hnd by by_evaluation.
  assert (1%nat ∈ _sessions w) as Hin by by_evaluation.
  assert (objects w !! 0%nat = Some oa) as Hoa by (vm_compute; reflexivity).
  assert (objects w !! 1%nat = Some ob) as Hob by (vm_compute; reflexivity).
  assert (sock_recv 132 (_conn oa) = Some (packet, example.socket []))
    as Hr by (vm_compute; reflexivity).
  assert (length packet = 132%nat) as Hlen by (vm_compute; reflexivity).
  assert (packet_message (clock w) packet = Some example.hello) as Hm
    by (vm_compute; reflexivity).
  assert (wcom.text example.hello ≠ []) as Htext by (vm_compute; congruence).
  assert (wcom.build_msg (wcom.time example.hello) (wcom.text example.hello)
          = Some packet) as Hout by (vm_compute; reflexivity).
  split; [exact Hok|]. split; [exact Hnd|]. split; [exact Hoa|].
  split; [exact Hob|]. split; [exact Hm|].
  exact (proj2 (message_is_relayed 0 1 w oa ob packet (example.socket [])
                  example.hello packet ltac:(discriminate) Hok Hnd Hin Hoa
                  eq_refl eq_refl eq_refl Hr Hlen Hm Htext Hob
                  eq_refl eq_refl eq_refl eq_refl eq_refl eq_refl Hout)).
Defined.

(** ** Discovery, both ends *)

Lemma str_contains_prefix needle rest :
  str_contains needle (needle ++ rest) = true.
Proof.
  assert (take (length needle) (needle ++ rest) = needle) as Htake
    by (by rewrite take_app_length).
  destruct (needle ++ rest) as [|c h] eqn:E; simpl;
    rewrite <- ?E; rewrite ?E, Htake; by rewrite bool_decide_true.
Qed.

(** [X16].  The two ends of discovery agree: the responder answers the
    client's probe with a datagram from which the client's [discover]
    reads the responder's address back (its first 15 characters, all a
    dotted IPv4 address can have).  Neither end reacts to its own
    traffic on the shared port: the responder does not answer a reply,
    and the client does not take the probe for a reply. *)
Theorem discovery_round_trip (addr : pystr) :
  is_ascii addr ->
  exists reply,
    server.service_descovery addr wcom.WISP_ARP_REQ = Ret (Some reply) /\
    wisp_client.discover reply = Ret (Some (take 15 addr)) /\
    server.service_descovery addr reply = Ret None /\
    wisp_client.discover wcom.WISP_ARP_REQ = Ret None.
Proof.
  intros Ha. exists (wcom.WISP_ARP_RES ++ addr).
  split; [|split; [|split]].
  - unfold server.service_descovery, server.udp_recv. cbv zeta.
    rewrite firstn_all, decide_True by done.
    by rewrite (encode_ascii _ Ha).
  - unfold wisp_client.discover, server.udp_recv. cbv zeta.
    rewrite take_app_add'  by done.
    rewrite str_contains_prefix.
    rewrite drop_app_length.
    rewrite decode_ascii; [done|].
    unfold is_ascii in *. by apply Forall_take.
  - unfold server.service_descovery, server.udp_recv. cbv zeta.
    rewrite decide_False; [done|]. simpl. discriminate.
  - reflexivity.
Qed.

Lemma discovery_round_trip_witness :
  let addr := str "192.168.0.7" in
  is_ascii addr /\
  wisp_client.discover (str "WISPRES:192.168.0.7") = Ret (Some addr).
Proof.
  intros addr.
  assert (is_ascii addr) as Ha by by_evaluation.
  split; [exact Ha|].
  destruct (discovery_round_trip addr Ha) as (reply & Hs & Hc & _).
  assert (reply = str "WISPRES:192.168.0.7") as <-.
  { assert (server.service_descovery addr wcom.WISP_ARP_REQ
            = Ret (Some (str "WISPRES:192.168.0.7"))) as Hs'
      by (vm_compute; reflexivity).
    rewrite Hs in Hs'. by injection Hs'. }
  exact Hc.
Defined.

(** ** The handshake, both ends *)

(** [X17].  The two handshakes fit together.  A client that finds the
    server's version list and then its acknowledgement on the socket
    sends one 36-byte [VERSION] request for the first listed version,
    [connect] returns [True] and the client is in [Authentication]; and a
    server session that reads this request answers exactly the version
    list and the acknowledgement and is in [Authentication] too. *)
Theorem handshakes_agree (q : list wisp_client.Incoming)
    (rest : list bytes) (pc : bool) (sent : list bytes) (cl : bool)
    (self : nat) (w : World) (o : WispServer) (more : list bytes) :
  objects w !! self = Some o ->
  rx (_conn o) = version_request :: more ->
  wisp_client.connect
    (wisp_client.mkWispClient wcom.Listening q
       (mkSocket (version_list_response :: ok_response :: rest) pc sent cl))
  = (Done (Ret true),
     wisp_client.mkWispClient wcom.Authentication q
       (mkSocket rest pc (sent ++ [version_request]) cl))
  /\ length version_request = 36%nat
  /\ wisp_server._version_handshake self w =
     (Done (Ret tt),
      with_object self
        (set_state wcom.Authentication
           (set_conn
              (mkSocket more (peer_closed (_conn o))
                 (tx (_conn o) ++ [version_list_response; ok_response])
                 (closed (_conn o))) o)) w).
Proof.
  intros Ho Hrx. split; [by vm_compute|]. split; [reflexivity|].
  destruct (_conn o) as [r pc' t' cl'] eqn:Hc. simpl in Hrx. subst r.
  erewrite (handshake_accepts self w o version_request
              (mkSocket more pc' t' cl')
              (wcom.mkRequest wcom.VERSION (str "1.1") []));
    [| done | | reflexivity | by vm_compute | reflexivity | reflexivity].
  - unfold sock_send. simpl. by rewrite <- app_assoc.
  - rewrite Hc. apply sock_recv_whole. vm_compute. lia.
Qed.

Lemma handshakes_agree_witness :
  let o := example.session None wcom.Listening [version_request] in
  let w := example.world [o] in
  objects w !! 0%nat = Some o /\
  wisp_client.connect
    (wisp_client.mkWispClient wcom.Listening []
       (example.socket [version_list_response; ok_response]))
  = (Done (Ret true),
     wisp_client.mkWispClient wcom.Authentication []
       (mkSocket [] false [version_request] false)).
Proof.
  intros o w.
  assert (objects w !! 0%nat = Some o) as Ho by (vm_compute; reflexivity).
  split; [exact Ho|].
  exact (proj1 (handshakes_agree [] [] false [] false 0 w o [] Ho eq_refl)).
Defined.

(** ** client.py: menus and long lines *)

Section Menus.
Implicit Types (inputs rest skipped : list (option Z)) (options : list pystr).

(** The loop returns the first number in range, and the entries after
    it; the entries before it, numbers out of range and entries that are
    no numbers, are skipped. *)
Lemma _get_user_input_loop_first lower upper inputs :
  forall cur n rest,
    ¬ (lower <= cur <= upper) ->
    client._get_user_input_loop lower upper cur inputs = Some (n, rest) <->
    exists skipped,
      inputs = skipped ++ Some n :: rest /\
      lower <= n <= upper /\
      forall k, Some k ∈ skipped -> ¬ (lower <= k <= upper).
Proof.
  induction inputs as [|i inputs IH]; intros cur n rest Hcur; simpl;
    rewrite bool_decide_false by done.
  - split; [done|]. intros (skipped & H & _). by destruct skipped.
  - destruct i as [i|].
    + destruct (decide (lower <= i <= upper)) as [Hi|Hi].
      * destruct inputs; simpl; rewrite bool_decide_true by done.
        all: split.
        all: try (intros [= <- <-]; exists []; split; [done|];
                  split; [done|]; intros k Hk; by apply elem_of_nil in Hk).
        all: intros ([|x skipped] & H & Hn & Hskip); simpl in H;
          [by injection H as <- <- |].
        all: injection H as <- _; exfalso; apply (Hskip i); [left | done].
      * rewrite (IH i n rest Hi). split.
        -- intros (skipped & -> & Hn & Hskip). exists (Some i :: skipped).
           split; [done|]. split; [done|]. intros k Hk.
           apply elem_of_cons in Hk as [[= ->]|Hk]; [done | by apply Hskip].
        -- intros ([|x skipped] & H & Hn & Hskip); simpl in H.
           ++ injection H as <- _. done.
           ++ injection H as <- ->. exists skipped. split; [done|].
              split; [done|]. intros k Hk. apply Hskip. by right.
    + rewrite (IH cur n rest Hcur). split.
      * intros (skipped & -> & Hn & Hskip). exists (None :: skipped).
        split; [done|]. split; [done|]. intros k Hk.
        apply elem_of_cons in Hk as [?|Hk]; [done | by apply Hskip].
      * intros ([|x skipped] & H & Hn & Hskip); simpl in H; [done|].
        injection H as <- ->. exists skipped. split; [done|].
        split; [done|]. intros k Hk. apply Hskip. by right.
Qed.

(** [X18].  A menu returns the first valid choice and never an index
    outside its options.  [_draw_menu] skips the entries that are not
    numbers or not between 1 and the number of options plus one, returns
    as soon as such a number is entered, leaving the entries after it
    unread, and does not return before; the number after the last option
    gives [-1] ("go back") and any other the index of the option chosen,
    so the callers' [options[index]] cannot fail. *)
Theorem menu_returns_the_first_valid_choice options inputs
    (index : Z) rest :
  let upper := Z.of_nat (length options) + 1 in
  (client._draw_menu options inputs = Some (index, rest) <->
   exists skipped n,
     inputs = skipped ++ Some n :: rest /\
     1 <= n <= upper /\
     (forall k, Some k ∈ skipped -> ¬ (1 <= k <= upper)) /\
     index = if decide (n = upper) then -1 else n - 1)
  /\ (client._draw_menu options inputs = Some (index, rest) ->
      index = -1 \/
      (0 <= index /\ is_Some (options !! Z.to_nat index))).
Proof.
  intros upper.
  assert (client._draw_menu options inputs = Some (index, rest) <->
          exists skipped n,
            inputs = skipped ++ Some n :: rest /\
            1 <= n <= upper /\
            (forall k, Some k ∈ skipped -> ¬ (1 <= k <= upper)) /\
            index = if decide (n = upper) then -1 else n - 1) as Hiff.
  { unfold client._draw_menu, client._get_user_input. cbv zeta. fold upper.
    split.
    - intros H.
      destruct (client._get_user_input_loop 1 upper (-1) inputs)
        as [[n r]|] eqn:E; [|done].
      simpl in H. injection H as <- <-.
      apply _get_user_input_loop_first in E as (skipped & -> & Hn & Hskip);
        [|lia].
      exists skipped, n. split; [done|]. split; [done|]. split; [done|].
      case_bool_decide; by case_decide.
    - intros (skipped & n & -> & Hn & Hskip & ->).
      assert (client._get_user_input_loop 1 upper (-1)
                (skipped ++ Some n :: rest) = Some (n, rest)) as ->
        by (apply _get_user_input_loop_first; [lia | eauto]).
      simpl. case_bool_decide; by case_decide. }
  split; [exact Hiff|].
  intros H. apply Hiff in H as (skipped & n & _ & Hn & _ & ->).
  case_decide; [by left|]. right. split; [lia|].
  apply lookup_lt_is_Some. unfold upper in *. lia.
Qed.
End Menus.

Section Batches.
Implicit Types (line l : pystr).



End Batches.

(** ** The command tables *)

(** [X21].  The three tables of commands fit together.  A code is
    recognized by [WispRequest.valid] exactly when [STATE_MAP] lists it
    for some phase, and then for one phase only; a session has a handler
    for exactly the recognized codes other than [VERSION], which the
    handshake reads itself.  So every recognized command can be reached,
    and every command the loop lets through has a handler. *)
Theorem command_tables_agree (cmd : pystr) :
  (wcom.valid cmd = true <->
   exists p legal, wcom.STATE_MAP p = Some legal /\ cmd ∈ legal)
  /\ (forall p q legal legal',
        wcom.STATE_MAP p = Some legal -> cmd ∈ legal ->
        wcom.STATE_MAP q = Some legal' -> cmd ∈ legal' -> p = q)
  /\ (forall cbs self,
        is_Some (wisp_server._handlers cbs self cmd) <->
        wcom.valid cmd = true /\ cmd ≠ wcom.VERSION).
Proof.
  split; [|split].
  - unfold wcom.valid. rewrite bool_decide_eq_true. split.
    + intros H.
      repeat (apply elem_of_cons in H as [->|H]);
        [ exists wcom.Listening | exists wcom.Authentication
        | exists wcom.Command | exists wcom.Command | exists wcom.Command
        | exists wcom.Command | exists wcom.Command | exists wcom.Command
        | by apply elem_of_nil in H ];
        eexists; (split; [reflexivity|]); by_evaluation.
    + intros (p & legal & Hmap & Hin).
      destruct p; simpl in Hmap; try done; injection Hmap as <-;
        repeat (apply elem_of_cons in Hin as [->|Hin]);
        try (by apply elem_of_nil in Hin); by_evaluation.
  - intros p q legal legal' Hp Hin Hq Hin'.
    destruct p; simpl in Hp; try done; injection Hp as <-;
      destruct q; simpl in Hq; try done; injection Hq as <-;
      try reflexivity;
      repeat (apply elem_of_cons in Hin as [->|Hin]);
      try (by apply elem_of_nil in Hin);
      exfalso; revert Hin'; by_evaluation.
  - intros cbs self. unfold wisp_server._handlers, wcom.valid.
    rewrite bool_decide_eq_true. split.
    + intros Hh.
      repeat (case_decide; [subst cmd; split; by_evaluation|]).
      by destruct Hh.
    + intros [Hin Hne].
      repeat (apply elem_of_cons in Hin as [->|Hin]);
        try done; try (by apply elem_of_nil in Hin);
        repeat (case_decide; [by eexists|]); exfalso; eauto.
Qed.

(** ** What every turn keeps *)

Section Keeping.
Context {A B : Type}.
Implicit Types (w : World) (self : nat).

Lemma keeps_same (m : M A) : (forall w, (m w).2 = w) -> keeps m.
Proof. intros H w0 w Hwf Hst. by rewrite H. Qed.

Lemma keeps_ret (a : A) : keeps (mret a).
Proof. by apply keeps_same. Qed.

Lemma keeps_lift (r : result A) : keeps (lift r).
Proof. by apply keeps_same. Qed.

Lemma keeps_raise e : keeps (raise e : M A).
Proof. by apply keeps_same. Qed.

Lemma keeps_sys_exit n : keeps (sys_exit n : M A).
Proof. by apply keeps_same. Qed.

Lemma keeps_block : keeps (block : M A).
Proof. by apply keeps_same. Qed.

Lemma keeps_bind (m : M A) (k : A -> M B) :
  keeps m -> (forall a, keeps (k a)) -> keeps (m ≫= k).
Proof.
  intros Hm Hk w0 w Hwf Hst. destruct (Hm w0 w Hwf Hst) as [Hwf1 Hst1].
  unfold mbind, ST_bind. destruct (m w) as [[[a|e]|] w1]; simpl in *;
    [by apply Hk | done | done].
Qed.

Lemma keeps_try_except (m : M A) (h : PyExc -> M A) :
  keeps m -> (forall e, keeps (h e)) -> keeps (try_except m h).
Proof.
  intros Hm Hh w0 w Hwf Hst. destruct (Hm w0 w Hwf Hst) as [Hwf1 Hst1].
  unfold try_except. destruct (m w) as [[[a|e]|] w1]; simpl in *;
    [done | | done].
  destruct (is_Exception e); [by apply Hh | done].
Qed.

Lemma kept_with_object w0 w self o o' :
  objects w !! self = Some o ->
  well_formed w -> steady w0 w ->
  well_formed (with_object self o' w) /\ steady w0 (with_object self o' w).
Proof.
  intros Ho (Hok & Hnd & Hsym & Hfr) (Hacc & Hsub & Hobj). split.
  - split; [by apply no_dangling_with_object | done].
  - split; [done|]. split; [done|]. intros ref Href.
    unfold with_object. simpl.
    destruct (decide (self = ref)) as [->|Hne].
    + rewrite lookup_insert_eq. by eexists.
    + rewrite lookup_insert_ne by done. by apply Hobj.
Qed.

Lemma keeps_getattr self (f : WispServer -> A) : keeps (getattr self f).
Proof.
  apply keeps_same. intros w. unfold getattr. run_st.
  by destruct (objects w !! self).
Qed.
End Keeping.

Section KeepingObjects.
Implicit Types (w : World) (self : nat).

Lemma keeps_get_world : keeps get_world.
Proof. by apply keeps_same. Qed.

Lemma keeps_setattr self f : keeps (setattr self f).
Proof.
  intros w0 w Hwf Hst. unfold setattr. run_st.
  destruct (objects w !! self) as [o|] eqn:Ho; simpl; [|done].
  by apply (kept_with_object w0 w self o).
Qed.

Lemma keeps_on_conn {A} self (call : ST Socket A) : keeps (on_conn self call).
Proof.
  unfold on_conn. apply keeps_bind; [apply keeps_getattr|]. intros c.
  destruct (call c) as [[r|] c']; [|apply keeps_block].
  apply keeps_bind; [apply keeps_setattr|]. intros _. apply keeps_lift.
Qed.

Lemma keeps_conn_send self payload : keeps (conn_send self payload).
Proof.
  unfold conn_send. apply keeps_bind; [apply keeps_lift|]. intros b.
  apply keeps_on_conn.
Qed.

Lemma keeps_conn_close self : keeps (conn_close self).
Proof.
  unfold conn_close. apply keeps_bind; [apply keeps_getattr|]. intros c.
  apply keeps_setattr.
Qed.

Lemma keeps_get_DATASTORE : keeps server.get_DATASTORE.
Proof. by apply keeps_same. Qed.

Lemma keeps_friends_of key : keeps (server.friends_of key).
Proof.
  apply keeps_same. intros w. unfold server.friends_of, server.get_DATASTORE.
  run_st. by destruct (server.ds_get (DATASTORE w) key).
Qed.
End KeepingObjects.

(** One step of the proof that a call keeps the server well formed. *)
Ltac keep_step :=
  first
    [ assumption
    | apply keeps_ret | apply keeps_lift | apply keeps_raise
    | apply keeps_sys_exit | apply keeps_block | apply keeps_get_world
    | apply keeps_getattr | apply keeps_setattr | apply keeps_on_conn
    | apply keeps_conn_send | apply keeps_conn_close
    | apply keeps_get_DATASTORE | apply keeps_friends_of
    | apply keeps_bind; [|intros ?]
    | apply keeps_try_except; [|intros ?]
    | match goal with
      | |- keeps (match ?x with _ => _ end) => destruct x
      end ].

Section KeepingHandlers.
Implicit Types (w : World) (self : nat).

Lemma keeps_server_handle_auth username password :
  keeps (server._handle_auth username password).
Proof. unfold server._handle_auth. repeat keep_step. Qed.

Lemma keeps_server_handle_list username :
  keeps (server._handle_list username).
Proof. unfold server._handle_list. repeat keep_step. Qed.

Lemma keeps_server_handle_search_loop keys owner lookup :
  forall acc, keeps (server._handle_search_loop keys owner lookup acc).
Proof.
  induction keys as [|user keys IH]; intros acc; simpl; repeat keep_step;
    apply IH.
Qed.

Lemma keeps_server_handle_search owner lookup :
  keeps (server._handle_search owner lookup).
Proof.
  unfold server._handle_search. repeat keep_step.
  apply keeps_server_handle_search_loop.
Qed.

Lemma keeps_server_handle_add owner user :
  keeps (server._handle_add owner user).
Proof.
  intros w0 w (Hok & Hnd & Hsym & Hfr) (Hacc & Hsub & Hobj).
  destruct (add_keeps_accounts (DATASTORE w0) w owner user Hacc)
    as (Hacc' & Hobjs & Hsess).
  split; [split; [|split; [|split]] | split; [|split]].
  - unfold no_dangling. by rewrite Hobjs, Hsess.
  - by rewrite Hsess.
  - by apply symmetric_add.
  - by apply add_keeps_friends_among_users.
  - done.
  - by rewrite Hsess.
  - by rewrite Hobjs.
Qed.

Lemma keeps_server_handle_del owner user :
  keeps (server._handle_del owner user).
Proof.
  intros w0 w (Hok & Hnd & Hsym & Hfr) (Hacc & Hsub & Hobj).
  destruct (del_keeps_accounts (DATASTORE w0) w owner user Hacc)
    as (Hacc' & Hobjs & Hsess).
  split; [split; [|split; [|split]] | split; [|split]].
  - unfold no_dangling. by rewrite Hobjs, Hsess.
  - by rewrite Hsess.
  - by apply symmetric_del.
  - by apply del_keeps_friends_among_users.
  - done.
  - by rewrite Hsess.
  - by rewrite Hobjs.
Qed.

Lemma keeps_server_handle_conv_loop conns target :
  keeps (server._handle_conv_loop conns target).
Proof.
  induction conns as [|conn conns IH]; simpl; repeat keep_step.
Qed.

Lemma keeps_server_handle_conv owner target :
  keeps (server._handle_conv owner target).
Proof.
  unfold server._handle_conv. repeat keep_step.
  all: try apply keeps_server_handle_conv_loop.
Qed.

Lemma keeps_server_handle_message receiver msg :
  keeps (server._handle_message receiver msg).
Proof.
  intros w0 w (Hok & Hnd & Hsym & Hfr) (Hacc & Hsub & Hobj).
  destruct (routing_keeps_registry receiver msg w Hok Hnd) as [Hok' Hnd'].
  pose proof (_handle_message_spec receiver msg w Hok) as Hspec.
  destruct (server._handle_message receiver msg w) as [r w'].
  injection Hspec as -> ->. cbn [snd] in *.
  split; [split; [exact Hok' | split; [exact Hnd' | by split]]|].
  split; [done|]. split.
  - cbn [_sessions]. etrans; [apply sublist_filter|done].
  - intros ref Href. apply Hobj in Href as [o Ho]. cbn [objects].
    rewrite foldr_alter_lookup, Ho. by eexists.
Qed.
End KeepingHandlers.

Section KeepingSessions.
Implicit Types (w : World) (self : nat).
Variable cbs : wisp_server.ReqCallbacks.
Variable msg_cb : option pystr -> wcom.WispMessage -> M unit.
Hypothesis keeps_AUTH : forall u p, keeps (wisp_server.cb_AUTH cbs u p).
Hypothesis keeps_LIST : forall u, keeps (wisp_server.cb_LIST cbs u).
Hypothesis keeps_SEARCH : forall u t, keeps (wisp_server.cb_SEARCH cbs u t).
Hypothesis keeps_ADD : forall u t, keeps (wisp_server.cb_ADD cbs u t).
Hypothesis keeps_DEL : forall u t, keeps (wisp_server.cb_DEL cbs u t).
Hypothesis keeps_CONV : forall u t, keeps (wisp_server.cb_CONV cbs u t).
Hypothesis keeps_msg_cb : forall t m, keeps (msg_cb t m).

Lemma keeps_bind_option {A B} e (x : option A) (k : A -> M B) :
  (forall a, x = Some a -> keeps (k a)) ->
  keeps (lift (of_option e x) ≫= k).
Proof.
  intros Hk. destruct x as [a|]; simpl.
  - intros w0 w. rewrite bind_lift_Ret. by apply Hk.
  - intros w0 w. by rewrite bind_lift_Raise.
Qed.

Lemma keeps__handle_quit {A} self :
  keeps (wisp_server._handle_quit self : M A).
Proof. apply keeps_sys_exit. Qed.

Lemma keeps__recv self size : keeps (wisp_server._recv self size).
Proof. unfold wisp_server._recv. repeat keep_step. Qed.

Lemma keeps__parse_request self : keeps (wisp_server._parse_request self).
Proof.
  unfold wisp_server._parse_request.
  repeat first [apply keeps__recv | apply keeps__handle_quit | keep_step].
Qed.

Lemma keeps__send_res self status data :
  keeps (wisp_server._send_res self status data).
Proof. apply keeps_conn_send. Qed.

Lemma keeps__handle_auth self username password :
  keeps (wisp_server._handle_auth cbs self username password).
Proof.
  unfold wisp_server._handle_auth. repeat first [apply keeps_AUTH | keep_step].
Qed.

Lemma keeps__handle_conv self target other :
  keeps (wisp_server._handle_conv cbs self target other).
Proof.
  unfold wisp_server._handle_conv. repeat first [apply keeps_CONV | keep_step].
Qed.

Lemma keeps__handlers self cmd handler :
  wisp_server._handlers cbs self cmd = Some handler ->
  forall one two, keeps (handler one two).
Proof.
  unfold wisp_server._handlers.
  repeat case_decide; intros [= <-] one two;
    repeat first
      [ apply keeps__handle_auth | apply keeps__handle_conv
      | apply keeps__handle_quit | keep_step | apply keeps_LIST | apply keeps_SEARCH
      | apply keeps_ADD | apply keeps_DEL | apply keeps_AUTH
      | apply keeps_CONV ].
Qed.

Lemma keeps_run_conversation self :
  keeps (wisp_server.run_conversation msg_cb self).
Proof.
  unfold wisp_server.run_conversation.
  repeat first [apply keeps_msg_cb | keep_step].
Qed.

Lemma keeps_run_request self st :
  keeps (wisp_server.run_request cbs self st).
Proof.
  unfold wisp_server.run_request.
  apply keeps_bind; [apply keeps__parse_request|]. intros req.
  apply keeps_bind; [apply keeps_lift|]. intros legal.
  case_bool_decide; [|apply keeps_ret].
  apply keeps_bind_option. intros handler Hh.
  apply keeps_bind; [by apply (keeps__handlers self _ _ Hh)|].
  intros [[|] data]; apply keeps__send_res.
Qed.

Lemma keeps_run_iteration self :
  keeps (wisp_server.run_iteration cbs msg_cb self).
Proof.
  unfold wisp_server.run_iteration.
  repeat first
    [ apply keeps_run_conversation | apply keeps_run_request | keep_step ].
Qed.

Lemma thread_step_kept self w0 w :
  well_formed w -> steady w0 w ->
  well_formed (wisp_server.thread_step cbs msg_cb self w)
  /\ steady w0 (wisp_server.thread_step cbs msg_cb self w).
Proof.
  intros Hwf Hst. unfold wisp_server.thread_step.
  destruct (objects w !! self) as [o|]; [|done].
  destruct (alive o); simpl; [|done].
  destruct (_working o); [|by apply keeps_setattr].
  pose proof (keeps_run_iteration self w0 w Hwf Hst) as Hrun.
  destruct (wisp_server.run_iteration cbs msg_cb self w)
    as [[[r|e]|] w1]; simpl in Hrun; [done | | done].
  destruct Hrun. by apply keeps_setattr.
Qed.
End KeepingSessions.

Section KeepingTurns.
Implicit Types (w : World) (self : nat).

Lemma steady_refl w : steady w w.
Proof. split; [apply same_accounts_refl|]. by split. Qed.

Lemma session_step_kept self w0 w :
  well_formed w -> steady w0 w ->
  well_formed (server.session_step self w)
  /\ steady w0 (server.session_step self w).
Proof.
  unfold server.session_step. apply thread_step_kept; simpl.
  - apply keeps_server_handle_auth.
  - apply keeps_server_handle_list.
  - apply keeps_server_handle_search.
  - apply keeps_server_handle_add.
  - apply keeps_server_handle_del.
  - apply keeps_server_handle_conv.
  - apply keeps_server_handle_message.
Qed.
End KeepingTurns.

(** [X23].  No turn of any session breaks the server, whatever the
    sessions read from their sockets.  From a state in which the registry
    lists existing thread objects, each once, friendship is symmetric and
    every friend is a user, every sequence of session turns leads to such
    a state again; and the users, their order and their passwords are the
    same as at the start, no thread object is lost, and the registry has
    gained no entry and kept its order (sessions only ever leave it). *)
Theorem turns_keep_the_server_well_formed (schedule : list nat) (w : World) :
  well_formed w ->
  well_formed (turns schedule w) /\ steady w (turns schedule w).
Proof.
  intros Hwf.
  assert (forall w1, well_formed w1 -> steady w w1 ->
            well_formed (turns schedule w1) /\ steady w (turns schedule w1))
    as Hall.
  { induction schedule as [|self schedule IH]; intros w1 Hwf1 Hst1;
      [done|].
    simpl. destruct (session_step_kept self w w1 Hwf1 Hst1) as [Hwf2 Hst2].
    by apply IH. }
  apply Hall; [done | apply steady_refl].
Qed.

Lemma turns_keep_the_server_well_formed_witness :
  let w := example.conv_with_ended_peer in
  well_formed w /\
  well_formed (turns [0; 1; 0]%nat w) /\ steady w (turns [0; 1; 0]%nat w).
Proof.
  intros w.
  assert (well_formed w) as Hwf.
  { split; [by_evaluation|]. split; [by_evaluation|]. split.
    - apply symmetric_on_keys_symmetric. by_evaluation.
    - apply friends_are_users_checked. by_evaluation. }
  split; [exact Hwf|].
  exact (turns_keep_the_server_well_formed [0; 1; 0]%nat w Hwf).
Defined.
